(* ===== verification/_CoqProject ===== *)
-Q . S2P
Prelude.v
Config.v
Image.v
ChangeDetector.v
Contours.v
LineCounter.v
ChainApprox.v
Pipeline.v
Blur.v
CounterSpec.v
Driver.v
