(* ===== verification/Prelude.v ===== *)
(** * A verification development of the OpenCV object counter

    The program, [src/converted.py], is one script that reads frames
    from a camera, subtracts a background frame, finds the moving blobs
    and counts as "entries" or "exits" the blobs whose centre lies on one
    of two horizontal reference lines.

    ** Parts of the program and where they are modelled

    The files are listed in dependency order in [_CoqProject].
    - [Prelude.v] (this file): the [oc_scope] notation [x // y] for
      Python's integer division, the hint databases [oc] and [oc_rw], the
      tactics [zbool] and [zcase], the generic lemmas on [zrange],
      maxima and minima of lists, counting with [countb] (invariance
      under [Permutation]), and the reflexive-transitive closure [star]
      of a step relation with its invariant and monotonicity lemmas.
    - [Config.v]: lines 11-13.  The record [config] of the three
      empirical constants and [source_config = (3000, 70, 150)].
    - [Image.v]: lines 48-50 and 57-58.  Frames as lists of rows
      ([gray_image] of 8-bit [Z], [color_image] of [bgr] triples),
      [np_size0] and [np_size1] ([np.size(Frame, 0/1)]), [px_get] (a pixel,
      0 outside the frame), OpenCV 3's fixed-point [cvtColor_BGR2GRAY], and
      [preprocess] = blur after gray conversion, where the blur is the
      interface [GaussianBlur] (laws: same shape, 8-bit output).
    - [ChangeDetector.v]: lines 67-73.  [absdiff] (with [None] for
      OpenCV's size-mismatch error), [threshold] (THRESH_BINARY),
      [dilate_rect r] (maximum over the [(2r+1)x(2r+1)] square, border
      ignored), [cv_dilate img n] ([n] dilations by the 3x3 kernel) and
      [detect], the whole foreground-mask computation.
    - [Contours.v]: lines 74, 87, 95, 101-102.  Contours as lists of
      points, [contour_area_x2] (twice [cv2.contourArea], the shoelace
      sum), [boundingRect], the centre [CenterXCoord]/[CenterYCoord], and
      the interface [ContourFinder] for [cv2.findContours] (laws: every
      contour is a non-empty list of foreground pixels).
    - [ChainApprox.v]: line 74, the last stage of [cv2.findContours].
      OpenCV's [icvFetchContour] turns a traced border (the record
      [border]: start pixel, first direction, Freeman chain) into the
      points of a contour: [write_chain] writes a point when the chain
      code changes or the method is [CHAIN_APPROX_NONE], [fetch_contour]
      starts it from the direction [s ^ 4] and keeps a single pixel, and
      [contours_of] gives the [contours] of a frame.  [closed_border] is
      the stop condition of the walk: back at the start pixel, coming from
      the direction [s ^ 4].
    - [LineCounter.v]: lines 15-31 and 76-112.  [TestEntryIntersection],
      [TestExitIntersection], the reference lines [EntryLineYCoord] and
      [ExitLineYCoord], the counters, the loop body [process_contour]
      (area filter, [ContourCount], both counter updates) and
      [count_frame], the loop over one frame's contours.
    - [Pipeline.v]: lines 39-63 and the rest of the [while] body.  The
      loop [state] ([FirstFrame], the counters, [width], [height]), one
      iteration [loop_iteration] with its three outcomes (next state,
      [break], uncaught [IndexError] or [cv2.error]), [run_loop] over a
      finite list of camera reads, [main] (20 discarded warm-up reads,
      then the loop) and the transition relation [step].
    - [Blur.v]: line 58.  OpenCV's 8-bit [GaussianBlur]: the separable
      fixed-point filter ([wsum], [row_filter], [blur_px], [blur_image])
      over an integer kernel with 8 fractional bits, rounded by
      [(v + 2^15) >> 16] and saturated, reading outside the frame through
      [borderInterpolate] (BORDER_REFLECT_101), whose [do ... while] loop
      is [reflect101_loop] with fuel.  [opencv_gaussian_blur kernel] is a
      [GaussianBlur]: OpenCV's blur discharges the interface's laws.
    - [CounterSpec.v]: the design of the specification as an abstract
      machine, parameterised by the contracts [Preprocess], [Detect] and
      [Extract]: the background lifecycle [Uninitialized] then
      [Ready reference], the per-blob contract [Evaluate] and the explicit
      counting state.  On the script's side, [blob_of] (lines 95-102) and
      [extract] (lines 85-102) give the retained blobs of a mask, and
      [abstraction] maps a loop state to the abstract state.
    - [Driver.v]: lines 33-46 and 124-126, and the drawing and display
      calls of the loop (81-82, 98, 104, 114-122).  Every call to the
      camera, the console and the window is an [event] of an output trace
      written by a small writer monad [io] ([ret], [bind], [emit], with the
      notation [x <- m ;; k]).  [process_contour_io], [count_frame_io] and
      [show_frame] emit the drawing and display calls around the counting
      of [LineCounter].  [loop_iteration_io] and [run_loop_io] are the loop
      with its events, [warmup_io] the 20 warm-up reads, and [program_io]
      the whole script: the camera opened at 640x480, the warm-up, the
      loop, and the release after a [break].

    The parts interact only through values, in the order of the loop: the
    colour frame goes to [preprocess], the gray frame and the background
    to [detect], the mask to [findContours], the contours and the frame's
    height to [count_frame] ([ChainApprox.contours_of] says how the
    traced borders become those contours); the loop state keeps the background and the
    two global counters.  The theorems of [Pipeline.v] are proved against
    the two interfaces, for every [GaussianBlur] and [ContourFinder];
    [Image.gaussian_blur_1x1] (the identity, which a 1x1 Gaussian is) and
    [Contours.pixel_contour_finder] (one contour per foreground pixel)
    are instances used only to evaluate the witnesses.
    [Blur.opencv_gaussian_blur] is OpenCV's blur; it meets the same
    interface, so every theorem of [Pipeline.v] holds with it.
    [CounterSpec.v] relates the loop of [Pipeline.v] to the design's
    abstract machine through [abstraction].  [Driver.v] wraps the same
    loop with its effects.  The state part of [program_io] is [main]
    ([Driver.program_io_eq] with [run_loop_io_fst]), so every theorem on
    [main] holds for the script with its I/O.

    ** What the theorems show (claim ids C1-C40 of the manifest)

    - Counting (LineCounter): the exact counts of one frame's pass (C1),
      the order of the lines and their place in the frame (C3), the two
      tests on every branch (C5), the spec's cases on and off the lines
      and the two-row tolerance (C7, C14), when one
      centre counts twice (C10), monotonicity (C11), independence from the
      order of the contours (C12), that small contours have no effect
      (C13), and that the area filter is not the spec's bounding-box
      filter: a rectangular blob is dropped exactly when its contour
      area, not its box, is below the minimum (C20).
    - Contour approximation (ChainApprox): on a closed border, the
      contour [CHAIN_APPROX_SIMPLE] keeps has the box and the area of the
      full [CHAIN_APPROX_NONE] contour (C4), so a frame's counting is the
      same with either method (C9).
    - Change detection (ChangeDetector): no false positive on a static
      scene (C2), the equivalence of two 3x3 dilations with OpenCV's 5x5
      one (C15), the size-mismatch error (C16), a binary mask (C17) and
      the mask's pixel-level specification (C34).
    - Blobs (Contours): centres lie in the frame (C18); the area, box and
      centre of a rectangular blob (C19).
    - The loop (Pipeline): [break] needs a frame (C22); the background
      never changes once captured (C24); counters never decrease
      (C25) and are non-negative in reachable states (C26); a static frame
      counts nothing (C27); a size change raises (C28) and a constant size
      never does (C33); a repeated frame is counted again each time
      (C29); the first 20 reads are ignored whatever they are, and the
      21st is the first one tested (C30).
    - Gray conversion (Image): a grey value written to the three channels
      comes back unchanged (C31) and the result is 8-bit (C32).
    - The design (CounterSpec): the loop refines the abstract machine in
      lockstep (C35); once the background is captured, the loop runs
      through a list of reads exactly when every read is a grabbed frame
      of the background's size (C36); [main], end to end, counts the design's per-blob evaluation
      of every frame after the background (C40).
    - The blur (Blur): the reflection loop of [borderInterpolate]
      terminates within its fuel (C37) and computes the closed form of
      BORDER_REFLECT_101 (C38); the blur never leaves the range of its
      input, so a uniform frame is unchanged (C39).
    - The script with its effects (Driver): over a whole run, the boxes
      and dots drawn are, frame by frame, those of the retained contours
      of every frame after the background, and each such frame is shown
      once (C6).  A counting iteration draws
      both lines and the box and centre of each retained contour, prints
      the number of retained contours and shows the updated counters (C8).
      A missing frame raises right after the read, and the camera is
      released exactly when the loop ends with [break] (C21).  The first
      frame becomes the background and nothing is drawn or shown for it
      (C23).

    ** Numbers, bounds and fuel

    Python integers are unbounded, so counters and coordinates are [Z]
    and no overflow can occur.  The script unpacks three results from
    [cv2.findContours] (the OpenCV 3 API) and passes the results of [/]
    to [cv2.line] and [cv2.circle], whose OpenCV 3 bindings accept only
    integers: it runs under Python 2, where [/] on integers is floor
    division, modelled as [Z.div].  Pixels are [Z] values in [0, 255];
    [cv2.contourArea] is a double that is exactly half an integer, so it
    is kept doubled in [Z].  [run_loop] recurses on the finite list of
    reads it is given: the camera's infinite stream is observed through
    its finite prefixes, and the theorems on runs (C35, C36, C40)
    hold for every prefix.  The only loop that is not structural is [borderInterpolate]'s
    reflection.  It is [reflect101_loop] with fuel [2 |p| + 1].  Each pass
    that stays out of the frame lowers [1 - 2p] (left of the frame) or
    [2p] (right of it), so that fuel is enough (C37); the fallback after
    the fuel runs out is never taken.  Every other function is structural
    or a [map] over index ranges.

    ** Not modelled

    - The camera and the display are modelled as the events of
      [Driver.v]: their arguments and their order.  What the drawing
      calls do to the pixels of [Frame] is OpenCV's rasterisation, which
      is not modelled; [Frame] is never read again after they run, so the
      counting does not depend on it.  The window system behind
      [cv2.imshow] and [cv2.waitKey] is outside the program.  The camera's
      behaviour is whatever list of reads it returns.
    - The 21 coefficients of the Gaussian kernel come from OpenCV's
      floating-point [exp] (sigma 3.5), then fixed-point rounding.  They
      are a parameter of [Blur.v], with the laws every version of OpenCV
      guarantees: non-negative, summing to [2^8] (the bit-exact kernel of
      OpenCV 3.4 and later).
    - [cv2.findContours] is the [ContourFinder] interface, and its
      approximation stage is [ChainApprox.v].  The border walk of Suzuki
      and Abe that produces the chain (the search of the next border
      pixel, the RETR_EXTERNAL choice of outer borders) is not modelled:
      [ChainApprox.v] takes the chain as a [border] and assumes it closed,
      which is what the walk guarantees.  The walk's termination and its
      agreement with the connected components of the mask rest on digital
      topology (the border of a component is a closed curve) that would
      need a development of its own.  A component-based finder would not
      reproduce the contour points that [cv2.contourArea] measures, so it
      would not be faithful to line 87.
    - [cv2.absdiff] of two arrays of different sizes is an error in the
      model.  OpenCV's arithmetic also reads a 1x1 or 1x4 single-channel
      operand as a scalar (computing a result or failing an assertion,
      depending on the 3.x release); a camera does not deliver frames of
      those sizes, so C16 and C28 leave that path out.
    - Python 3 is not a second reading of the script.  There [/] gives
      floats, and the script stops at [cv2.line] on line 81 before any
      counting (the manifest records it as a finding).

    ** What is left

    Every line of the script is modelled except the imports and the
    comments.  What remains is inside OpenCV: the border walk of
    [cv2.findContours], the rasterisation of the drawing calls, and the
    floating-point computation of the Gaussian kernel, each described
    above with the reason it is an interface or a parameter.  Natural
    extensions are per-pixel facts of the composed pipeline with OpenCV's
    blur (a frame equal to the background up to the blur's rounding
    gives an empty mask) and the contour-drawing events of [Driver.v]
    over a whole run. *)

From Stdlib Require Import ZArith List Lia Bool Permutation.
Import ListNotations.
Open Scope Z_scope.

Declare Scope oc_scope.
Delimit Scope oc_scope with oc.

(** Python's integer floor division [x / y] (Python 2) or [x // y]. *)
Notation "x // y" := (Z.div x y) (at level 40, left associativity) : oc_scope.

Create HintDb oc.
Create Rewrite HintDb oc_rw.

(** Integers [a], [a+1], ..., [a+n-1]: Python's [range(a, a+n)]. *)
Definition zrange (a : Z) (n : nat) : list Z :=
  map (fun k => a + Z.of_nat k) (seq 0 n).

(** Largest element of a list of non-negative values, 0 for the empty
    list (the border value of a dilation). *)
Definition fold_max (l : list Z) : Z := fold_right Z.max 0 l.

(** Number of elements satisfying [f]. *)
Definition countb {A} (f : A -> bool) (l : list A) : Z :=
  Z.of_nat (length (filter f l)).

(** Zero or more transitions of a relation [R]. *)
Inductive star {S : Type} (R : S -> S -> Prop) : S -> S -> Prop :=
| star_refl s : star R s s
| star_step s s' s'' : R s s' -> star R s' s'' -> star R s s''.

(** Turn the boolean comparisons of the code into propositions. *)
Ltac zbool :=
  repeat match goal with
  | H : (_ <=? _) = true |- _ => apply Z.leb_le in H
  | H : (_ <=? _) = false |- _ => apply Z.leb_gt in H
  | H : (_ <? _) = true |- _ => apply Z.ltb_lt in H
  | H : (_ <? _) = false |- _ => apply Z.ltb_ge in H
  | H : (_ =? _) = true |- _ => apply Z.eqb_eq in H
  | H : (_ =? _) = false |- _ => apply Z.eqb_neq in H
  | H : (_ && _) = true |- _ => apply andb_true_iff in H; destruct H
  | H : (_ || _) = false |- _ => apply orb_false_iff in H; destruct H
  end.

(** Case on every comparison of the goal, then arithmetic. *)
Ltac zcase :=
  repeat match goal with
  | |- context [ if ?b then _ else _ ] =>
      let E := fresh "E" in destruct b eqn:E; zbool
  end.

Lemma In_zrange (a y : Z) (n : nat) :
  In y (zrange a n) <-> a <= y < a + Z.of_nat n.
Proof.
  unfold zrange. rewrite in_map_iff. split.
  - intros [k [<- Hk]]. apply in_seq in Hk. lia.
  - intros H. exists (Z.to_nat (y - a)). split; [lia|].
    apply in_seq. lia.
Qed.

Lemma length_zrange (a : Z) (n : nat) : length (zrange a n) = n.
Proof. unfold zrange. rewrite length_map. apply length_seq. Qed.

Lemma nth_map_zrange {B} (f : Z -> B) (a : Z) (n : nat) (d : B) (k : nat) :
  (k < n)%nat -> nth k (map f (zrange a n)) d = f (a + Z.of_nat k).
Proof.
  intros Hk. unfold zrange. rewrite map_map.
  rewrite nth_indep with (d' := f (a + Z.of_nat 0)) by (rewrite length_map, length_seq; lia).
  rewrite (map_nth (fun k0 => f (a + Z.of_nat k0))), seq_nth by exact Hk.
  reflexivity.
Qed.

Lemma fold_max_nonneg (l : list Z) : 0 <= fold_max l.
Proof. induction l; simpl; lia. Qed.

Lemma fold_max_ge (l : list Z) (x : Z) : In x l -> x <= fold_max l.
Proof. induction l as [|a l IH]; simpl; [tauto|]. intros [->|H]; [lia|]. apply IH in H. lia. Qed.

Lemma fold_max_lub (l : list Z) (b : Z) :
  0 <= b -> (forall x, In x l -> x <= b) -> fold_max l <= b.
Proof.
  intros Hb. induction l as [|a l IH]; simpl; intros H; [lia|].
  specialize (H a (or_introl eq_refl)) as Ha. specialize (IH (fun x Hx => H x (or_intror Hx))). lia.
Qed.

(** The maximum of a list whose elements are all in [{0, v}] is 0 or [v]. *)
Lemma fold_max_two (l : list Z) (v : Z) :
  0 <= v -> Forall (fun x => x = 0 \/ x = v) l -> fold_max l = 0 \/ fold_max l = v.
Proof. intros Hv. induction 1 as [|a l Ha _ IH]; simpl; lia. Qed.

Lemma Permutation_filter {A} (f : A -> bool) (l l' : list A) :
  Permutation l l' -> Permutation (filter f l) (filter f l').
Proof.
  induction 1; simpl; auto.
  - destruct (f x); auto.
  - destruct (f x), (f y); auto using perm_swap.
  - eauto using Permutation_trans.
Qed.

Lemma countb_perm {A} (f : A -> bool) (l l' : list A) :
  Permutation l l' -> countb f l = countb f l'.
Proof. intros H. unfold countb. f_equal. apply Permutation_length, Permutation_filter, H. Qed.

Lemma countb_cons {A} (f : A -> bool) (a : A) (l : list A) :
  countb f (a :: l) = (if f a then 1 else 0) + countb f l.
Proof. unfold countb. simpl. destruct (f a); simpl length; lia. Qed.

Lemma countb_app {A} (f : A -> bool) (l l' : list A) :
  countb f (l ++ l') = countb f l + countb f l'.
Proof. unfold countb. rewrite filter_app, length_app. lia. Qed.

Lemma countb_nonneg {A} (f : A -> bool) (l : list A) : 0 <= countb f l.
Proof. unfold countb. lia. Qed.

Lemma countb_filter {A} (f g : A -> bool) (l : list A) :
  countb f (filter g l) = countb (fun a => g a && f a) l.
Proof.
  induction l as [|a l IH]; [reflexivity|]. simpl.
  rewrite countb_cons. destruct (g a); simpl; rewrite ?countb_cons, IH; reflexivity.
Qed.

#[export] Hint Resolve fold_max_nonneg fold_max_ge countb_nonneg : oc.
#[export] Hint Rewrite @countb_cons @countb_app length_zrange : oc_rw.

(** Running minimum and maximum, as OpenCV's bounding-box loop keeps them. *)
Lemma fold_min_le (l : list Z) (a : Z) :
  fold_left Z.min l a <= a /\ forall x, In x l -> fold_left Z.min l a <= x.
Proof.
  revert a. induction l as [|b l IH]; simpl; intros a; [split; [lia | tauto]|].
  destruct (IH (Z.min a b)) as [H1 H2]. split; [lia|].
  intros x [->|Hx]; [lia | auto].
Qed.

Lemma fold_max_left_ge (l : list Z) (a : Z) :
  a <= fold_left Z.max l a /\ forall x, In x l -> x <= fold_left Z.max l a.
Proof.
  revert a. induction l as [|b l IH]; simpl; intros a; [split; [lia | tauto]|].
  destruct (IH (Z.max a b)) as [H1 H2]. split; [lia|].
  intros x [->|Hx]; [lia | auto].
Qed.

Lemma countb_ext {A} (f g : A -> bool) (l : list A) :
  (forall a, f a = g a) -> countb f l = countb g l.
Proof. intros H. unfold countb. f_equal. f_equal. apply filter_ext, H. Qed.

(** The running minimum and maximum are elements of the list. *)
Lemma fold_min_In (l : list Z) (a : Z) : fold_left Z.min l a = a \/ In (fold_left Z.min l a) l.
Proof.
  revert a. induction l as [|b l IH]; simpl; intros a; [auto|].
  destruct (IH (Z.min a b)) as [->|H]; [|auto].
  destruct (Z.min_spec a b) as [[_ ->]|[_ ->]]; auto.
Qed.

Lemma fold_max_left_In (l : list Z) (a : Z) : fold_left Z.max l a = a \/ In (fold_left Z.max l a) l.
Proof.
  revert a. induction l as [|b l IH]; simpl; intros a; [auto|].
  destruct (IH (Z.max a b)) as [->|H]; [|auto].
  destruct (Z.max_spec a b) as [[_ ->]|[_ ->]]; auto.
Qed.

(** ** Sequences of transitions *)

Section Star.
Context {S : Type} (R : S -> S -> Prop).

Lemma star_one (s s' : S) : R s s' -> star R s s'.
Proof. eauto using star. Qed.

(** A property preserved by every transition holds along a sequence. *)
Lemma star_preserves (P : S -> Prop) :
  (forall s s', R s s' -> P s -> P s') -> forall s s', star R s s' -> P s -> P s'.
Proof. intros HP s s' H. induction H; eauto. Qed.

(** A preorder respected by every transition holds between the two
    ends of a sequence. *)
Lemma star_monotone (le : S -> S -> Prop) :
  (forall s, le s s) -> (forall s s' s'', le s s' -> le s' s'' -> le s s'') ->
  (forall s s', R s s' -> le s s') -> forall s s', star R s s' -> le s s'.
Proof. intros Hr Ht HR s s' H. induction H; eauto. Qed.
End Star.

#[export] Hint Constructors star : oc.

(** The maximum of values in [{0, v}], [v > 0], is [v] exactly when [v]
    occurs. *)
Lemma fold_max_hit (l : list Z) (v : Z) :
  0 < v -> Forall (fun x => x = 0 \/ x = v) l -> (fold_max l = v <-> In v l).
Proof.
  intros Hv Hl. split.
  - induction Hl as [|a l Ha Hl IH]; simpl; [lia|]. intros H.
    destruct Ha as [-> | ->]; [right; apply IH; pose proof (fold_max_nonneg l); lia | left; reflexivity].
  - intros Hin. apply Z.le_antisymm; [|apply fold_max_ge, Hin].
    apply fold_max_lub; [lia|]. intros x Hx. rewrite Forall_forall in Hl.
    destruct (Hl x Hx); lia.
Qed.

(** Dropping exactly the first [n] elements of a list ([l] has [n]). *)
Lemma skipn_app_length {A} (l r : list A) (n : nat) : length l = n -> skipn n (l ++ r) = r.
Proof. intros <-. rewrite skipn_app, skipn_all, Nat.sub_diag. reflexivity. Qed.
