(* ===== verification/Config.v ===== *)
(** The configuration of the counter: the three empirical constants of
    [src/converted.py] lines 11-13, fixed for the whole run.  The
    components take a [config] so that their theorems hold for every
    setting; [source_config] holds the values of the script. *)

From Stdlib Require Import ZArith Bool.
From S2P Require Import Prelude.
Open Scope Z_scope.

Record config := mk_config {
  MinimumContourArea : Z;     (** contours with a smaller area are ignored *)
  BinarizationThreshold : Z;  (** differences above it are foreground *)
  ReferenceLinesOffset : Z    (** distance of each line from the middle row *)
}.

(** [MinimumContourArea = 3000], [BinarizationThreshold = 70],
    [ReferenceLinesOffset = 150]. *)
Definition source_config : config := mk_config 3000 70 150.
