(* ===== verification/Image.v ===== *)
(** Frames and the frame preprocessor: [src/converted.py] lines 49-50
    ([np.size]), 57 ([cv2.cvtColor(Frame, cv2.COLOR_BGR2GRAY)]) and 58
    ([cv2.GaussianBlur(FrameGray, (21, 21), 0)]).

    A numpy [uint8] array of H rows and W columns is a list of H rows of
    W integers; a colour frame has a [bgr] triple per pixel (OpenCV's
    channel order).  [px_get] reads a pixel and returns 0 outside the
    frame, the border value of the morphological operations that read
    around a pixel.  The gray conversion is OpenCV 3's fixed-point
    [RGB2Gray<uchar>]; the blur is the interface [GaussianBlur], whose
    laws are those of an OpenCV filter (same shape, 8-bit output).
    OpenCV's implementation, [Blur.opencv_gaussian_blur], is in
    [Blur.v]. *)

From Stdlib Require Import ZArith List Lia Bool.
From S2P Require Import Prelude.
Import ListNotations.
Open Scope Z_scope.

Definition gray_image := list (list Z).

Record bgr := mk_bgr { blue : Z; green : Z; red : Z }.

Definition color_image := list (list bgr).

(** [np.size(Frame, 0)]: the number of rows. *)
Definition np_size0 {A} (img : list (list A)) : Z := Z.of_nat (length img).

(** [np.size(Frame, 1)]: the number of columns (of the first row). *)
Definition np_size1 {A} (img : list (list A)) : Z :=
  match img with [] => 0 | r :: _ => Z.of_nat (length r) end.

(** Pixel at row [y], column [x]; 0 outside the frame. *)
Definition px_get (img : gray_image) (y x : Z) : Z :=
  if (y <? 0) || (x <? 0) then 0 else nth (Z.to_nat x) (nth (Z.to_nat y) img []) 0.

(** The shape of a frame: the length of each row. *)
Definition shape {A} (img : list (list A)) : list nat := map (@length A) img.

(** Every row has [w] columns (numpy arrays are rectangular). *)
Definition rect {A} (w : nat) (img : list (list A)) : Prop :=
  Forall (fun r => length r = w) img.

Definition is_u8 (v : Z) : bool := (0 <=? v) && (v <=? 255).

(** Every pixel is an 8-bit value. *)
Definition u8_image (img : gray_image) : bool := forallb (forallb is_u8) img.

(** ** OpenCV 3 [cvtColor] with [COLOR_BGR2GRAY] on 8-bit frames *)

Definition yuv_shift : Z := 14.
Definition R2Y : Z := 4899.
Definition G2Y : Z := 9617.
Definition B2Y : Z := 1868.

(** [CV_DESCALE(b*B2Y + g*G2Y + r*R2Y, yuv_shift)]. *)
Definition gray_of_bgr (p : bgr) : Z :=
  Z.shiftr (blue p * B2Y + green p * G2Y + red p * R2Y + Z.shiftl 1 (yuv_shift - 1)) yuv_shift.

Definition cvtColor_BGR2GRAY (img : color_image) : gray_image := map (map gray_of_bgr) img.

Definition bgr_u8 (p : bgr) : bool := is_u8 (blue p) && is_u8 (green p) && is_u8 (red p).

Definition color_u8 (img : color_image) : bool := forallb (forallb bgr_u8) img.

(** ** The blur, an OpenCV filter the script only calls *)

Class GaussianBlur := {
  gaussian_blur : gray_image -> gray_image;
  gaussian_blur_shape : forall img, shape (gaussian_blur img) = shape img;
  gaussian_blur_u8 : forall img, u8_image img = true -> u8_image (gaussian_blur img) = true
}.

(** Lines 57-58: gray conversion, then the blur. *)
Definition preprocess `{GaussianBlur} (frame : color_image) : gray_image :=
  gaussian_blur (cvtColor_BGR2GRAY frame).

(** The pixel [(y, x)] lies inside the frame (rows and first-row width). *)
Definition in_frame {A} (img : list (list A)) (y x : Z) : bool :=
  (0 <=? y) && (y <? np_size0 img) && (0 <=? x) && (x <? np_size1 img).

(** [cv2.GaussianBlur] with a 1x1 kernel, which is the identity.  Not an
    instance: it is named explicitly by the examples that run the loop. *)
Definition gaussian_blur_1x1 : GaussianBlur.
Proof.
  refine {| gaussian_blur := fun img => img |}; auto.
Defined.

(** ** Lemmas *)

Lemma is_u8_spec (v : Z) : is_u8 v = true <-> 0 <= v <= 255.
Proof. unfold is_u8. rewrite andb_true_iff, !Z.leb_le. tauto. Qed.

Lemma px_get_neg (img : gray_image) (y x : Z) : y < 0 \/ x < 0 -> px_get img y x = 0.
Proof.
  unfold px_get. intros [H|H]; apply Z.ltb_lt in H; rewrite H; [reflexivity|].
  now rewrite orb_true_r.
Qed.

Lemma px_get_nth (img : gray_image) (y x : Z) :
  0 <= y -> 0 <= x -> px_get img y x = nth (Z.to_nat x) (nth (Z.to_nat y) img []) 0.
Proof.
  intros Hy Hx. unfold px_get.
  replace (y <? 0) with false by lia. replace (x <? 0) with false by lia. reflexivity.
Qed.

(** Outside a rectangular frame every read gives the border value. *)
Lemma px_get_out {w : nat} (img : gray_image) (y x : Z) :
  rect w img -> ~ (0 <= y < np_size0 img /\ 0 <= x < Z.of_nat w) -> px_get img y x = 0.
Proof.
  unfold np_size0. intros Hr Hn.
  destruct (Z_lt_le_dec y 0) as [Hy|Hy]; [apply px_get_neg; lia|].
  destruct (Z_lt_le_dec x 0) as [Hx|Hx]; [apply px_get_neg; lia|].
  rewrite px_get_nth by lia.
  destruct (Nat.lt_ge_cases (Z.to_nat y) (length img)) as [Hl|Hl].
  - apply nth_overflow. unfold rect in Hr. rewrite Forall_forall in Hr. rewrite (Hr _ (nth_In _ _ Hl)). lia.
  - rewrite (nth_overflow img) by lia. now destruct (Z.to_nat x).
Qed.

(** Reading a pixel from the rows built by a [map] over [zrange]. *)
Lemma px_get_map_zrange (f : Z -> Z -> Z) (h w : nat) (y x : Z) :
  0 <= y < Z.of_nat h -> 0 <= x < Z.of_nat w ->
  px_get (map (fun y => map (f y) (zrange 0 w)) (zrange 0 h)) y x = f y x.
Proof.
  intros Hy Hx. rewrite px_get_nth by lia.
  rewrite nth_map_zrange by lia. rewrite nth_map_zrange by lia.
  f_equal; lia.
Qed.

Lemma rect_map_zrange {A} (f : Z -> Z -> A) (h w : nat) :
  rect w (map (fun y => map (f y) (zrange 0 w)) (zrange 0 h)).
Proof.
  unfold rect. rewrite Forall_map. apply Forall_forall. intros y _.
  rewrite length_map. apply length_zrange.
Qed.

#[export] Hint Resolve rect_map_zrange : oc.

Lemma gray_of_bgr_eq (p : bgr) :
  gray_of_bgr p = (1868 * blue p + 9617 * green p + 4899 * red p + 8192) / 16384.
Proof.
  unfold gray_of_bgr, yuv_shift, B2Y, G2Y, R2Y. rewrite Z.shiftr_div_pow2 by lia.
  change (Z.shiftl 1 (14 - 1)) with 8192. change (2 ^ 14) with 16384. f_equal. lia.
Qed.

(** The gray value of an 8-bit colour pixel is an 8-bit value: the three
    coefficients add up to [2^14], so the weighted sum never exceeds
    [255 * 2^14] before the rounding shift. *)
Lemma gray_of_bgr_u8 (p : bgr) : bgr_u8 p = true -> 0 <= gray_of_bgr p <= 255.
Proof.
  unfold bgr_u8. rewrite !andb_true_iff, !is_u8_spec. intros [[Hb Hg] Hr].
  rewrite gray_of_bgr_eq. split.
  - apply Z.div_pos; lia.
  - apply Z.lt_succ_r, Z.div_lt_upper_bound; lia.
Qed.

(** C31: the gray conversion keeps the value of a pixel whose three
    channels are equal: the fixed-point coefficients add up to [2^14]
    and the rounding term is below [2^14]. *)
Theorem gray_of_bgr_grey (v : Z) : gray_of_bgr (mk_bgr v v v) = v.
Proof.
  rewrite gray_of_bgr_eq. symmetry. apply Z.div_unique with (r := 8192); cbn [blue green red]; lia.
Qed.

(** C32: the gray conversion of an 8-bit colour frame is an 8-bit gray
    frame. *)
Theorem cvtColor_u8 (img : color_image) :
  color_u8 img = true -> u8_image (cvtColor_BGR2GRAY img) = true.
Proof.
  unfold color_u8, u8_image, cvtColor_BGR2GRAY. rewrite !forallb_forall.
  intros H r Hr. apply in_map_iff in Hr as [r0 [<- Hr0]].
  apply forallb_forall. intros v Hv. apply in_map_iff in Hv as [p [<- Hp]].
  apply is_u8_spec, gray_of_bgr_u8. specialize (H r0 Hr0).
  rewrite forallb_forall in H. auto.
Qed.

Lemma cvtColor_shape (img : color_image) : shape (cvtColor_BGR2GRAY img) = shape img.
Proof.
  unfold shape, cvtColor_BGR2GRAY. rewrite map_map.
  apply map_ext. intros r. apply length_map.
Qed.


(** The preprocessor keeps the frame's shape. *)
Lemma preprocess_shape `{GaussianBlur} (f : color_image) : shape (preprocess f) = shape f.
Proof. unfold preprocess. rewrite gaussian_blur_shape. apply cvtColor_shape. Qed.

Lemma in_frame_spec {A} (img : list (list A)) (y x : Z) :
  in_frame img y x = true <-> 0 <= y < np_size0 img /\ 0 <= x < np_size1 img.
Proof. unfold in_frame. rewrite !andb_true_iff, !Z.leb_le, !Z.ltb_lt. tauto. Qed.

Lemma np_size1_nonneg {A} (img : list (list A)) : 0 <= np_size1 img.
Proof. destruct img; simpl; lia. Qed.

(** A rectangular frame of [w] columns with at least one row has
    [np.size(img, 1) = w]. *)
Lemma np_size1_rect {A} (w : nat) (img : list (list A)) :
  rect w img -> img <> [] -> np_size1 img = Z.of_nat w.
Proof. intros Hr Hn. destruct img as [|r img]; [congruence|]. inversion Hr; subst. reflexivity. Qed.

Lemma np_size_map_zrange {A} (f : Z -> Z -> A) (h w : nat) :
  np_size0 (map (fun y => map (f y) (zrange 0 w)) (zrange 0 h)) = Z.of_nat h /\
  (h <> 0%nat -> np_size1 (map (fun y => map (f y) (zrange 0 w)) (zrange 0 h)) = Z.of_nat w).
Proof.
  unfold np_size0. rewrite length_map, length_zrange. split; [reflexivity|].
  intros Hh. apply np_size1_rect; [apply rect_map_zrange|].
  destruct h; [congruence|]. discriminate.
Qed.

(** Inside a rectangular frame, a column of the first row is a column of
    every row. *)
Lemma in_frame_row {A} (w : nat) (img : list (list A)) (y x : Z) :
  rect w img -> in_frame img y x = true ->
  0 <= y < np_size0 img /\ 0 <= x < Z.of_nat (length (nth (Z.to_nat y) img [])).
Proof.
  intros Hr Hin. apply in_frame_spec in Hin. unfold np_size0 in *.
  assert (Hw : np_size1 img = Z.of_nat w).
  { apply np_size1_rect; [exact Hr|]. destruct img; simpl in Hin; [lia | discriminate]. }
  unfold rect in Hr. rewrite Forall_forall in Hr.
  assert (Hl : (Z.to_nat y < length img)%nat) by lia.
  rewrite (Hr _ (nth_In _ _ Hl)). lia.
Qed.

Lemma np_size_shape {A B} (a : list (list A)) (b : list (list B)) :
  shape a = shape b -> np_size0 a = np_size0 b /\ np_size1 a = np_size1 b.
Proof.
  unfold shape, np_size0, np_size1. intros Hs. split.
  - rewrite <- (length_map (@length A) a), <- (length_map (@length B) b). congruence.
  - destruct a, b; simpl in Hs; try discriminate; [reflexivity|]. injection Hs as H1 _. congruence.
Qed.

#[export] Hint Resolve np_size1_nonneg : oc.


Lemma cvtColor_u8_witness :
  color_u8 [[mk_bgr 255 255 255; mk_bgr 0 128 255]] = true /\
  u8_image (cvtColor_BGR2GRAY [[mk_bgr 255 255 255; mk_bgr 0 128 255]]) = true.
Proof.
  assert (H : color_u8 [[mk_bgr 255 255 255; mk_bgr 0 128 255]] = true) by reflexivity.
  split; [exact H | apply cvtColor_u8, H].
Defined.

(** The rows of a frame rebuilt by a [map] over the row indices. *)
Lemma map_rows_zrange {A B} (g : list A -> B) (img : list (list A)) :
  map (fun y => g (nth (Z.to_nat y) img [])) (zrange 0 (length img)) = map g img.
Proof.
  apply nth_ext with (d := g []) (d' := g []);
    [rewrite !length_map, length_zrange; reflexivity|].
  intros k Hk. rewrite length_map, length_zrange in Hk.
  rewrite nth_map_zrange by exact Hk. rewrite map_nth, Z.add_0_l, Nat2Z.id. reflexivity.
Qed.
