(* ===== verification/ChangeDetector.v ===== *)
(** The change detector: [src/converted.py] lines 67-73.

      FrameDelta = cv2.absdiff(FirstFrame, FrameGray)
      FrameThresh = cv2.threshold(FrameDelta, BinarizationThreshold, 255,
                                  cv2.THRESH_BINARY)[1]
      FrameThresh = cv2.dilate(FrameThresh, None, iterations=2)

    [absdiff] is per-pixel [saturate_cast<uchar>(|a - b|)] and fails (a
    [cv2.error], here [None]) when the two frames differ in shape.
    [threshold] is [THRESH_BINARY]: [maxval] where the value exceeds the
    threshold, 0 elsewhere.  [cv2.dilate] with kernel [None] uses the 3x3
    rectangle, with the border ignored (a constant border of the minimal
    value); [dilate_rect r] takes the maximum over the [(2r+1)x(2r+1)]
    square around each pixel, and [cv_dilate img n] applies the 3x3
    dilation [n] times, as [iterations=n] specifies.  OpenCV itself
    replaces two 3x3 iterations by one 5x5 dilation: [cv_dilate_2_eq]
    proves the two agree. *)

From Stdlib Require Import ZArith List Lia Bool.
From S2P Require Import Prelude Config Image.
Import ListNotations.
Open Scope Z_scope.

(** [saturate_cast<uchar>]. *)
Definition sat_u8 (v : Z) : Z := Z.max 0 (Z.min 255 v).

Definition absdiff_row (ra rb : list Z) : list Z :=
  map (fun pq => sat_u8 (Z.abs (fst pq - snd pq))) (combine ra rb).

(** [cv2.absdiff(a, b)]; [None] is OpenCV's size-mismatch error. *)
Fixpoint absdiff (a b : gray_image) : option gray_image :=
  match a, b with
  | [], [] => Some []
  | ra :: a', rb :: b' =>
      if Nat.eqb (length ra) (length rb) then
        match absdiff a' b' with
        | Some d => Some (absdiff_row ra rb :: d)
        | None => None
        end
      else None
  | _, _ => None
  end.

(** [THRESH_BINARY] on one pixel. *)
Definition thresh_binary (thresh maxval v : Z) : Z := if thresh <? v then maxval else 0.

(** [cv2.threshold(img, thresh, maxval, cv2.THRESH_BINARY)[1]]. *)
Definition threshold (img : gray_image) (thresh maxval : Z) : gray_image :=
  map (map (thresh_binary thresh maxval)) img.

(** The offsets [(dy, dx)] of the [(2r+1)x(2r+1)] square. *)
Definition offsets (r : Z) : list (Z * Z) :=
  let ds := zrange (- r) (Z.to_nat (2 * r + 1)) in list_prod ds ds.

(** Maximum over the square of radius [r] around [(y, x)], reading 0
    outside the frame. *)
Definition nb_max (img : gray_image) (r y x : Z) : Z :=
  fold_max (map (fun d => px_get img (y + fst d) (x + snd d)) (offsets r)).

(** Dilation by the [(2r+1)x(2r+1)] rectangle. *)
Definition dilate_rect (r : Z) (img : gray_image) : gray_image :=
  map (fun y => map (fun x => nb_max img r y x) (zrange 0 (Z.to_nat (np_size1 img))))
      (zrange 0 (length img)).

(** [cv2.dilate(img, None, iterations=n)]: [n] dilations by the 3x3 rectangle. *)
Definition cv_dilate (img : gray_image) (iterations : nat) : gray_image :=
  Nat.iter iterations (dilate_rect 1) img.

(** Lines 67-73: the foreground mask of [FrameGray] against the
    background [FirstFrame], or [None] when [cv2.absdiff] fails. *)
Definition detect (cfg : config) (FirstFrame FrameGray : gray_image) : option gray_image :=
  match absdiff FirstFrame FrameGray with
  | None => None
  | Some FrameDelta =>
      let FrameThresh := threshold FrameDelta (BinarizationThreshold cfg) 255 in
      Some (cv_dilate FrameThresh 2)
  end.

(** All pixels are 0. *)
Definition zero_image (img : gray_image) : Prop := forall y x, px_get img y x = 0.

(** All pixels are 0 or 255. *)
Definition binary (img : gray_image) : Prop :=
  forall y x, px_get img y x = 0 \/ px_get img y x = 255.

(** ** The square of offsets *)

Lemma In_offsets (r a b : Z) : In (a, b) (offsets r) <-> -r <= a <= r /\ -r <= b <= r.
Proof.
  unfold offsets. rewrite in_prod_iff, !In_zrange. lia.
Qed.

Lemma nb_max_nonneg (img : gray_image) (r y x : Z) : 0 <= nb_max img r y x.
Proof. apply fold_max_nonneg. Qed.

Lemma nb_max_ge (img : gray_image) (r y x a b : Z) :
  -r <= a <= r -> -r <= b <= r -> px_get img (y + a) (x + b) <= nb_max img r y x.
Proof.
  intros Ha Hb. apply fold_max_ge. apply in_map_iff. exists (a, b).
  split; [reflexivity|]. apply In_offsets. lia.
Qed.

Lemma nb_max_lub (img : gray_image) (r y x B : Z) :
  0 <= B ->
  (forall a b, -r <= a <= r -> -r <= b <= r -> px_get img (y + a) (x + b) <= B) ->
  nb_max img r y x <= B.
Proof.
  intros HB H. apply fold_max_lub; [exact HB|]. intros v Hv.
  apply in_map_iff in Hv as [[a b] [<- Hab]]. apply In_offsets in Hab.
  cbn [fst snd]. apply H; lia.
Qed.

#[export] Hint Resolve nb_max_nonneg : oc.

(** ** Reading a dilated frame *)

Lemma dilate_rect_shape (r : Z) (img : gray_image) :
  rect (Z.to_nat (np_size1 img)) (dilate_rect r img) /\
  np_size0 (dilate_rect r img) = np_size0 img /\
  np_size1 (dilate_rect r img) = np_size1 img.
Proof.
  unfold dilate_rect. destruct (np_size_map_zrange (fun y x => nb_max img r y x)
    (length img) (Z.to_nat (np_size1 img))) as [H0 H1].
  split; [apply rect_map_zrange|]. split; [exact H0|].
  destruct img as [|row img]; [reflexivity|].
  rewrite H1 by discriminate. pose proof (np_size1_nonneg (row :: img)). lia.
Qed.

Lemma px_get_dilate_rect (r : Z) (img : gray_image) (y x : Z) :
  px_get (dilate_rect r img) y x = if in_frame img y x then nb_max img r y x else 0.
Proof.
  destruct (in_frame img y x) eqn:E.
  - apply in_frame_spec in E. unfold np_size0 in E.
    pose proof (np_size1_nonneg img).
    unfold dilate_rect. apply px_get_map_zrange; lia.
  - destruct (dilate_rect_shape r img) as [Hr [H0 H1]].
    apply (px_get_out _ _ _ Hr). rewrite H0. intros Hin.
    assert (in_frame img y x = true) by (apply in_frame_spec; pose proof (np_size1_nonneg img); lia).
    congruence.
Qed.

(** Two dilations agree when their inputs have the same size and the
    same neighbourhood maxima inside the frame. *)
Lemma dilate_rect_ext (r r' : Z) (A B : gray_image) :
  np_size0 A = np_size0 B -> np_size1 A = np_size1 B ->
  (forall y x, in_frame B y x = true -> nb_max A r y x = nb_max B r' y x) ->
  dilate_rect r A = dilate_rect r' B.
Proof.
  unfold np_size0. intros H0 H1 H. unfold dilate_rect. rewrite H1.
  replace (length A) with (length B) by lia.
  apply map_ext_in. intros y Hy. apply map_ext_in. intros x Hx.
  apply H, in_frame_spec. apply In_zrange in Hy, Hx. unfold np_size0.
  pose proof (np_size1_nonneg B). lia.
Qed.

(** Inside the frame, the 3x3 maximum of a 3x3 dilation is the 5x5
    maximum: each pixel of the 5x5 square is reached through a pixel of
    the 3x3 square that lies inside the frame. *)
Lemma nb_max_dilate1 (img : gray_image) (y x : Z) :
  rect (Z.to_nat (np_size1 img)) img -> in_frame img y x = true ->
  nb_max (dilate_rect 1 img) 1 y x = nb_max img 2 y x.
Proof.
  intros Hr Hin. apply in_frame_spec in Hin. apply Z.le_antisymm.
  - apply nb_max_lub; [apply nb_max_nonneg|]. intros a b Ha Hb.
    rewrite px_get_dilate_rect. destruct (in_frame img (y + a) (x + b)); [|apply nb_max_nonneg].
    apply nb_max_lub; [apply nb_max_nonneg|]. intros c d Hc Hd.
    rewrite <- !Z.add_assoc. apply nb_max_ge; lia.
  - apply nb_max_lub; [apply nb_max_nonneg|]. intros e f He Hf.
    destruct (in_frame img (y + e) (x + f)) eqn:Ein.
    + apply in_frame_spec in Ein.
      assert (exists a', -1 <= a' <= 1 /\ -1 <= e - a' <= 1 /\ 0 <= y + a' < np_size0 img)
        as [a' Ha'] by (exists (Z.max (-1) (Z.min 1 e)); lia).
      assert (exists b', -1 <= b' <= 1 /\ -1 <= f - b' <= 1 /\ 0 <= x + b' < np_size1 img)
        as [b' Hb'] by (exists (Z.max (-1) (Z.min 1 f)); lia).
      assert (Hab : in_frame img (y + a') (x + b') = true) by (apply in_frame_spec; lia).
      transitivity (px_get (dilate_rect 1 img) (y + a') (x + b')).
      * rewrite px_get_dilate_rect, Hab.
        replace (y + e) with (y + a' + (e - a')) by lia.
        replace (x + f) with (x + b' + (f - b')) by lia.
        apply nb_max_ge; lia.
      * apply nb_max_ge; lia.
    + rewrite (px_get_out (w := Z.to_nat (np_size1 img))); [apply nb_max_nonneg | exact Hr |].
      intros H. assert (in_frame img (y + e) (x + f) = true) by
        (apply in_frame_spec; pose proof (np_size1_nonneg img); lia).
      congruence.
Qed.

(** ** Pixels of the derived frames *)


Lemma px_get_map_map (f : Z -> Z) (img : gray_image) (y x : Z) :
  px_get (map (map f) img) y x = 0 \/ px_get (map (map f) img) y x = f (px_get img y x).
Proof.
  destruct (Z_lt_le_dec y 0) as [Hy|Hy]; [left; apply px_get_neg; lia|].
  destruct (Z_lt_le_dec x 0) as [Hx|Hx]; [left; apply px_get_neg; lia|].
  rewrite !px_get_nth by lia.
  destruct (Nat.lt_ge_cases (Z.to_nat y) (length img)) as [Hl|Hl].
  - rewrite nth_indep with (d' := map f []) by (rewrite length_map; exact Hl).
    rewrite map_nth.
    destruct (Nat.lt_ge_cases (Z.to_nat x) (length (nth (Z.to_nat y) img []))) as [Hk|Hk].
    + right. rewrite nth_indep with (l := map f _) (d' := f 0) by (rewrite length_map; exact Hk).
      rewrite map_nth. reflexivity.
    + left. apply nth_overflow. rewrite length_map. exact Hk.
  - left. rewrite (nth_overflow (map (map f) img)) by (rewrite length_map; exact Hl).
    now destruct (Z.to_nat x).
Qed.

Lemma threshold_binary (img : gray_image) (t : Z) : binary (threshold img t 255).
Proof.
  intros y x. unfold threshold.
  destruct (px_get_map_map (thresh_binary t 255) img y x) as [-> | ->]; [auto|].
  unfold thresh_binary. match goal with |- context [if ?b then _ else _] => destruct b end; auto.
Qed.

Lemma dilate_rect_binary (r : Z) (img : gray_image) : binary img -> binary (dilate_rect r img).
Proof.
  intros Hb y x. rewrite px_get_dilate_rect. destruct (in_frame img y x); [|auto].
  apply fold_max_two; [lia|]. apply Forall_forall. intros v Hv.
  apply in_map_iff in Hv as [d [<- _]]. apply Hb.
Qed.

Lemma dilate_rect_zero (r : Z) (img : gray_image) : zero_image img -> zero_image (dilate_rect r img).
Proof.
  intros Hz y x. rewrite px_get_dilate_rect. destruct (in_frame img y x); [|reflexivity].
  apply Z.le_antisymm; [|apply nb_max_nonneg].
  apply nb_max_lub; [lia|]. intros a b _ _. rewrite Hz. lia.
Qed.

Lemma cv_dilate_preserves (P : gray_image -> Prop) (img : gray_image) (n : nat) :
  (forall i, P i -> P (dilate_rect 1 i)) -> P img -> P (cv_dilate img n).
Proof. intros H Hi. unfold cv_dilate. induction n; simpl; auto. Qed.

Lemma absdiff_self (a : gray_image) : absdiff a a = Some (map (map (fun _ => 0)) a).
Proof.
  induction a as [|r a IH]; [reflexivity|]. simpl. rewrite Nat.eqb_refl, IH.
  do 2 f_equal. unfold absdiff_row. induction r as [|v r IHr]; [reflexivity|].
  simpl. rewrite IHr. f_equal. rewrite Z.sub_diag. reflexivity.
Qed.

(** The mask of a frame against itself. *)
Lemma detect_self (cfg : config) (bg : gray_image) :
  detect cfg bg bg =
  Some (cv_dilate (threshold (map (map (fun _ => 0)) bg) (BinarizationThreshold cfg) 255) 2).
Proof. unfold detect. rewrite absdiff_self. reflexivity. Qed.

Lemma detect_self_zero (t : Z) (bg : gray_image) :
  0 <= t -> zero_image (cv_dilate (threshold (map (map (fun _ => 0)) bg) t 255) 2).
Proof.
  intros Ht. apply (cv_dilate_preserves zero_image); [apply dilate_rect_zero|]. intros y x.
  unfold threshold.
  destruct (px_get_map_map (thresh_binary t 255) (map (map (fun _ => 0)) bg) y x) as [-> | ->];
    [reflexivity|].
  destruct (px_get_map_map (fun _ => 0) bg y x) as [-> | ->];
    unfold thresh_binary; destruct (t <? 0) eqn:E; zbool; lia.
Qed.

Lemma absdiff_shape_mismatch (a b : gray_image) : shape a <> shape b -> absdiff a b = None.
Proof.
  revert b. induction a as [|ra a IH]; intros [|rb b] Hs; simpl; try reflexivity; [congruence|].
  destruct (Nat.eqb_spec (length ra) (length rb)) as [E|E]; [|reflexivity].
  rewrite IH; [reflexivity|]. intros Hab. apply Hs. unfold shape in *. simpl. congruence.
Qed.

Lemma absdiff_same_shape (a b : gray_image) : shape a = shape b -> exists d, absdiff a b = Some d.
Proof.
  revert b. induction a as [|ra a IH]; intros [|rb b] Hs; simpl in *; try discriminate; [eauto|].
  injection Hs as H1 H2. rewrite H1, Nat.eqb_refl. destruct (IH b H2) as [d ->]. eauto.
Qed.

Lemma nth_absdiff_row (ra rb : list Z) (j : nat) :
  length ra = length rb ->
  nth j (absdiff_row ra rb) 0 =
  if (j <? length ra)%nat then sat_u8 (Z.abs (nth j ra 0 - nth j rb 0)) else 0.
Proof.
  revert rb j. induction ra as [|u ra IH]; intros [|v rb] j Hl; try discriminate.
  - destruct j; reflexivity.
  - injection Hl as Hl. destruct j as [|j]; [reflexivity|].
    unfold absdiff_row in *. simpl. rewrite IH by exact Hl. reflexivity.
Qed.

(** A pixel of [cv2.absdiff]'s result, by row and column index. *)
Lemma nth_absdiff (a b d : gray_image) (i j : nat) :
  absdiff a b = Some d ->
  nth j (nth i d []) 0 =
  if (i <? length a)%nat && (j <? length (nth i a []))%nat
  then sat_u8 (Z.abs (nth j (nth i a []) 0 - nth j (nth i b []) 0)) else 0.
Proof.
  revert b d i. induction a as [|ra a IH]; intros [|rb b] d i; simpl; try discriminate.
  - intros H. injection H as <-. destruct i, j; reflexivity.
  - destruct (Nat.eqb_spec (length ra) (length rb)) as [E|E]; [|discriminate].
    destruct (absdiff a b) as [d'|] eqn:Ed; [|discriminate]. intros H. injection H as <-.
    destruct i as [|i].
    + simpl. rewrite nth_absdiff_row by exact E. reflexivity.
    + simpl. apply (IH b d' i Ed).
Qed.

Lemma px_get_absdiff (w : nat) (a b d : gray_image) (y x : Z) :
  rect w a -> absdiff a b = Some d -> in_frame a y x = true ->
  px_get d y x = sat_u8 (Z.abs (px_get a y x - px_get b y x)).
Proof.
  intros Hr Hd Hin. apply in_frame_spec in Hin. unfold np_size0 in Hin.
  rewrite !px_get_nth by lia. rewrite (nth_absdiff a b d _ _ Hd).
  replace ((Z.to_nat y <? length a)%nat) with true by (symmetry; apply Nat.ltb_lt; lia).
  assert (Hrow : length (nth (Z.to_nat y) a []) = w).
  { unfold rect in Hr. rewrite Forall_forall in Hr. apply Hr, nth_In. lia. }
  assert (Hw : np_size1 a = Z.of_nat w).
  { apply np_size1_rect; [exact Hr|]. destruct a; simpl in Hin; [lia | discriminate]. }
  replace ((Z.to_nat x <? length (nth (Z.to_nat y) a []))%nat) with true
    by (symmetry; apply Nat.ltb_lt; lia).
  reflexivity.
Qed.

Lemma px_get_map_map_in (f : Z -> Z) (img : gray_image) (y x : Z) :
  0 <= y < np_size0 img -> 0 <= x < Z.of_nat (length (nth (Z.to_nat y) img [])) ->
  px_get (map (map f) img) y x = f (px_get img y x).
Proof.
  unfold np_size0. intros Hy Hx. rewrite !px_get_nth by lia.
  rewrite nth_indep with (d' := map f []) by (rewrite length_map; lia).
  rewrite map_nth, nth_indep with (l := map f _) (d' := f 0) by (rewrite length_map; lia).
  rewrite map_nth. reflexivity.
Qed.

Lemma absdiff_shape (a b d : gray_image) : absdiff a b = Some d -> shape d = shape a.
Proof.
  revert b d. induction a as [|ra a IH]; intros [|rb b] d; simpl; try discriminate.
  - intros H. injection H as <-. reflexivity.
  - destruct (Nat.eqb_spec (length ra) (length rb)) as [E|E]; [|discriminate].
    destruct (absdiff a b) as [d'|] eqn:Ed; [|discriminate]. intros H. injection H as <-.
    unfold shape in *. simpl. rewrite (IH b d' Ed). f_equal.
    unfold absdiff_row. rewrite length_map, length_combine, E. apply Nat.min_id.
Qed.

Lemma threshold_shape (img : gray_image) (t v : Z) : shape (threshold img t v) = shape img.
Proof. unfold shape, threshold. rewrite map_map. apply map_ext. intros r. apply length_map. Qed.

Lemma rect_shape {A B} (w : nat) (a : list (list A)) (b : list (list B)) :
  shape a = shape b -> rect w a -> rect w b.
Proof.
  unfold shape, rect. revert b. induction a as [|ra a IH]; intros [|rb b] Hs Hr;
    simpl in *; try discriminate; [constructor|].
  injection Hs as H1 H2. inversion Hr; subst. constructor; [congruence | auto].
Qed.

Lemma in_frame_shape {A B} (a : list (list A)) (b : list (list B)) (y x : Z) :
  shape a = shape b -> in_frame a y x = in_frame b y x.
Proof. intros Hs. unfold in_frame. destruct (np_size_shape a b Hs) as [-> ->]. reflexivity. Qed.

(** A pixel of two 3x3 dilations is the 5x5 maximum. *)
Lemma px_get_cv_dilate_2 (img : gray_image) (y x : Z) :
  rect (Z.to_nat (np_size1 img)) img -> in_frame img y x = true ->
  px_get (cv_dilate img 2) y x = nb_max img 2 y x.
Proof.
  intros Hr Hin. unfold cv_dilate. simpl Nat.iter. rewrite px_get_dilate_rect.
  destruct (dilate_rect_shape 1 img) as [_ [H0 H1]].
  assert (E : in_frame (dilate_rect 1 img) y x = true) by (unfold in_frame in *; rewrite H0, H1; exact Hin).
  rewrite E. apply nb_max_dilate1; assumption.
Qed.

(** A pixel of the thresholded difference is 255 exactly when it lies in
    the frame and its difference exceeds the threshold. *)
Lemma px_get_threshold_diff (w : nat) (bg fr d : gray_image) (t y x : Z) :
  rect w bg -> absdiff bg fr = Some d ->
  (px_get (threshold d t 255) y x = 255 <->
   in_frame bg y x = true /\ t < sat_u8 (Z.abs (px_get bg y x - px_get fr y x))).
Proof.
  intros Hr Hd. assert (Hs : shape d = shape bg) by (eapply absdiff_shape; eauto).
  assert (Hrd : rect w d) by (apply (rect_shape w bg d); auto).
  destruct (in_frame bg y x) eqn:Hin.
  - assert (Hin' : in_frame d y x = true) by (rewrite (in_frame_shape d bg y x Hs); exact Hin).
    destruct (in_frame_row w d y x Hrd Hin') as [Hy Hx].
    unfold threshold. rewrite px_get_map_map_in by assumption.
    rewrite (px_get_absdiff w bg fr d y x Hr Hd Hin).
    unfold thresh_binary. destruct (t <? _) eqn:E; zbool; split; intros; try split; lia.
  - assert (Hrt : rect w (threshold d t 255)) by (apply (rect_shape w d); [symmetry; apply threshold_shape | exact Hrd]).
    rewrite (px_get_out _ y x Hrt).
    + split; [discriminate | intros [H _]; discriminate].
    + intros Hrange. destruct (np_size_shape (threshold d t 255) bg) as [E0 E1];
        [rewrite threshold_shape; exact Hs|].
      rewrite E0 in Hrange. assert (in_frame bg y x = true); [|congruence].
      apply in_frame_spec. split; [lia|].
      destruct bg as [|r bg]; [unfold np_size0 in Hrange; simpl in Hrange; lia|].
      rewrite (np_size1_rect w (r :: bg) Hr) by discriminate. lia.
Qed.

(** ** Theorems *)

(** C15: OpenCV's rewriting of [iterations=2] with the 3x3 kernel into
    one dilation by the 5x5 rectangle is exact on a rectangular frame. *)
Theorem cv_dilate_2_eq (img : gray_image) :
  rect (Z.to_nat (np_size1 img)) img -> cv_dilate img 2 = dilate_rect 2 img.
Proof.
  intros Hr. unfold cv_dilate. simpl Nat.iter.
  destruct (dilate_rect_shape 1 img) as [_ [H0 H1]].
  apply dilate_rect_ext; [exact H0 | exact H1|].
  intros y x Hin. apply nb_max_dilate1; assumption.
Qed.

Lemma cv_dilate_2_eq_witness :
  rect (Z.to_nat (np_size1 [[0; 0; 0]; [0; 255; 0]; [0; 0; 0]; [0; 0; 0]]))
       [[0; 0; 0]; [0; 255; 0]; [0; 0; 0]; [0; 0; 0]] /\
  cv_dilate [[0; 0; 0]; [0; 255; 0]; [0; 0; 0]; [0; 0; 0]] 2 =
  dilate_rect 2 [[0; 0; 0]; [0; 255; 0]; [0; 0; 0]; [0; 0; 0]].
Proof.
  assert (H : rect (Z.to_nat (np_size1 [[0; 0; 0]; [0; 255; 0]; [0; 0; 0]; [0; 0; 0]]))
       [[0; 0; 0]; [0; 255; 0]; [0; 0; 0]; [0; 0; 0]]) by (repeat constructor).
  split; [exact H | apply cv_dilate_2_eq, H].
Defined.

(** C16: [cv2.absdiff] fails exactly when the frame and the background
    differ in shape (the script does not catch the error). *)
Theorem absdiff_fails_iff (a b : gray_image) : absdiff a b = None <-> shape a <> shape b.
Proof.
  split; [|apply absdiff_shape_mismatch].
  intros Hn Hs. destruct (absdiff_same_shape a b Hs) as [d E]. congruence.
Qed.

(** C2: a frame identical to the background gives an all-zero mask: no
    false positive on a static scene (for any non-negative threshold). *)
Theorem detect_static_scene (cfg : config) (bg : gray_image) :
  0 <= BinarizationThreshold cfg ->
  exists m, detect cfg bg bg = Some m /\ zero_image m.
Proof.
  intros Ht. rewrite detect_self. eexists; split; [reflexivity|]. apply detect_self_zero, Ht.
Qed.

Lemma detect_static_scene_witness :
  0 <= BinarizationThreshold source_config /\
  exists m, detect source_config [[10; 200]; [90; 70]] [[10; 200]; [90; 70]] = Some m /\ zero_image m.
Proof.
  assert (H : 0 <= BinarizationThreshold source_config) by (vm_compute; discriminate).
  split; [exact H | apply detect_static_scene, H].
Defined.

(** C17: the mask is binary: every pixel is 0 or 255. *)
Theorem detect_mask_binary (cfg : config) (bg fr m : gray_image) :
  detect cfg bg fr = Some m -> binary m.
Proof.
  unfold detect. destruct (absdiff bg fr) as [g|]; [|discriminate]. intros H.
  assert (Hm : m = cv_dilate (threshold g (BinarizationThreshold cfg) 255) 2) by congruence.
  subst m. apply (cv_dilate_preserves binary); [apply dilate_rect_binary | apply threshold_binary].
Qed.

Lemma detect_mask_binary_witness :
  detect source_config [[0; 0]; [0; 0]] [[0; 90]; [0; 0]] = Some [[255; 255]; [255; 255]] /\
  binary [[255; 255]; [255; 255]].
Proof.
  assert (H : detect source_config [[0; 0]; [0; 0]] [[0; 90]; [0; 0]] = Some [[255; 255]; [255; 255]])
    by (vm_compute; reflexivity).
  split; [exact H | apply (detect_mask_binary source_config _ _ _ H)].
Defined.

(** C34: the mask's functional specification.  Inside a rectangular
    frame, a mask pixel is 255 exactly when some pixel of the frame within
    two rows and two columns of it differs from the background by more
    than [BinarizationThreshold]. *)
Theorem detect_spec (cfg : config) (bg fr m : gray_image) (y x : Z) :
  rect (Z.to_nat (np_size1 bg)) bg -> detect cfg bg fr = Some m -> in_frame bg y x = true ->
  (px_get m y x = 255 <->
   exists dy dx, -2 <= dy <= 2 /\ -2 <= dx <= 2 /\ in_frame bg (y + dy) (x + dx) = true /\
     BinarizationThreshold cfg <
       sat_u8 (Z.abs (px_get bg (y + dy) (x + dx) - px_get fr (y + dy) (x + dx)))).
Proof.
  intros Hr Hd Hin. unfold detect in Hd.
  destruct (absdiff bg fr) as [d|] eqn:Ed; [|discriminate].
  set (T := threshold d (BinarizationThreshold cfg) 255) in Hd.
  assert (Hm : m = cv_dilate T 2) by congruence. subst m.
  assert (HsT : shape T = shape bg) by (unfold T; rewrite threshold_shape; eapply absdiff_shape; eauto).
  destruct (np_size_shape T bg HsT) as [_ E1].
  rewrite px_get_cv_dilate_2;
    [| rewrite E1; apply (rect_shape _ bg); auto | rewrite (in_frame_shape T bg y x HsT); exact Hin].
  unfold nb_max. rewrite fold_max_hit, in_map_iff.
  - split.
    + intros [[dy dx] [Hv Ho]]. apply In_offsets in Ho.
      apply (px_get_threshold_diff _ bg fr d _ _ _ Hr Ed) in Hv. exists dy, dx. cbn in Hv. tauto.
    + intros [dy [dx [Hdy [Hdx Hv]]]]. exists (dy, dx). split; [|apply In_offsets; lia].
      apply (px_get_threshold_diff _ bg fr d _ _ _ Hr Ed). exact Hv.
  - lia.
  - apply Forall_forall. intros v Hv. apply in_map_iff in Hv as [o [<- _]]. apply threshold_binary.
Qed.

Lemma detect_spec_witness :
  rect (Z.to_nat (np_size1 [[0; 0; 0]; [0; 0; 0]; [0; 0; 0]])) [[0; 0; 0]; [0; 0; 0]; [0; 0; 0]] /\
  detect source_config [[0; 0; 0]; [0; 0; 0]; [0; 0; 0]] [[0; 0; 0]; [0; 0; 0]; [0; 0; 200]] =
    Some [[255; 255; 255]; [255; 255; 255]; [255; 255; 255]] /\
  in_frame [[0; 0; 0]; [0; 0; 0]; [0; 0; 0]] 0 0 = true /\
  (px_get [[255; 255; 255]; [255; 255; 255]; [255; 255; 255]] 0 0 = 255 <->
   exists dy dx, -2 <= dy <= 2 /\ -2 <= dx <= 2 /\
     in_frame [[0; 0; 0]; [0; 0; 0]; [0; 0; 0]] (0 + dy) (0 + dx) = true /\
     BinarizationThreshold source_config <
       sat_u8 (Z.abs (px_get [[0; 0; 0]; [0; 0; 0]; [0; 0; 0]] (0 + dy) (0 + dx) -
                      px_get [[0; 0; 0]; [0; 0; 0]; [0; 0; 200]] (0 + dy) (0 + dx)))).
Proof.
  assert (H1 : rect (Z.to_nat (np_size1 [[0; 0; 0]; [0; 0; 0]; [0; 0; 0]]))
                    [[0; 0; 0]; [0; 0; 0]; [0; 0; 0]]) by (repeat constructor).
  assert (H2 : detect source_config [[0; 0; 0]; [0; 0; 0]; [0; 0; 0]] [[0; 0; 0]; [0; 0; 0]; [0; 0; 200]] =
    Some [[255; 255; 255]; [255; 255; 255]; [255; 255; 255]]) by (vm_compute; reflexivity).
  assert (H3 : in_frame [[0; 0; 0]; [0; 0; 0]; [0; 0; 0]] 0 0 = true) by reflexivity.
  split; [exact H1|]. split; [exact H2|]. split; [exact H3|].
  exact (detect_spec source_config _ _ _ 0 0 H1 H2 H3).
Defined.
