(* ===== verification/Contours.v ===== *)
(** The blob extractor: [src/converted.py] line 74
    ([cv2.findContours(FrameThresh.copy(), cv2.RETR_EXTERNAL,
    cv2.CHAIN_APPROX_SIMPLE)]), line 87 ([cv2.contourArea]), line 95
    ([cv2.boundingRect]) and lines 101-102 (the centre of the box).

    A contour is OpenCV's list of integer [Point(x, y)].  [contourArea]
    is the shoelace formula of [imgproc/shapedescr.cpp], kept as twice
    the area so that it stays in [Z] (the double result is exactly half
    of it).  [boundingRect] is [pointSetBoundingRect] on integer points.
    [findContours] is the interface [ContourFinder]: its laws say that
    every contour is a non-empty list of foreground pixels of the mask. *)

From Stdlib Require Import ZArith List Lia Bool.
From S2P Require Import Prelude Image.
Import ListNotations.
Open Scope Z_scope.
Open Scope oc_scope.

(** [Point(x, y)]: column, then row. *)
Definition point := (Z * Z)%type.

Definition contour := list point.

(** The sum [a00] of [contourArea]: [prev] starts at the last point. *)
Fixpoint shoelace (prev : point) (pts : list point) : Z :=
  match pts with
  | [] => 0
  | p :: ps => (fst prev * snd p - snd prev * fst p) + shoelace p ps
  end.

(** Twice [cv2.contourArea(contour)] (not oriented: the absolute value);
    an empty contour has area 0. *)
Definition contour_area_x2 (c : contour) : Z :=
  match c with
  | [] => 0
  | _ => Z.abs (shoelace (last c (0, 0)) c)
  end.

(** [(x, y, w, h)] of [cv2.boundingRect]. *)
Record bbox := mk_bbox { box_x : Z; box_y : Z; box_w : Z; box_h : Z }.

(** [pointSetBoundingRect]: running minimum and maximum of the
    coordinates from the first point; [Rect()] for no point. *)
Definition boundingRect (c : contour) : bbox :=
  match c with
  | [] => mk_bbox 0 0 0 0
  | p :: ps =>
      let xmin := fold_left Z.min (map fst ps) (fst p) in
      let xmax := fold_left Z.max (map fst ps) (fst p) in
      let ymin := fold_left Z.min (map snd ps) (snd p) in
      let ymax := fold_left Z.max (map snd ps) (snd p) in
      mk_bbox xmin ymin (xmax - xmin + 1) (ymax - ymin + 1)
  end.

(** Lines 101-102: [CenterXCoord = (x + x + w) / 2],
    [CenterYCoord = (y + y + h) / 2], integer division. *)
Definition CenterXCoord (b : bbox) : Z := (box_x b + box_x b + box_w b) // 2.
Definition CenterYCoord (b : bbox) : Z := (box_y b + box_y b + box_h b) // 2.

(** What the script needs of [cv2.findContours]: every point of every
    external contour is a foreground (non-zero) pixel of the mask, and no
    contour is empty. *)
Class ContourFinder := {
  findContours : gray_image -> list contour;
  findContours_fg : forall m c p,
    In c (findContours m) -> In p c -> px_get m (snd p) (fst p) <> 0;
  findContours_nonempty : forall m c, In c (findContours m) -> c <> []
}.

(** ** A contour finder to evaluate the examples

    Not declared as an instance: the theorems quantify over every
    [ContourFinder], and the witnesses name this one explicitly. *)

(** Every foreground pixel as a one-point contour.  It satisfies the laws
    of [ContourFinder]; it is used only to run the witnesses, OpenCV's
    border following being an interface here. *)
Definition pixel_contours (m : gray_image) : list contour :=
  flat_map (fun y =>
    flat_map (fun x => if px_get m y x =? 0 then [] else [[(x, y)]])
             (zrange 0 (length (nth (Z.to_nat y) m []))))
    (zrange 0 (length m)).

Definition pixel_contour_finder : ContourFinder.
Proof.
  assert (Hin : forall m c, In c (pixel_contours m) -> exists x y, c = [(x, y)] /\ px_get m y x <> 0).
  { unfold pixel_contours. intros m c Hc.
    apply in_flat_map in Hc as [y [_ Hc]]. apply in_flat_map in Hc as [x [_ Hc]].
    destruct (px_get m y x =? 0) eqn:E; [contradiction|]. zbool.
    destruct Hc as [<-|[]]. eauto. }
  refine {| findContours := pixel_contours |}.
  - intros m c p Hc Hp. apply Hin in Hc as [x [y [-> Hxy]]].
    destruct Hp as [<-|[]]. exact Hxy.
  - intros m c Hc. apply Hin in Hc as [x [y [-> _]]]. discriminate.
Defined.

(** ** Lemmas *)

(** Every point of a contour lies in its bounding box, whose sides are
    at least one pixel long. *)
Lemma boundingRect_contains (c : contour) (p : point) :
  In p c ->
  let b := boundingRect c in
  1 <= box_w b /\ 1 <= box_h b /\
  box_x b <= fst p <= box_x b + box_w b - 1 /\
  box_y b <= snd p <= box_y b + box_h b - 1.
Proof.
  destruct c as [|q ps]; [contradiction|]. simpl.
  destruct (fold_min_le (map fst ps) (fst q)) as [Hx1 Hx2].
  destruct (fold_max_left_ge (map fst ps) (fst q)) as [Hx3 Hx4].
  destruct (fold_min_le (map snd ps) (snd q)) as [Hy1 Hy2].
  destruct (fold_max_left_ge (map snd ps) (snd q)) as [Hy3 Hy4].
  intros [<-|Hp].
  - lia.
  - pose proof (Hx2 _ (in_map fst _ _ Hp)). pose proof (Hx4 _ (in_map fst _ _ Hp)).
    pose proof (Hy2 _ (in_map snd _ _ Hp)). pose proof (Hy4 _ (in_map snd _ _ Hp)). lia.
Qed.

Lemma boundingRect_pos (c : contour) :
  c <> [] -> 1 <= box_w (boundingRect c) /\ 1 <= box_h (boundingRect c).
Proof.
  destruct c as [|p ps]; [congruence|]. intros _.
  destruct (boundingRect_contains (p :: ps) p (or_introl eq_refl)); tauto.
Qed.

(** The centre of a box with a positive side lies in the box. *)
Lemma center_in_side (a len : Z) : 1 <= len -> a <= (a + a + len) // 2 <= a + len - 1.
Proof. intros H. split; [apply Z.div_le_lower_bound | apply Z.lt_succ_r, Z.div_lt_upper_bound]; lia. Qed.

#[export] Hint Resolve center_in_side : oc.

(** The sides of the bounding box are coordinates of points of the contour. *)
Lemma boundingRect_edges (c : contour) :
  c <> [] ->
  let b := boundingRect c in
  (exists p, In p c /\ fst p = box_x b) /\
  (exists p, In p c /\ fst p = box_x b + box_w b - 1) /\
  (exists p, In p c /\ snd p = box_y b) /\
  (exists p, In p c /\ snd p = box_y b + box_h b - 1).
Proof.
  destruct c as [|q ps]; [congruence|]. intros _. simpl.
  assert (Hsel : forall (f : point -> Z) (v v' : Z), v = f q \/ In v (map f ps) -> v' = v ->
            exists p, (q = p \/ In p ps) /\ f p = v').
  { intros f v v' [->|Hv] ->; [eauto|]. apply in_map_iff in Hv as [p [<- Hp]]. eauto. }
  repeat split.
  - apply (Hsel fst (fold_left Z.min (map fst ps) (fst q))); [apply fold_min_In | lia].
  - apply (Hsel fst (fold_left Z.max (map fst ps) (fst q))); [apply fold_max_left_In | lia].
  - apply (Hsel snd (fold_left Z.min (map snd ps) (snd q))); [apply fold_min_In | lia].
  - apply (Hsel snd (fold_left Z.max (map snd ps) (snd q))); [apply fold_max_left_In | lia].
Qed.

(** A non-zero pixel of a rectangular frame lies inside the frame. *)
Lemma px_get_nonzero_in {w : nat} (m : gray_image) (y x : Z) :
  rect w m -> px_get m y x <> 0 -> 0 <= y < np_size0 m /\ 0 <= x < Z.of_nat w.
Proof.
  intros Hr Hnz.
  destruct (Z_le_gt_dec 0 y), (Z_lt_ge_dec y (np_size0 m)),
    (Z_le_gt_dec 0 x), (Z_lt_ge_dec x (Z.of_nat w));
    try (split; lia); exfalso; apply Hnz; apply (px_get_out _ _ _ Hr); lia.
Qed.


(** ** Theorems *)

(** The four-corner contour of a solid [(w+1) x (h+1)] rectangle: its
    box is the rectangle and twice its area is [2 * w * h]. *)
Lemma rectangle_boundingRect (x y w h : Z) :
  0 <= w -> 0 <= h ->
  boundingRect [(x, y); (x, y + h); (x + w, y + h); (x + w, y)] = mk_bbox x y (w + 1) (h + 1).
Proof. intros Hw Hh. unfold boundingRect. cbn [map fst snd fold_left]. f_equal; lia. Qed.

Lemma rectangle_area_x2 (x y w h : Z) :
  0 <= w -> 0 <= h ->
  contour_area_x2 [(x, y); (x, y + h); (x + w, y + h); (x + w, y)] = 2 * w * h.
Proof.
  intros Hw Hh. unfold contour_area_x2. cbn [last shoelace fst snd].
  match goal with |- Z.abs ?e = _ => replace e with (- (2 * w * h)) by ring end.
  rewrite Z.abs_opp. apply Z.abs_eq. nia.
Qed.

(** C18: the centre of every contour found in a rectangular mask is a
    pixel of the frame, so the row tested against the lines is a row of
    the frame. *)
Theorem contour_centre_in_frame `{ContourFinder} (w : nat) (m : gray_image) (c : contour) :
  rect w m -> In c (findContours m) ->
  let b := boundingRect c in
  0 <= CenterYCoord b < np_size0 m /\ 0 <= CenterXCoord b < Z.of_nat w.
Proof.
  intros Hr Hc. pose proof (findContours_nonempty m c Hc) as Hne.
  destruct (boundingRect_pos c Hne) as [Hw Hh]. cbv zeta.
  destruct (boundingRect_edges c Hne) as [[p1 [I1 E1]] [[p2 [I2 E2]] [[p3 [I3 E3]] [p4 [I4 E4]]]]].
  pose proof (px_get_nonzero_in m _ _ Hr (findContours_fg m c p1 Hc I1)).
  pose proof (px_get_nonzero_in m _ _ Hr (findContours_fg m c p2 Hc I2)).
  pose proof (px_get_nonzero_in m _ _ Hr (findContours_fg m c p3 Hc I3)).
  pose proof (px_get_nonzero_in m _ _ Hr (findContours_fg m c p4 Hc I4)).
  unfold CenterYCoord, CenterXCoord.
  pose proof (center_in_side (box_x (boundingRect c)) _ Hw).
  pose proof (center_in_side (box_y (boundingRect c)) _ Hh). lia.
Qed.

Lemma contour_centre_in_frame_witness :
  rect 2 [[0; 255]; [255; 255]] /\
  In [(1, 0)] (@findContours pixel_contour_finder [[0; 255]; [255; 255]]) /\
  0 <= CenterYCoord (boundingRect [(1, 0)]) < np_size0 [[0; 255]; [255; 255]] /\
  0 <= CenterXCoord (boundingRect [(1, 0)]) < Z.of_nat 2.
Proof.
  assert (Hr : rect 2 [[0; 255]; [255; 255]]) by (repeat constructor).
  assert (Hc : In [(1, 0)] (@findContours pixel_contour_finder [[0; 255]; [255; 255]]))
    by (simpl; auto).
  split; [exact Hr|]. split; [exact Hc|].
  exact (@contour_centre_in_frame pixel_contour_finder 2 _ _ Hr Hc).
Defined.

(** C19: the four corners [CHAIN_APPROX_SIMPLE] keeps of a solid
    rectangular blob of [(w+1) x (h+1)] pixels: the contour area is
    [w * h] (twice it is [2 * w * h]), the bounding box is the blob, and
    the centre is [(x + (w+1)/2, y + (h+1)/2)] rounded down. *)
Theorem rectangle_contour (x y w h : Z) :
  0 <= w -> 0 <= h ->
  let c := [(x, y); (x, y + h); (x + w, y + h); (x + w, y)] in
  contour_area_x2 c = 2 * w * h /\
  boundingRect c = mk_bbox x y (w + 1) (h + 1) /\
  CenterXCoord (boundingRect c) = x + (w + 1) // 2 /\
  CenterYCoord (boundingRect c) = y + (h + 1) // 2.
Proof.
  intros Hw Hh. cbv zeta. rewrite rectangle_area_x2, rectangle_boundingRect by assumption.
  split; [reflexivity|]. split; [reflexivity|].
  unfold CenterXCoord, CenterYCoord. cbn [box_x box_y box_w box_h].
  split; Z.div_mod_to_equations; lia.
Qed.

Lemma rectangle_contour_witness :
  (0 <= 599 /\ 0 <= 5) /\
  contour_area_x2 [(0, 0); (0, 0 + 5); (0 + 599, 0 + 5); (0 + 599, 0)] = 2 * 599 * 5 /\
  boundingRect [(0, 0); (0, 0 + 5); (0 + 599, 0 + 5); (0 + 599, 0)] = mk_bbox 0 0 (599 + 1) (5 + 1) /\
  CenterXCoord (boundingRect [(0, 0); (0, 0 + 5); (0 + 599, 0 + 5); (0 + 599, 0)]) = 0 + (599 + 1) // 2 /\
  CenterYCoord (boundingRect [(0, 0); (0, 0 + 5); (0 + 599, 0 + 5); (0 + 599, 0)]) = 0 + (5 + 1) // 2.
Proof. split; [lia | apply (rectangle_contour 0 0 599 5); lia]. Defined.

(** An all-zero mask has no contour. *)
Lemma findContours_zero `{ContourFinder} (m : gray_image) :
  (forall y x, px_get m y x = 0) -> findContours m = [].
Proof.
  intros Hz. destruct (findContours m) as [|c cs] eqn:E; [reflexivity|].
  assert (Hc : In c (findContours m)) by (rewrite E; left; reflexivity).
  destruct c as [|p ps] eqn:Ec; [exfalso; exact (findContours_nonempty m _ Hc eq_refl)|].
  exfalso. apply (findContours_fg m _ p Hc (or_introl eq_refl)). apply Hz.
Qed.
