(* ===== verification/LineCounter.v ===== *)
(** The line-crossing counter: [src/converted.py] lines 15-31
    ([TestEntryIntersection], [TestExitIntersection]), lines 76-80 (the
    contour count and the two reference lines) and lines 84-112 (the loop
    over the contours that updates the global counters).

    The global [EntryCounter] and [ExitCounter] are the record [counters];
    one pass of the loop over the contours threads a [pass_state] (the
    counters and the local [ContourCount]) through [process_contour], the
    loop body, with [fold_left] in the order [findContours] returned the
    contours.  Python's [if TestEntryIntersection(...)] tests the
    truthiness of the returned integer: [py_truthy]. *)

From Stdlib Require Import ZArith List Lia Bool Permutation.
From S2P Require Import Prelude Config Image Contours.
Import ListNotations.
Open Scope Z_scope.
Open Scope oc_scope.

(** ** The reference lines (lines 79-80) *)

Definition EntryLineYCoord (cfg : config) (height : Z) : Z :=
  (height // 2) - ReferenceLinesOffset cfg.

Definition ExitLineYCoord (cfg : config) (height : Z) : Z :=
  (height // 2) + ReferenceLinesOffset cfg.

(** ** The intersection tests (lines 15-31) *)

Definition TestEntryIntersection (y EntryLineYCoord ExitLineYCoord : Z) : Z :=
  let AbsoluteDifference := Z.abs (y - EntryLineYCoord) in
  if (AbsoluteDifference <=? 2) && (y <? ExitLineYCoord) then 1 else 0.

Definition TestExitIntersection (y EntryLineYCoord ExitLineYCoord : Z) : Z :=
  let AbsoluteDifference := Z.abs (y - ExitLineYCoord) in
  if (AbsoluteDifference <=? 2) && (EntryLineYCoord <? y) then 1 else 0.

(** Truthiness of a Python integer in an [if]. *)
Definition py_truthy (v : Z) : bool := negb (v =? 0).

(** ** The counters and the loop over the contours (lines 76-112) *)

Record counters := mk_counters { EntryCounter : Z; ExitCounter : Z }.

Record pass_state := mk_pass { pass_counters : counters; ContourCount : Z }.

(** Line 87: [cv2.contourArea(contour) < MinimumContourArea], i.e. twice
    the area below twice the minimum. *)
Definition too_small (cfg : config) (c : contour) : bool :=
  contour_area_x2 c <? 2 * MinimumContourArea cfg.

(** The body of [for contour in contours] (lines 85-112): skip a small
    contour ([continue]), otherwise count it, take its bounding box and
    the centre's row, and increment each counter whose test holds. *)
Definition process_contour (cfg : config) (entry exit : Z)
    (st : pass_state) (c : contour) : pass_state :=
  if too_small cfg c then st
  else
    let cnt := ContourCount st + 1 in
    let cy := CenterYCoord (boundingRect c) in
    let e := EntryCounter (pass_counters st) in
    let e' := if py_truthy (TestEntryIntersection cy entry exit) then e + 1 else e in
    let x := ExitCounter (pass_counters st) in
    let x' := if py_truthy (TestExitIntersection cy entry exit) then x + 1 else x in
    mk_pass (mk_counters e' x') cnt.

(** Lines 76-112 for one frame: [ContourCount = 0], the lines from the
    frame's height, then the loop over the contours. *)
Definition count_frame (cfg : config) (height : Z) (contours : list contour)
    (ctrs : counters) : pass_state :=
  let entry := EntryLineYCoord cfg height in
  let exit := ExitLineYCoord cfg height in
  fold_left (process_contour cfg entry exit) contours (mk_pass ctrs 0).

(** ** What the loop counts *)

Definition retained (cfg : config) (c : contour) : bool := negb (too_small cfg c).

Definition center_row (c : contour) : Z := CenterYCoord (boundingRect c).

Definition entry_hit (cfg : config) (entry exit : Z) (c : contour) : bool :=
  retained cfg c && py_truthy (TestEntryIntersection (center_row c) entry exit).

Definition exit_hit (cfg : config) (entry exit : Z) (c : contour) : bool :=
  retained cfg c && py_truthy (TestExitIntersection (center_row c) entry exit).

(** ** Lemmas on the tests *)

Lemma TestEntryIntersection_01 (y en ex : Z) :
  TestEntryIntersection y en ex = 0 \/ TestEntryIntersection y en ex = 1.
Proof. unfold TestEntryIntersection. destruct (_ && _); auto. Qed.

Lemma TestExitIntersection_01 (y en ex : Z) :
  TestExitIntersection y en ex = 0 \/ TestExitIntersection y en ex = 1.
Proof. unfold TestExitIntersection. destruct (_ && _); auto. Qed.

Lemma TestEntryIntersection_iff (y en ex : Z) :
  TestEntryIntersection y en ex = 1 <-> en - 2 <= y <= en + 2 /\ y < ex.
Proof. unfold TestEntryIntersection. zcase; split; intros; lia. Qed.

Lemma TestExitIntersection_iff (y en ex : Z) :
  TestExitIntersection y en ex = 1 <-> ex - 2 <= y <= ex + 2 /\ en < y.
Proof. unfold TestExitIntersection. zcase; split; intros; lia. Qed.

Lemma TestEntryIntersection_0 (y en ex : Z) :
  ~ (en - 2 <= y <= en + 2 /\ y < ex) -> TestEntryIntersection y en ex = 0.
Proof. unfold TestEntryIntersection. zcase; intros; lia. Qed.

Lemma TestExitIntersection_0 (y en ex : Z) :
  ~ (ex - 2 <= y <= ex + 2 /\ en < y) -> TestExitIntersection y en ex = 0.
Proof. unfold TestExitIntersection. zcase; intros; lia. Qed.

Lemma mk_pass_eq (e1 e2 x1 x2 n1 n2 : Z) :
  e1 = e2 -> x1 = x2 -> n1 = n2 ->
  mk_pass (mk_counters e1 x1) n1 = mk_pass (mk_counters e2 x2) n2.
Proof. intros -> -> ->. reflexivity. Qed.

(** One loop pass from any state adds the number of hits to the
    counters and the number of retained contours to [ContourCount]. *)
Lemma fold_process (cfg : config) (en ex : Z) (cs : list contour) (st : pass_state) :
  fold_left (process_contour cfg en ex) cs st =
  mk_pass (mk_counters (EntryCounter (pass_counters st) + countb (entry_hit cfg en ex) cs)
                       (ExitCounter (pass_counters st) + countb (exit_hit cfg en ex) cs))
          (ContourCount st + countb (retained cfg) cs).
Proof.
  revert st. induction cs as [|c cs IH]; intros [[e x] n]; simpl.
  - unfold countb. simpl. apply mk_pass_eq; lia.
  - rewrite IH. unfold process_contour, entry_hit, exit_hit, retained, center_row.
    rewrite !countb_cons. destruct (too_small cfg c);
      cbn [negb andb pass_counters EntryCounter ExitCounter ContourCount]; [apply mk_pass_eq; lia|].
    destruct (py_truthy (TestEntryIntersection (CenterYCoord (boundingRect c)) en ex)),
      (py_truthy (TestExitIntersection (CenterYCoord (boundingRect c)) en ex));
      cbn [negb andb pass_counters EntryCounter ExitCounter ContourCount];
      apply mk_pass_eq; lia.
Qed.

#[export] Hint Rewrite fold_process : oc_rw.

Lemma count_frame_eq (cfg : config) (height : Z) (cs : list contour) (ctrs : counters) :
  count_frame cfg height cs ctrs =
  let en := EntryLineYCoord cfg height in
  let ex := ExitLineYCoord cfg height in
  mk_pass (mk_counters (EntryCounter ctrs + countb (entry_hit cfg en ex) cs)
                       (ExitCounter ctrs + countb (exit_hit cfg en ex) cs))
          (countb (retained cfg) cs).
Proof. unfold count_frame. rewrite fold_process. reflexivity. Qed.

(** Evaluate the closed intersection tests of the goal. *)
Ltac eval_tests :=
  repeat match goal with
  | |- context [py_truthy ?t] =>
      let v := eval vm_compute in (py_truthy t) in change (py_truthy t) with v
  end; cbn [andb orb negb].

(** ** Theorems *)

(** C3: the order and the place of the reference lines.  The entry line
    lies above the exit line exactly when the offset is positive, whatever
    the frame height; with a positive offset and a frame taller than twice
    the offset both lines are rows of the frame: [0 <= entry < exit < height]. *)
Theorem reference_lines_ordered (cfg : config) (height : Z) :
  (EntryLineYCoord cfg height < ExitLineYCoord cfg height <-> 0 < ReferenceLinesOffset cfg) /\
  (0 < ReferenceLinesOffset cfg -> 2 * ReferenceLinesOffset cfg < height ->
   0 <= EntryLineYCoord cfg height /\
   EntryLineYCoord cfg height < ExitLineYCoord cfg height /\
   ExitLineYCoord cfg height < height).
Proof.
  unfold EntryLineYCoord, ExitLineYCoord. split; [lia|].
  intros H1 H2. Z.div_mod_to_equations. lia.
Qed.

Lemma reference_lines_ordered_witness :
  (0 < ReferenceLinesOffset source_config /\ 2 * ReferenceLinesOffset source_config < 480) /\
  0 <= EntryLineYCoord source_config 480 /\
  EntryLineYCoord source_config 480 < ExitLineYCoord source_config 480 /\
  ExitLineYCoord source_config 480 < 480.
Proof.
  split; [vm_compute; split; reflexivity|].
  apply (reference_lines_ordered source_config 480); vm_compute; reflexivity.
Defined.

(** C5: the two tests on every branch.  The entry test returns 1 exactly
    for a centre within 2 rows of the entry line and above the exit line,
    and 0 otherwise; the exit test returns 1 exactly for a centre within
    2 rows of the exit line and below the entry line, and 0 otherwise. *)
Theorem intersection_tests_spec (y en ex : Z) :
  (TestEntryIntersection y en ex = 1 <-> en - 2 <= y <= en + 2 /\ y < ex) /\
  (TestEntryIntersection y en ex = 0 <-> ~ (en - 2 <= y <= en + 2 /\ y < ex)) /\
  (TestExitIntersection y en ex = 1 <-> ex - 2 <= y <= ex + 2 /\ en < y) /\
  (TestExitIntersection y en ex = 0 <-> ~ (ex - 2 <= y <= ex + 2 /\ en < y)).
Proof. unfold TestEntryIntersection, TestExitIntersection. zcase; repeat split; intros; lia. Qed.

(** C7: the tests on and off the lines.  With the entry line above the
    exit line, a centre exactly on the entry line is an entry and not an
    exit, and a centre exactly on the exit line is an exit and not an
    entry; and the tolerance is two rows: a centre three or more rows away
    from a line never counts for that line. *)
Theorem centre_on_reference_line (en ex d : Z) :
  (en < ex ->
   (TestEntryIntersection en en ex = 1 /\ TestExitIntersection en en ex = 0) /\
   (TestExitIntersection ex en ex = 1 /\ TestEntryIntersection ex en ex = 0)) /\
  (3 <= Z.abs d ->
   TestEntryIntersection (en + d) en ex = 0 /\ TestExitIntersection (ex + d) en ex = 0).
Proof.
  split; intros H; repeat split;
    first [ apply TestEntryIntersection_iff; lia | apply TestExitIntersection_iff; lia
          | apply TestEntryIntersection_0; lia | apply TestExitIntersection_0; lia ].
Qed.

Lemma centre_on_reference_line_witness :
  (90 < 390 /\ 3 <= Z.abs (-3)) /\
  ((TestEntryIntersection 90 90 390 = 1 /\ TestExitIntersection 90 90 390 = 0) /\
   (TestExitIntersection 390 90 390 = 1 /\ TestEntryIntersection 390 90 390 = 0)) /\
  (TestEntryIntersection (90 + -3) 90 390 = 0 /\ TestExitIntersection (390 + -3) 90 390 = 0).
Proof.
  split; [split; [lia | vm_compute; discriminate]|].
  split; [apply (centre_on_reference_line 90 390 (-3)); lia|].
  apply (centre_on_reference_line 90 390 (-3)); vm_compute; discriminate.
Defined.

(** C10: one centre counts as both an entry and an exit only when the
    exit line is at most four rows below the entry line. *)
Theorem both_hits_close_lines (y en ex : Z) :
  TestEntryIntersection y en ex = 1 -> TestExitIntersection y en ex = 1 -> 0 < ex - en <= 4.
Proof. rewrite TestEntryIntersection_iff, TestExitIntersection_iff. lia. Qed.

Lemma both_hits_close_lines_witness :
  TestEntryIntersection 11 10 13 = 1 /\ TestExitIntersection 11 10 13 = 1 /\ 0 < 13 - 10 <= 4.
Proof.
  split; [reflexivity|]. split; [reflexivity|].
  apply (both_hits_close_lines 11 10 13); reflexivity.
Defined.

(** C1: one frame's pass adds to [EntryCounter] the number of contours of
    area at least [MinimumContourArea] whose centre row is within two rows
    of the entry line and above the exit line, adds to [ExitCounter] the
    number of such contours within two rows of the exit line and below
    the entry line, and sets [ContourCount] to the number of contours of
    area at least [MinimumContourArea]. *)
Theorem count_frame_spec (cfg : config) (height : Z) (cs : list contour) (ctrs : counters) :
  let en := EntryLineYCoord cfg height in
  let ex := ExitLineYCoord cfg height in
  let big c := 2 * MinimumContourArea cfg <=? contour_area_x2 c in
  let st := count_frame cfg height cs ctrs in
  EntryCounter (pass_counters st) = EntryCounter ctrs +
    countb (fun c => big c && (Z.abs (center_row c - en) <=? 2) && (center_row c <? ex)) cs /\
  ExitCounter (pass_counters st) = ExitCounter ctrs +
    countb (fun c => big c && (Z.abs (center_row c - ex) <=? 2) && (en <? center_row c)) cs /\
  ContourCount st = countb big cs.
Proof.
  cbv zeta. rewrite count_frame_eq. cbn zeta. cbn [pass_counters EntryCounter ExitCounter ContourCount].
  assert (Hb : forall c, retained cfg c = (2 * MinimumContourArea cfg <=? contour_area_x2 c)).
  { intros c. unfold retained, too_small. rewrite Z.ltb_antisym. apply negb_involutive. }
  unfold entry_hit, exit_hit. repeat split; [apply f_equal | apply f_equal | ]; apply countb_ext; intros c;
    rewrite Hb; try reflexivity; rewrite <- andb_assoc; f_equal;
    unfold py_truthy, TestEntryIntersection, TestExitIntersection; destruct (_ && _); reflexivity.
Qed.

(** C11: a frame's pass never decreases a counter and raises each by at
    most the number of contours. *)
Theorem count_frame_monotone (cfg : config) (height : Z) (cs : list contour) (ctrs : counters) :
  let c' := pass_counters (count_frame cfg height cs ctrs) in
  EntryCounter ctrs <= EntryCounter c' <= EntryCounter ctrs + Z.of_nat (length cs) /\
  ExitCounter ctrs <= ExitCounter c' <= ExitCounter ctrs + Z.of_nat (length cs).
Proof.
  cbv zeta. rewrite count_frame_eq. cbn zeta. cbn [pass_counters EntryCounter ExitCounter].
  unfold countb. pose proof (filter_length_le (entry_hit cfg (EntryLineYCoord cfg height)
    (ExitLineYCoord cfg height)) cs).
  pose proof (filter_length_le (exit_hit cfg (EntryLineYCoord cfg height)
    (ExitLineYCoord cfg height)) cs). lia.
Qed.

(** C12: the counts do not depend on the order in which [findContours]
    returns the contours. *)
Theorem count_frame_perm (cfg : config) (height : Z) (cs cs' : list contour) (ctrs : counters) :
  Permutation cs cs' -> count_frame cfg height cs ctrs = count_frame cfg height cs' ctrs.
Proof.
  intros H. rewrite !count_frame_eq. cbn zeta.
  rewrite !(countb_perm _ _ _ H). reflexivity.
Qed.

Lemma count_frame_perm_witness :
  Permutation [[(0, 0)]; [(1, 1)]] [[(1, 1)]; [(0, 0)]] /\
  count_frame source_config 480 [[(0, 0)]; [(1, 1)]] (mk_counters 0 0) =
  count_frame source_config 480 [[(1, 1)]; [(0, 0)]] (mk_counters 0 0).
Proof.
  assert (H : Permutation [[(0, 0)]; [(1, 1)]] [[(1, 1)]; [(0, 0)]]) by apply perm_swap.
  split; [exact H | apply count_frame_perm, H].
Defined.

(** C13: contours of area below [MinimumContourArea] have no effect: the
    pass over all contours equals the pass over the retained ones. *)
Theorem count_frame_small_ignored (cfg : config) (height : Z) (cs : list contour) (ctrs : counters) :
  count_frame cfg height cs ctrs = count_frame cfg height (filter (retained cfg) cs) ctrs.
Proof.
  rewrite !count_frame_eq. cbn zeta. unfold entry_hit, exit_hit.
  rewrite !countb_filter. f_equal; [f_equal; f_equal|];
    apply countb_ext; intros c; destruct (retained cfg c); reflexivity.
Qed.

(** C14: the spec's scenario.  With the script's configuration and a
    480-row frame the lines are rows 90 and 390; one retained contour
    whose centre is on row 90 adds one entry, on row 390 one exit, on
    row 240 nothing. *)
Theorem scenario_480_150 (c : contour) (ctrs : counters) :
  retained source_config c = true ->
  EntryLineYCoord source_config 480 = 90 /\ ExitLineYCoord source_config 480 = 390 /\
  let st := count_frame source_config 480 [c] ctrs in
  (center_row c = 90 ->
     pass_counters st = mk_counters (EntryCounter ctrs + 1) (ExitCounter ctrs)) /\
  (center_row c = 390 ->
     pass_counters st = mk_counters (EntryCounter ctrs) (ExitCounter ctrs + 1)) /\
  (center_row c = 240 -> pass_counters st = ctrs).
Proof.
  intros Hr. split; [reflexivity|]. split; [reflexivity|]. cbv zeta.
  rewrite count_frame_eq. cbn zeta.
  change (EntryLineYCoord source_config 480) with 90.
  change (ExitLineYCoord source_config 480) with 390.
  unfold entry_hit, exit_hit. rewrite !countb_cons. unfold countb. rewrite Hr.
  destruct ctrs as [e x]. cbn [pass_counters EntryCounter ExitCounter filter length].
  repeat split; intros Hc; rewrite Hc; eval_tests; f_equal; lia.
Qed.

Lemma scenario_480_150_witness :
  retained source_config [(0, 60); (0, 120); (99, 120); (99, 60)] = true /\
  center_row [(0, 60); (0, 120); (99, 120); (99, 60)] = 90 /\
  pass_counters (count_frame source_config 480 [[(0, 60); (0, 120); (99, 120); (99, 60)]]
    (mk_counters 0 0)) = mk_counters 1 0.
Proof.
  split; [reflexivity|]. split; [reflexivity|].
  apply (scenario_480_150 [(0, 60); (0, 120); (99, 120); (99, 60)] (mk_counters 0 0));
    reflexivity.
Defined.

(** C20: the filter of line 87 measures the contour, not its bounding
    box.  A solid rectangular blob of [(w+1) x (h+1)] pixels, whose
    [CHAIN_APPROX_SIMPLE] contour is its four corners, has a bounding box
    of [(w+1) * (h+1)] pixels; yet a frame's pass drops it (no counter
    moves and [ContourCount] stays 0) exactly when its contour area
    [w * h] is below [MinimumContourArea].  So every blob whose box
    reaches the minimum while [w * h] does not is dropped, where the
    spec's bounding-box filter would keep it. *)
Theorem area_filter_not_bbox (cfg : config) (height x y w h : Z) (ctrs : counters) :
  0 <= w -> 0 <= h ->
  let c := [(x, y); (x, y + h); (x + w, y + h); (x + w, y)] in
  box_w (boundingRect c) * box_h (boundingRect c) = (w + 1) * (h + 1) /\
  (count_frame cfg height [c] ctrs = mk_pass ctrs 0 <-> w * h < MinimumContourArea cfg).
Proof.
  intros Hw Hh. cbv zeta. rewrite rectangle_boundingRect by assumption. split; [reflexivity|].
  unfold count_frame. cbn [fold_left]. unfold process_contour, too_small.
  rewrite rectangle_area_x2 by assumption.
  destruct (2 * w * h <? 2 * MinimumContourArea cfg) eqn:E; zbool.
  - split; [lia | reflexivity].
  - split; [|lia]. intros Heq. apply (f_equal ContourCount) in Heq. cbn in Heq. lia.
Qed.

(** A 600x6-pixel bar on the entry line of a 480-row frame: its box has
    3600 >= 3000 pixels, but its contour area 599 * 5 = 2995 < 3000. *)
Lemma area_filter_not_bbox_witness :
  (0 <= 599 /\ 0 <= 5) /\
  box_w (boundingRect [(0, 88); (0, 88 + 5); (0 + 599, 88 + 5); (0 + 599, 88)]) *
  box_h (boundingRect [(0, 88); (0, 88 + 5); (0 + 599, 88 + 5); (0 + 599, 88)]) = 3600 /\
  count_frame source_config 480 [[(0, 88); (0, 88 + 5); (0 + 599, 88 + 5); (0 + 599, 88)]]
    (mk_counters 0 0) = mk_pass (mk_counters 0 0) 0.
Proof.
  split; [lia|].
  destruct (area_filter_not_bbox source_config 480 0 88 599 5 (mk_counters 0 0)) as [Hb Hc]; [lia | lia |].
  split; [rewrite Hb; reflexivity | apply Hc; vm_compute; reflexivity].
Defined.

