(* ===== verification/ChainApprox.v ===== *)
(** The last stage of [cv2.findContours] ([src/converted.py] line 74):
    how a traced border becomes the list of points of a contour, under
    [cv2.CHAIN_APPROX_SIMPLE] (the script's choice) and under
    [CHAIN_APPROX_NONE].

    OpenCV's border follower ([icvFetchContour] in
    [imgproc/contours.cpp]) walks the border from its start pixel [pt] as
    a chain of Freeman codes [s] in [0..7], each a step of
    [icvCodeDeltas[s]].  Before each step it writes the current point when
    [s != prev_s || method == 0] (then [prev_s = s]); [method] is the
    approximation method minus one, so [CHAIN_APPROX_NONE] writes every
    border point and [CHAIN_APPROX_SIMPLE] only the points where the
    direction changes.  [prev_s] starts at [s ^ 4], where [s] is the
    direction from the start pixel to the pixel the walk returns from;
    the walk stops when it is back at the start coming from that pixel,
    so the chain is closed and its last step has direction [s ^ 4].  A
    single-pixel blob writes its pixel.  The walk itself (the search of
    the next border pixel) is not modelled: a traced border is the record
    [border] (start pixel, first direction, chain), and [contours_of]
    turns the borders of a frame into the [contours] of line 74.

    The theorems show that on a closed border the two methods give the
    same [boundingRect] and the same [contourArea] (C4), so that the pass
    of [LineCounter.count_frame] over a frame's contours, which reads a
    contour only at lines 87 and 95, counts the same with either method
    (C9).  The proof follows the straight runs of the chain: every point
    [CHAIN_APPROX_NONE] writes lies between two kept points of its run
    ([boxed_simple]), and the shoelace terms of a run telescope
    ([open_sum_simple]); the wrap-around from the last point to the first
    is handled by [closed_chain_runs]. *)

From Stdlib Require Import ZArith List Lia Bool.
From S2P Require Import Prelude Config Image Contours LineCounter.
Import ListNotations.
Open Scope Z_scope.

(** ** Chain codes *)

(** [icvCodeDeltas]: east, north-east, north, north-west, west,
    south-west, south, south-east (rows grow downwards). *)
Definition code_delta (s : Z) : point :=
  match s with
  | 0 => (1, 0)
  | 1 => (1, -1)
  | 2 => (0, -1)
  | 3 => (-1, -1)
  | 4 => (-1, 0)
  | 5 => (-1, 1)
  | 6 => (0, 1)
  | _ => (1, 1)
  end.

(** [pt.x += icvCodeDeltas[s].x; pt.y += icvCodeDeltas[s].y]. *)
Definition move (pt : point) (s : Z) : point :=
  (fst pt + fst (code_delta s), snd pt + snd (code_delta s)).

(** The point reached at the end of the chain. *)
Fixpoint chain_end (pt : point) (codes : list Z) : point :=
  match codes with
  | [] => pt
  | s :: cs => chain_end (move pt s) cs
  end.

(** The border loop: before each step, write [pt] when
    [s != prev_s || method == 0]; [prev_s] becomes [s]. *)
Fixpoint write_chain (method prev_s : Z) (pt : point) (codes : list Z) : contour :=
  match codes with
  | [] => []
  | s :: cs =>
      (if negb (s =? prev_s) || (method =? 0) then [pt] else [])
        ++ write_chain method s (move pt s) cs
  end.

Definition CHAIN_APPROX_NONE : Z := 1.
Definition CHAIN_APPROX_SIMPLE : Z := 2.

(** The points of the contour of a border that starts at [pt], whose
    first scan found the direction [s], and whose walk is [codes] (empty
    for a single pixel). *)
Definition fetch_contour (approx_method : Z) (pt : point) (s : Z) (codes : list Z) : contour :=
  match codes with
  | [] => [pt]
  | _ => write_chain (approx_method - 1) (Z.lxor s 4) pt codes
  end.

(** A traced border as the walk hands it to [icvFetchContour]: its
    start pixel, the direction [s] of its first scan and its chain. *)
Record border := mk_border { border_start : point; border_dir : Z; border_codes : list Z }.

Definition border_contour (approx_method : Z) (b : border) : contour :=
  fetch_contour approx_method (border_start b) (border_dir b) (border_codes b).

(** The [contours] of line 74: one contour per traced border. *)
Definition contours_of (approx_method : Z) (bs : list border) : list contour :=
  map (border_contour approx_method) bs.

(** The walk of a border stops back at its start pixel, its last step
    coming from the direction [s ^ 4]; a single pixel has no walk. *)
Definition closed_border (b : border) : bool :=
  match border_codes b with
  | [] => true
  | codes =>
      let e := chain_end (border_start b) codes in
      (fst e =? fst (border_start b)) && (snd e =? snd (border_start b)) &&
      (last codes 0 =? Z.lxor (border_dir b) 4)
  end.

(** ** Geometry used by the proofs *)

(** [k] steps of direction [s] from [p]. *)
Definition along (p : point) (k s : Z) : point :=
  (fst p + k * fst (code_delta s), snd p + k * snd (code_delta s)).

Definition cross (a b : point) : Z := fst a * snd b - snd a * fst b.

(** The shoelace sum of an open polyline. *)
Fixpoint open_sum (l : list point) : Z :=
  match l with
  | a :: ((b :: _) as l') => cross a b + open_sum l'
  | _ => 0
  end.

(** [p] lies in the bounding box of the points of [l]. *)
Definition boxed (p : point) (l : list point) : Prop :=
  (exists u, In u l /\ fst u <= fst p) /\ (exists u, In u l /\ fst p <= fst u) /\
  (exists u, In u l /\ snd u <= snd p) /\ (exists u, In u l /\ snd p <= snd u).

(** ** The two methods *)

Lemma write_none_cons (prev : Z) (pt : point) (s : Z) (cs : list Z) :
  write_chain 0 prev pt (s :: cs) = pt :: write_chain 0 s (move pt s) cs.
Proof. cbn [write_chain]. rewrite orb_true_r. reflexivity. Qed.

Lemma write_simple_cons (prev : Z) (pt : point) (s : Z) (cs : list Z) :
  write_chain 1 prev pt (s :: cs) =
  if s =? prev then write_chain 1 s (move pt s) cs else pt :: write_chain 1 s (move pt s) cs.
Proof. cbn [write_chain]. destruct (s =? prev); reflexivity. Qed.

(** The points written by [CHAIN_APPROX_SIMPLE] are border points. *)
Lemma write_simple_incl (prev : Z) (pt : point) (codes : list Z) :
  incl (write_chain 1 prev pt codes) (write_chain 0 prev pt codes).
Proof.
  revert prev pt. induction codes as [|s cs IH]; intros prev pt; [apply incl_refl|].
  rewrite write_simple_cons, write_none_cons.
  destruct (s =? prev); [apply incl_tl, IH | apply incl_cons; [left; reflexivity | apply incl_tl, IH]].
Qed.

Lemma along_0 (p : point) (s : Z) : along p 0 s = p.
Proof. destruct p. unfold along. cbn. f_equal; ring. Qed.

Lemma along_move (p : point) (k s : Z) : along (move p s) k s = along p (k + 1) s.
Proof. destruct p. unfold along, move. cbn. f_equal; ring. Qed.

Lemma move_along (p : point) (s : Z) : move p s = along p 1 s.
Proof. destruct p as [x y]. unfold along, move. cbn [fst snd]. rewrite !Z.mul_1_l. reflexivity. Qed.

Lemma move_along_succ (p : point) (k s : Z) : move (along p k s) s = along p (k + 1) s.
Proof. destruct p. unfold along, move. cbn [fst snd]. f_equal; ring. Qed.

Lemma code_delta_nonzero (s : Z) : code_delta s <> (0, 0).
Proof.
  unfold code_delta.
  destruct s as [|[p|p|]|[p|p|]]; try discriminate;
    repeat (destruct p as [p|p|]; try discriminate).
Qed.

(** The border points followed by the end point start at [pt]. *)
Lemma write_none_end (prev : Z) (pt : point) (codes : list Z) :
  exists l, write_chain 0 prev pt codes ++ [chain_end pt codes] = pt :: l.
Proof. destruct codes as [|s cs]; [eexists; reflexivity|]. rewrite write_none_cons. eexists; reflexivity. Qed.

Lemma last_indep {A} (x : A) (l : list A) (d d' : A) : last (x :: l) d = last (x :: l) d'.
Proof. revert x. induction l as [|y l IH]; intros x; [reflexivity|]. apply IH. Qed.

Lemma last_cons_shift {A} (x : A) (l : list A) (d : A) : last (x :: l) d = last l x.
Proof. destruct l as [|y l]; [reflexivity|]. exact (last_indep y l d x). Qed.

(** The first point written by [CHAIN_APPROX_SIMPLE], or the end point if
    none is, is reached from [pt] by steps of direction [prev]. *)
Lemma head_run (prev : Z) (pt : point) (codes : list Z) :
  exists k, 0 <= k /\ exists l,
    write_chain 1 prev pt codes ++ [chain_end pt codes] = along pt k prev :: l.
Proof.
  revert prev pt. induction codes as [|s cs IH]; intros prev pt.
  - exists 0. split; [lia|]. rewrite along_0. eexists; reflexivity.
  - rewrite write_simple_cons. cbn [chain_end]. destruct (s =? prev) eqn:E.
    + apply Z.eqb_eq in E. subst s. destruct (IH prev (move pt prev)) as [k [Hk [l Hl]]].
      exists (k + 1). split; [lia|]. rewrite Hl, along_move. eauto.
    + exists 0. split; [lia|]. rewrite along_0. eexists; reflexivity.
Qed.

(** The end point is reached from the last written point (or from [a],
    when nothing is written) by steps of the last direction; at least one
    step when the chain is not empty. *)
Lemma tail_run (prev : Z) (pt a : point) (j : Z) (codes : list Z) :
  0 <= j -> pt = along a j prev ->
  exists m, ((codes = [] /\ m = j) \/ (codes <> [] /\ 1 <= m)) /\
    chain_end pt codes = along (last (a :: write_chain 1 prev pt codes) a) m (last codes prev).
Proof.
  revert prev pt a j. induction codes as [|s cs IH]; intros prev pt a j Hj Hpt.
  - exists j. split; [left; split; reflexivity|]. cbn. exact Hpt.
  - rewrite write_simple_cons. cbn [chain_end]. destruct (s =? prev) eqn:E.
    + apply Z.eqb_eq in E. subst s.
      destruct (IH prev (move pt prev) a (j + 1)) as [m [Hm He]];
        [lia | rewrite Hpt; apply move_along_succ|].
      exists m. split; [destruct Hm as [[-> ->] | [_ Hm]]; right; split; try discriminate; lia|].
      rewrite He, (last_cons_shift prev cs prev). reflexivity.
    + destruct (IH s (move pt s) pt 1) as [m [Hm He]]; [lia | apply move_along|].
      exists m. split; [destruct Hm as [[-> ->] | [_ Hm]]; right; split; try discriminate; lia|].
      rewrite He, (last_cons_shift s cs prev), (last_cons_shift a _ a), (last_indep pt _ a pt). reflexivity.
Qed.

Lemma along_along (p : point) (i k s : Z) : along (along p i s) k s = along p (i + k) s.
Proof. destruct p. unfold along. cbn [fst snd]. f_equal; ring. Qed.

(** Three points of a run: the middle one adds nothing to the shoelace sum. *)
Lemma cross_run (a : point) (j s : Z) :
  cross a (along a j s) + cross (along a j s) (along a (j + 1) s) = cross a (along a (j + 1) s).
Proof. destruct a. unfold cross, along. cbn [fst snd]. ring. Qed.

(** Four points of one line: the shoelace sum of the two ways round agrees. *)
Lemma cross_line (q : point) (i l n s : Z) :
  cross (along q i s) (along q l s) + cross q (along q n s) =
  cross q (along q l s) + cross (along q i s) (along q n s).
Proof. destruct q. unfold cross, along. cbn [fst snd]. ring. Qed.

Lemma open_sum_cons2 (a b : point) (l : list point) :
  open_sum (a :: b :: l) = cross a b + open_sum (b :: l).
Proof. reflexivity. Qed.

(** The open shoelace sum of the border, from a point [a] behind [pt] on
    the line of direction [prev], is that of the [CHAIN_APPROX_SIMPLE]
    points. *)
Lemma open_sum_simple (prev : Z) (pt a : point) (j : Z) (codes : list Z) :
  pt = along a j prev ->
  open_sum (a :: write_chain 0 prev pt codes ++ [chain_end pt codes]) =
  open_sum (a :: write_chain 1 prev pt codes ++ [chain_end pt codes]).
Proof.
  revert prev pt a j. induction codes as [|s cs IH]; intros prev pt a j Hpt; [reflexivity|].
  rewrite write_none_cons, write_simple_cons. cbn [chain_end app]. destruct (s =? prev) eqn:E.
  - apply Z.eqb_eq in E. subst s.
    rewrite <- (IH prev (move pt prev) a (j + 1)) by (rewrite Hpt; apply move_along_succ).
    destruct (write_none_end prev (move pt prev) cs) as [l ->].
    rewrite !open_sum_cons2. rewrite Hpt, move_along_succ, <- (cross_run a j prev). ring.
  - cbn [app]. rewrite !open_sum_cons2. f_equal. apply (IH s (move pt s) pt 1 (move_along pt s)).
Qed.

(** ** Bounding boxes *)

Lemma boxed_In (p : point) (l : list point) : In p l -> boxed p l.
Proof. intros H. repeat split; exists p; split; auto; lia. Qed.

Lemma boxed_trans (p : point) (l l' : list point) :
  boxed p l -> (forall u, In u l -> boxed u l') -> boxed p l'.
Proof.
  intros [[u1 [I1 H1]] [[u2 [I2 H2]] [[u3 [I3 H3]] [u4 [I4 H4]]]]] Hl.
  destruct (Hl u1 I1) as [[w [Iw Hw]] _]. destruct (Hl u2 I2) as [_ [[w' [Iw' Hw']] _]].
  destruct (Hl u3 I3) as [_ [_ [[v [Iv Hv]] _]]]. destruct (Hl u4 I4) as [_ [_ [_ [v' [Iv' Hv']]]]].
  repeat split; [exists w | exists w' | exists v | exists v']; split; auto; lia.
Qed.

(** A point of a run between two points of the list is in their box. *)
Lemma boxed_along (q : point) (i n s : Z) (l : list point) :
  In q l -> In (along q n s) l -> 0 <= i <= n -> boxed (along q i s) l.
Proof.
  intros Hq Hn Hi. destruct q as [x y]. unfold along in *. cbn [fst snd] in *.
  destruct (Z_le_gt_dec 0 (fst (code_delta s))), (Z_le_gt_dec 0 (snd (code_delta s)));
    repeat split; first [exists (x, y); split; [exact Hq | cbn; nia]
                        | eexists; split; [exact Hn | cbn; nia]].
Qed.

(** Every border point lies in the box of [a], the [CHAIN_APPROX_SIMPLE]
    points and the end point, when [pt] is ahead of [a] on the line of
    direction [prev]. *)
Lemma boxed_simple (prev : Z) (pt a : point) (j : Z) (codes : list Z) :
  0 <= j -> pt = along a j prev ->
  forall p, In p (write_chain 0 prev pt codes ++ [chain_end pt codes]) ->
  boxed p (a :: write_chain 1 prev pt codes ++ [chain_end pt codes]).
Proof.
  revert prev pt a j. induction codes as [|s cs IH]; intros prev pt a j Hj Hpt p Hp.
  - apply boxed_In. right. exact Hp.
  - rewrite write_none_cons in Hp. rewrite write_simple_cons. cbn [chain_end app] in *.
    destruct (s =? prev) eqn:E.
    + apply Z.eqb_eq in E. subst s. destruct Hp as [<- | Hp].
      * destruct (head_run prev (move pt prev) cs) as [k [Hk [l Hl]]]. rewrite Hl.
        rewrite Hpt, move_along_succ, along_along.
        apply (boxed_along a j (j + 1 + k)); [left; reflexivity | right; left; reflexivity | lia].
      * apply (IH prev (move pt prev) a (j + 1)); [lia | rewrite Hpt; apply move_along_succ | exact Hp].
    + destruct Hp as [<- | Hp]; [apply boxed_In; right; left; reflexivity|].
      apply (boxed_trans p (pt :: write_chain 1 s (move pt s) cs ++ [chain_end (move pt s) cs])).
      * apply (IH s (move pt s) pt 1); [lia | apply move_along | exact Hp].
      * intros u Hu. apply boxed_In. right. exact Hu.
Qed.

Lemma last_In_cons {A} (x : A) (l : list A) (d : A) : In (last (x :: l) d) (x :: l).
Proof.
  revert x. induction l as [|y l IH]; intros x; [left; reflexivity|].
  right. exact (IH y).
Qed.

(** Two point lists with the same box have the same [boundingRect]. *)
Lemma boundingRect_boxed (l1 l2 : list point) :
  l1 <> [] -> incl l1 l2 -> (forall p, In p l2 -> boxed p l1) ->
  boundingRect l1 = boundingRect l2.
Proof.
  intros Hne Hincl Hbox.
  assert (Hne2 : l2 <> []).
  { destruct l1 as [|p l1]; [congruence|]. intros E. rewrite E in Hincl. apply (Hincl p). left. reflexivity. }
  destruct (boundingRect_edges l1 Hne) as [[p1 [I1 E1]] [[p2 [I2 E2]] [[p3 [I3 E3]] [p4 [I4 E4]]]]].
  destruct (boundingRect_edges l2 Hne2) as [[q1 [J1 F1]] [[q2 [J2 F2]] [[q3 [J3 F3]] [q4 [J4 F4]]]]].
  pose proof (boundingRect_contains l2 p1 (Hincl _ I1)). pose proof (boundingRect_contains l2 p2 (Hincl _ I2)).
  pose proof (boundingRect_contains l2 p3 (Hincl _ I3)). pose proof (boundingRect_contains l2 p4 (Hincl _ I4)).
  destruct (Hbox q1 J1) as [[u1 [K1 G1]] _]. destruct (Hbox q2 J2) as [_ [[u2 [K2 G2]] _]].
  destruct (Hbox q3 J3) as [_ [_ [[u3 [K3 G3]] _]]]. destruct (Hbox q4 J4) as [_ [_ [_ [u4 [K4 G4]]]]].
  pose proof (boundingRect_contains l1 u1 K1). pose proof (boundingRect_contains l1 u2 K2).
  pose proof (boundingRect_contains l1 u3 K3). pose proof (boundingRect_contains l1 u4 K4).
  cbv zeta in *. destruct (boundingRect l1), (boundingRect l2). simpl in *.
  f_equal; lia.
Qed.

Lemma chain_end_last (prev : Z) (pt : point) (codes : list Z) :
  codes <> [] ->
  chain_end pt codes = move (last (write_chain 0 prev pt codes) pt) (last codes prev).
Proof.
  revert prev pt. induction codes as [|s cs IH]; intros prev pt Hne; [congruence|].
  destruct cs as [|z cs]; [rewrite write_none_cons; reflexivity|].
  rewrite write_none_cons. change (chain_end pt (s :: z :: cs)) with (chain_end (move pt s) (z :: cs)).
  rewrite (IH s (move pt s)) by discriminate.
  rewrite (last_cons_shift s), write_none_cons, (last_cons_shift pt).
  rewrite (last_indep (move pt s) _ pt (move pt s)). reflexivity.
Qed.

Lemma along_fixed (p : point) (m s : Z) : along p m s = p -> m = 0.
Proof.
  destruct p as [x y]. unfold along. cbn [fst snd]. intros E. injection E as Ex Ey.
  pose proof (code_delta_nonzero s). destruct (code_delta s) as [dx dy]. cbn [fst snd] in *.
  destruct (Z.eq_dec m 0) as [|Hm]; [assumption|]. exfalso.
  assert (dx = 0) by nia. assert (dy = 0) by nia. subst. congruence.
Qed.

Lemma along_shift (a q : point) (m s : Z) :
  along q m s = along a 1 s -> a = along q (m - 1) s.
Proof.
  destruct a as [ax ay], q as [qx qy]. unfold along. destruct (code_delta s) as [dx dy]. cbn [fst snd].
  rewrite !Z.mul_1_l. intros E. injection E as Hx Hy. f_equal; lia.
Qed.

(** A closed chain whose last step has direction [prev]: the points
    written by [CHAIN_APPROX_SIMPLE] start at [h] and end at [q]; the last
    border point [a], the start [pt] and [h] follow [q] on the line of
    direction [prev]. *)
Lemma closed_chain_runs (prev : Z) (pt : point) (codes : list Z) :
  codes <> [] -> chain_end pt codes = pt -> last codes prev = prev ->
  let a := last (write_chain 0 prev pt codes) pt in
  pt = along a 1 prev /\
  exists h A' m k, write_chain 1 prev pt codes = h :: A' /\ 1 <= m /\ 0 <= k /\
    let q := last (h :: A') h in
    pt = along q m prev /\ a = along q (m - 1) prev /\ h = along q (m + k) prev.
Proof.
  intros Hne Hend Hlast a.
  assert (Ha : pt = along a 1 prev)
    by (rewrite <- Hend at 1; rewrite (chain_end_last prev) by exact Hne; rewrite Hlast; apply move_along).
  split; [exact Ha|].
  destruct (tail_run prev pt pt 0 codes) as [m [Hm Hq]]; [lia | symmetry; apply along_0|].
  destruct Hm as [[-> _] | [_ Hm]]; [congruence|]. rewrite Hend, Hlast in Hq.
  destruct (head_run prev pt codes) as [k [Hk [l Hl]]]. rewrite Hend in Hl.
  destruct (write_chain 1 prev pt codes) as [|h A'] eqn:EA.
  - cbn in Hq. symmetry in Hq. apply along_fixed in Hq. lia.
  - exists h, A', m, k. split; [reflexivity|]. split; [exact Hm|]. split; [exact Hk|].
    cbv zeta. cbn [app] in Hl. injection Hl as Hh _.
    change (last (pt :: h :: A') pt) with (last (h :: A') pt) in Hq.
    rewrite (last_indep h A' pt h) in Hq.
    set (q := last (h :: A') h) in *. split; [exact Hq|]. split.
    + rewrite Hq in Ha. exact (along_shift a q m prev Ha).
    + rewrite Hh, Hq, along_along. reflexivity.
Qed.

Lemma shoelace_open (p : point) (l : list point) : shoelace p l = open_sum (p :: l).
Proof.
  revert p. induction l as [|x l IH]; intros p; [reflexivity|].
  cbn [shoelace]. rewrite IH, open_sum_cons2. reflexivity.
Qed.

Lemma open_sum_snoc (x y : point) (l : list point) :
  open_sum ((x :: l) ++ [y]) = open_sum (x :: l) + cross (last (x :: l) x) y.
Proof.
  revert x. induction l as [|z l IH]; intros x; [cbn [app]; rewrite open_sum_cons2; cbn [open_sum last]; lia|].
  cbn [app]. rewrite open_sum_cons2. change (z :: l ++ [y]) with ((z :: l) ++ [y]).
  rewrite IH, open_sum_cons2, (last_cons_shift x), (last_indep z l x z). lia.
Qed.

(** On a closed chain whose last code is [s ^ 4] the two approximation
    modes start from the same point and [fetch_contour] is [write_chain]. *)
Lemma fetch_closed (pt : point) (s : Z) (codes : list Z) :
  codes <> [] -> last codes 0 = Z.lxor s 4 ->
  fetch_contour CHAIN_APPROX_SIMPLE pt s codes = write_chain 1 (Z.lxor s 4) pt codes /\
  fetch_contour CHAIN_APPROX_NONE pt s codes = write_chain 0 (Z.lxor s 4) pt codes /\
  last codes (Z.lxor s 4) = Z.lxor s 4.
Proof.
  destruct codes as [|c cs]; [congruence|]. intros _ Hl.
  split; [reflexivity|]. split; [reflexivity|]. rewrite (last_indep c cs _ 0). exact Hl.
Qed.

(** The closing argument of the area: the terms of the shoelace sum that
    wrap around from the last point to the first cancel, because [a], [pt]
    and the first kept point [h] lie on one line through [q]. *)
Lemma area_closed (a q h pt : point) (P A : list point) (prev m k : Z) :
  open_sum (a :: (pt :: P) ++ [pt]) = open_sum (a :: (h :: A) ++ [pt]) ->
  last (pt :: P) pt = a -> last (h :: A) h = q ->
  pt = along q m prev -> a = along q (m - 1) prev -> h = along q (m + k) prev ->
  contour_area_x2 (h :: A) = contour_area_x2 (pt :: P).
Proof.
  intros Ho Ha Hq Hpt Hqa Hh. unfold contour_area_x2.
  rewrite (last_indep h A _ h), (last_indep pt P _ pt), Ha, Hq, !shoelace_open.
  change (a :: (pt :: P) ++ [pt]) with ((a :: pt :: P) ++ [pt]) in Ho.
  change (a :: (h :: A) ++ [pt]) with ((a :: h :: A) ++ [pt]) in Ho.
  rewrite !open_sum_snoc, !(last_cons_shift a), (last_indep pt P a pt), (last_indep h A a h), Ha, Hq in Ho.
  rewrite !open_sum_cons2 in Ho |- *.
  pose proof (cross_line q (m - 1) (m + k) m prev) as X.
  rewrite <- Hqa, <- Hh, <- Hpt in X. f_equal. lia.
Qed.

(** The box of the kept points: [a], the kept points and [pt] lie in the
    box of the kept points alone. *)
Lemma simple_boxed (prev : Z) (pt : point) (codes : list Z) :
  codes <> [] -> chain_end pt codes = pt -> last codes prev = prev ->
  forall p, In p (write_chain 0 prev pt codes) -> boxed p (write_chain 1 prev pt codes).
Proof.
  intros Hne Hend Hl p Hp.
  destruct (closed_chain_runs prev pt codes Hne Hend Hl) as [Ha [h [A' [m [k [EA [Hm [Hk [Hq [Hqa Hh]]]]]]]]]].
  pose proof (boxed_simple prev pt _ 1 codes ltac:(lia) Ha p) as Hb. rewrite Hend in Hb.
  apply (boxed_trans p _ _ (Hb (in_or_app _ _ _ (or_introl Hp)))). rewrite EA.
  assert (Iq : In (last (h :: A') h) (h :: A')) by apply last_In_cons.
  assert (Ih : In (along (last (h :: A') h) (m + k) prev) (h :: A')) by (rewrite <- Hh; left; reflexivity).
  intros u [<- | Hu]; [rewrite Hqa; apply (boxed_along _ _ (m + k)); auto; lia|].
  apply in_app_or in Hu. destruct Hu as [Hu | [<- | []]]; [apply boxed_In; exact Hu|].
  rewrite Hq. apply (boxed_along _ _ (m + k)); auto; lia.
Qed.

(** On a closed chain the two methods give the same box. *)
Lemma simple_boundingRect (pt : point) (s : Z) (codes : list Z) :
  chain_end pt codes = pt -> last codes 0 = Z.lxor s 4 ->
  boundingRect (fetch_contour CHAIN_APPROX_SIMPLE pt s codes) =
  boundingRect (fetch_contour CHAIN_APPROX_NONE pt s codes).
Proof.
  intros Hend Hlast. destruct codes as [|c cs]; [reflexivity|].
  destruct (fetch_closed pt s (c :: cs)) as [-> [-> Hl]]; [discriminate | exact Hlast |].
  destruct (closed_chain_runs (Z.lxor s 4) pt (c :: cs)) as [_ [h [A' [_ [_ [EA _]]]]]];
    [discriminate | exact Hend | exact Hl |].
  apply boundingRect_boxed; [rewrite EA; discriminate | apply write_simple_incl |].
  apply simple_boxed; [discriminate | exact Hend | exact Hl].
Qed.

(** On a closed chain the two methods give the same area. *)
Lemma simple_area (pt : point) (s : Z) (codes : list Z) :
  chain_end pt codes = pt -> last codes 0 = Z.lxor s 4 ->
  contour_area_x2 (fetch_contour CHAIN_APPROX_SIMPLE pt s codes) =
  contour_area_x2 (fetch_contour CHAIN_APPROX_NONE pt s codes).
Proof.
  intros Hend Hlast. destruct codes as [|c cs]; [reflexivity|].
  destruct (fetch_closed pt s (c :: cs)) as [-> [-> Hl]]; [discriminate | exact Hlast |].
  destruct (closed_chain_runs (Z.lxor s 4) pt (c :: cs)) as [Ha [h [A' [m [k [EA [_ [_ [Hq [Hqa Hh]]]]]]]]]];
    [discriminate | exact Hend | exact Hl |].
  pose proof (open_sum_simple (Z.lxor s 4) pt _ 1 (c :: cs) Ha) as Ho.
  rewrite Hend, EA in Ho. rewrite EA. rewrite write_none_cons in Ho, Hqa |- *.
  exact (area_closed _ _ h pt _ A' _ m k Ho eq_refl eq_refl Hq Hqa Hh).
Qed.

Lemma closed_border_spec (b : border) :
  closed_border b = true ->
  border_codes b = [] \/
  (chain_end (border_start b) (border_codes b) = border_start b /\
   last (border_codes b) 0 = Z.lxor (border_dir b) 4).
Proof.
  unfold closed_border. destruct (border_codes b) as [|c cs]; [left; reflexivity|].
  destruct (chain_end (border_start b) (c :: cs)) as [ex ey] eqn:E. cbn [fst snd].
  intros H. right. rewrite !andb_true_iff, !Z.eqb_eq in H. destruct H as [[Hx Hy] Hl].
  split; [|exact Hl]. destruct (border_start b). cbn in Hx, Hy. subst. reflexivity.
Qed.

(** Line 87 and line 95 read a contour only through its area and its box. *)
Lemma process_contour_ext (cfg : config) (en ex : Z) (st : pass_state) (c c' : contour) :
  contour_area_x2 c = contour_area_x2 c' -> boundingRect c = boundingRect c' ->
  process_contour cfg en ex st c = process_contour cfg en ex st c'.
Proof. intros Ha Hb. unfold process_contour, too_small. rewrite Ha, Hb. reflexivity. Qed.

Lemma process_border_approx (cfg : config) (en ex : Z) (st : pass_state) (b : border) :
  closed_border b = true ->
  process_contour cfg en ex st (border_contour CHAIN_APPROX_SIMPLE b) =
  process_contour cfg en ex st (border_contour CHAIN_APPROX_NONE b).
Proof.
  intros H. unfold border_contour. destruct (closed_border_spec b H) as [-> | [He Hl]]; [reflexivity|].
  apply process_contour_ext; [apply simple_area | apply simple_boundingRect]; assumption.
Qed.

(** ** Theorems *)

(** C4: on a closed border (the walk returns to its start pixel, its last
    code is the direction [s ^ 4] the tracing started from, or there is
    no walk), the contour [CHAIN_APPROX_SIMPLE] keeps has the
    [cv2.boundingRect] and the [cv2.contourArea] of the full
    [CHAIN_APPROX_NONE] contour: dropping the points inside straight runs
    changes neither. *)
Theorem approx_simple_equiv (b : border) :
  closed_border b = true ->
  boundingRect (border_contour CHAIN_APPROX_SIMPLE b) = boundingRect (border_contour CHAIN_APPROX_NONE b) /\
  contour_area_x2 (border_contour CHAIN_APPROX_SIMPLE b) = contour_area_x2 (border_contour CHAIN_APPROX_NONE b).
Proof.
  intros H. unfold border_contour. destruct (closed_border_spec b H) as [-> | [He Hl]].
  - split; reflexivity.
  - split; [apply simple_boundingRect | apply simple_area]; assumption.
Qed.

(** The border of a 4 x 3 rectangle traced from its top-left pixel:
    [CHAIN_APPROX_SIMPLE] keeps its four corners, with the same box and area. *)
Lemma approx_simple_equiv_witness :
  closed_border (mk_border (0, 0) 0 [6; 6; 0; 0; 0; 2; 2; 4; 4; 4]) = true /\
  border_contour CHAIN_APPROX_SIMPLE (mk_border (0, 0) 0 [6; 6; 0; 0; 0; 2; 2; 4; 4; 4]) =
    [(0, 0); (0, 2); (3, 2); (3, 0)] /\
  (boundingRect (border_contour CHAIN_APPROX_SIMPLE (mk_border (0, 0) 0 [6; 6; 0; 0; 0; 2; 2; 4; 4; 4])) =
   boundingRect (border_contour CHAIN_APPROX_NONE (mk_border (0, 0) 0 [6; 6; 0; 0; 0; 2; 2; 4; 4; 4])) /\
   contour_area_x2 (border_contour CHAIN_APPROX_SIMPLE (mk_border (0, 0) 0 [6; 6; 0; 0; 0; 2; 2; 4; 4; 4])) =
   contour_area_x2 (border_contour CHAIN_APPROX_NONE (mk_border (0, 0) 0 [6; 6; 0; 0; 0; 2; 2; 4; 4; 4]))).
Proof.
  split; [vm_compute; reflexivity|]. split; [vm_compute; reflexivity|].
  apply approx_simple_equiv. vm_compute. reflexivity.
Defined.

(** C9: composition with the counter.  When every border the walk traces
    is closed, one frame's pass over the contours (lines 76-112) gives the
    same counters and the same [ContourCount] with the script's
    [CHAIN_APPROX_SIMPLE] as with [CHAIN_APPROX_NONE]. *)
Theorem count_frame_approx (cfg : config) (height : Z) (bs : list border) (ctrs : counters) :
  forallb closed_border bs = true ->
  count_frame cfg height (contours_of CHAIN_APPROX_SIMPLE bs) ctrs =
  count_frame cfg height (contours_of CHAIN_APPROX_NONE bs) ctrs.
Proof.
  unfold count_frame, contours_of. generalize (mk_pass ctrs 0).
  induction bs as [|b bs IH]; intros st H; [reflexivity|].
  cbn [forallb] in H. apply andb_true_iff in H as [Hb Hbs]. cbn [map fold_left].
  rewrite (process_border_approx _ _ _ _ b Hb). exact (IH _ Hbs).
Qed.

(** A 201 x 21 blob whose box is centred on the entry line of a 480-row
    frame is counted once as an entry under both methods. *)
Lemma count_frame_approx_witness :
  forallb closed_border
    [mk_border (0, 80) 0 (repeat 6 20 ++ repeat 0 200 ++ repeat 2 20 ++ repeat 4 200)] = true /\
  EntryCounter (pass_counters (count_frame source_config 480
    (contours_of CHAIN_APPROX_SIMPLE
       [mk_border (0, 80) 0 (repeat 6 20 ++ repeat 0 200 ++ repeat 2 20 ++ repeat 4 200)])
    (mk_counters 0 0))) = 1 /\
  count_frame source_config 480
    (contours_of CHAIN_APPROX_SIMPLE
       [mk_border (0, 80) 0 (repeat 6 20 ++ repeat 0 200 ++ repeat 2 20 ++ repeat 4 200)])
    (mk_counters 0 0) =
  count_frame source_config 480
    (contours_of CHAIN_APPROX_NONE
       [mk_border (0, 80) 0 (repeat 6 20 ++ repeat 0 200 ++ repeat 2 20 ++ repeat 4 200)])
    (mk_counters 0 0).
Proof.
  split; [vm_compute; reflexivity|]. split; [vm_compute; reflexivity|].
  apply count_frame_approx. vm_compute. reflexivity.
Defined.
