(* ===== verification/Pipeline.v ===== *)
(** The frame loop: [src/converted.py] lines 39-63 and 65-122.

      FirstFrame = None
      for i in range(0, 20): (grabbed, Frame) = camera.read()
      while True:
          (grabbed, Frame) = camera.read()
          height = np.size(Frame, 0); width = np.size(Frame, 1)
          if not grabbed: break
          FrameGray = GaussianBlur(cvtColor(Frame, BGR2GRAY), (21, 21), 0)
          if FirstFrame is None: FirstFrame = FrameGray; continue
          ... detection (ChangeDetector), contours (Contours),
          ... counting (LineCounter), drawing and display

    The loop's state is the record [state]: the background [FirstFrame],
    the global counters and the last [width] and [height].  A camera read
    is the pair [(grabbed, Frame)], with [Frame = None] when OpenCV
    returns no image.  [loop_iteration] is one pass of the [while] body,
    with three outcomes: the next state ([continue] or the end of the
    body), [break], or an uncaught Python exception.  [run_loop] runs the
    loop over a finite prefix of the camera's reads; [main] first drops
    the 20 warm-up reads.  [step] is the transition relation of the
    loop, whose reachable states are those of [star step] from
    [init_state].  The blur and the contour finder are the interfaces of
    [Image] and [Contours], taken as section variables. *)

From Stdlib Require Import ZArith List Lia Bool.
From S2P Require Import Prelude Config Image ChangeDetector Contours LineCounter.
Import ListNotations.
Open Scope Z_scope.

(** The exceptions the loop can raise: [IndexError] from
    [np.size(None, 0)], [cv2.error] from [cv2.absdiff] on frames of
    different sizes. *)
Inductive py_error := IndexError | CvError.

Record state := mk_state {
  FirstFrame : option gray_image;
  counts : counters;
  width : Z;
  height : Z
}.

(** Lines 7-10 and 39: [width = height = 0], both counters 0, no
    background. *)
Definition init_state : state := mk_state None (mk_counters 0 0) 0 0.

Definition camera_read := (bool * option color_image)%type.

Inductive outcome := Continue (s : state) | Break (s : state) | Raise (e : py_error).

Inductive run_result := Running (s : state) | Stopped (s : state) | Crashed (e : py_error).

(** Line 43: the number of warm-up reads. *)
Definition warmup_reads : nat := 20.

Section Loop.
Context `{GaussianBlur} `{ContourFinder} (cfg : config).

(** One pass of the [while True] body (lines 48-122). *)
Definition loop_iteration (s : state) (r : camera_read) : outcome :=
  let '(grabbed, Frame) := r in
  match Frame with
  | None => Raise IndexError
  | Some fr =>
      let s1 := mk_state (FirstFrame s) (counts s) (np_size1 fr) (np_size0 fr) in
      if negb grabbed then Break s1 else
      let FrameGray := preprocess fr in
      match FirstFrame s with
      | None => Continue (mk_state (Some FrameGray) (counts s1) (width s1) (height s1))
      | Some bg =>
          match detect cfg bg FrameGray with
          | None => Raise CvError
          | Some FrameThresh =>
              let contours := findContours FrameThresh in
              let st := count_frame cfg (height s1) contours (counts s1) in
              Continue (mk_state (FirstFrame s1) (pass_counters st) (width s1) (height s1))
          end
      end
  end.

(** The loop over a finite sequence of reads: [Running] when the reads
    run out with the loop still going. *)
Fixpoint run_loop (s : state) (reads : list camera_read) : run_result :=
  match reads with
  | [] => Running s
  | r :: rs =>
      match loop_iteration s r with
      | Continue s' => run_loop s' rs
      | Break s' => Stopped s'
      | Raise e => Crashed e
      end
  end.

(** The script: 20 discarded reads, then the loop. *)
Definition main (reads : list camera_read) : run_result :=
  run_loop init_state (skipn warmup_reads reads).

(** The loop's transitions: an iteration that goes on to the next one. *)
Inductive step : state -> state -> Prop :=
| step_read s r s' : loop_iteration s r = Continue s' -> step s s'.

Definition reachable (s : state) : Prop := star step init_state s.
End Loop.

Section Theorems.
Context `{GaussianBlur} `{ContourFinder} (cfg : config).

(** The counters of one state are below those of another. *)
Definition counters_le (s s' : state) : Prop :=
  EntryCounter (counts s) <= EntryCounter (counts s') /\
  ExitCounter (counts s) <= ExitCounter (counts s').

Lemma step_inv (s s' : state) :
  step cfg s s' ->
  exists fr, np_size0 fr = height s' /\ np_size1 fr = width s' /\
    ((FirstFrame s = None /\ FirstFrame s' = Some (preprocess fr) /\ counts s' = counts s) \/
     (exists bg m, FirstFrame s = Some bg /\ FirstFrame s' = Some bg /\
        detect cfg bg (preprocess fr) = Some m /\
        counts s' = pass_counters (count_frame cfg (np_size0 fr) (findContours m) (counts s)))).
Proof.
  intros [s0 [grabbed [fr|]] s1 Hit]; [|discriminate]. exists fr.
  unfold loop_iteration in Hit. destruct grabbed; [|discriminate]. cbn [negb] in Hit.
  destruct (FirstFrame s0) as [bg|] eqn:Ebg.
  - destruct (detect cfg bg (preprocess fr)) as [m|] eqn:Ed; [|discriminate].
    injection Hit as <-. cbn. repeat split. right. exists bg, m. auto.
  - injection Hit as <-. cbn. repeat split. left. auto.
Qed.

Lemma step_counters_le (s s' : state) : step cfg s s' -> counters_le s s'.
Proof.
  intros Hs. unfold counters_le.
  destruct (step_inv s s' Hs) as [fr [_ [_ [[_ [_ E]] | [bg [m [_ [_ [_ E]]]]]]]]]; rewrite E.
  - lia.
  - rewrite count_frame_eq. cbn.
    pose proof (countb_nonneg (entry_hit cfg (EntryLineYCoord cfg (np_size0 fr))
      (ExitLineYCoord cfg (np_size0 fr))) (findContours m)).
    pose proof (countb_nonneg (exit_hit cfg (EntryLineYCoord cfg (np_size0 fr))
      (ExitLineYCoord cfg (np_size0 fr))) (findContours m)). lia.
Qed.

(** C22: the loop ends with [break] only on a read that has a frame
    but [grabbed = False]; OpenCV reports a failed read as
    [(False, None)], which raises instead. *)
Theorem run_stops_only_on_frame (s s' : state) (reads : list camera_read) :
  run_loop cfg s reads = Stopped s' -> exists fr, In (false, Some fr) reads.
Proof.
  revert s. induction reads as [|[g [fr|]] rs IH]; intros s0; simpl; [discriminate| |discriminate].
  destruct g; cbn [negb].
  - destruct (FirstFrame s0) as [bg|]; [destruct (detect cfg bg (preprocess fr))|];
      try discriminate; intros Hr; destruct (IH _ Hr) as [fr' Hin]; eauto.
  - intros _. eauto.
Qed.

(** C24: once captured, the background is never reassigned. *)
Theorem background_never_changes (s s' : state) (bg : gray_image) :
  star (step cfg) s s' -> FirstFrame s = Some bg -> FirstFrame s' = Some bg.
Proof.
  apply (star_preserves (step cfg) (fun s => FirstFrame s = Some bg)).
  intros s1 s2 Hs E. destruct (step_inv s1 s2 Hs) as [fr [_ [_ [[E1 _] | [bg' [m [E1 [E2 _]]]]]]]];
    congruence.
Qed.

(** C25: along any run of the loop the counters never decrease. *)
Theorem counters_monotone (s s' : state) :
  star (step cfg) s s' ->
  EntryCounter (counts s) <= EntryCounter (counts s') /\
  ExitCounter (counts s) <= ExitCounter (counts s').
Proof.
  intros Hst. change (counters_le s s'). revert Hst.
  apply (star_monotone (step cfg) counters_le).
  - intros s0. unfold counters_le. lia.
  - intros s1 s2 s3. unfold counters_le. lia.
  - exact step_counters_le.
Qed.

(** C26: in every reachable state the counters are non-negative, and
    they are both 0 as long as no background has been captured. *)
Theorem reachable_invariant (s : state) :
  reachable cfg s ->
  0 <= EntryCounter (counts s) /\ 0 <= ExitCounter (counts s) /\
  (FirstFrame s = None -> counts s = mk_counters 0 0).
Proof.
  intros Hr.
  refine (star_preserves (step cfg) (fun s => 0 <= EntryCounter (counts s) /\
    0 <= ExitCounter (counts s) /\ (FirstFrame s = None -> counts s = mk_counters 0 0))
    _ init_state s Hr _).
  - intros s1 s2 Hs [He [Hx Hn]]. pose proof (step_counters_le s1 s2 Hs) as Hle.
    unfold counters_le in Hle. split; [lia|]. split; [lia|].
    destruct (step_inv s1 s2 Hs) as [fr [_ [_ [[_ [E _]] | [bg [m [_ [E _]]]]]]]];
      rewrite E; discriminate.
  - cbn. repeat split; lia.
Qed.

(** C27: a frame whose preprocessed image equals the background counts
    nothing (for a non-negative threshold): no false positive on a
    static scene. *)
Theorem static_frame_counts_nothing (s : state) (bg : gray_image) (fr : color_image) :
  0 <= BinarizationThreshold cfg -> FirstFrame s = Some bg -> preprocess fr = bg ->
  loop_iteration cfg s (true, Some fr) =
  Continue (mk_state (Some bg) (counts s) (np_size1 fr) (np_size0 fr)).
Proof.
  intros Ht Ebg Efr. unfold loop_iteration. cbn [negb]. rewrite Ebg, Efr.
  rewrite detect_self, findContours_zero by (apply detect_self_zero, Ht). unfold count_frame. cbn [fold_left].
  destruct (counts s). reflexivity.
Qed.

(** C28: a frame whose size differs from the background's raises the
    [cv2.error] of [cv2.absdiff] (line 67), which the script does not
    catch. *)
Theorem size_change_raises (s : state) (bg : gray_image) (fr : color_image) :
  FirstFrame s = Some bg -> shape (preprocess fr) <> shape bg ->
  loop_iteration cfg s (true, Some fr) = Raise CvError.
Proof.
  intros Ebg Hsh. unfold loop_iteration. cbn [negb]. rewrite Ebg. unfold detect.
  assert (E : absdiff bg (preprocess fr) = None) by (apply absdiff_shape_mismatch; auto).
  rewrite E. reflexivity.
Qed.

Lemma iteration_detect (s : state) (bg m : gray_image) (fr : color_image) :
  FirstFrame s = Some bg -> detect cfg bg (preprocess fr) = Some m ->
  loop_iteration cfg s (true, Some fr) =
  Continue (mk_state (Some bg)
    (pass_counters (count_frame cfg (np_size0 fr) (findContours m) (counts s)))
    (np_size1 fr) (np_size0 fr)).
Proof. intros Ebg Ed. unfold loop_iteration. cbn [negb]. rewrite Ebg, Ed. reflexivity. Qed.

(** C29: there is no debouncing: a frame repeated [k] times (an object
    standing still on a line) is counted [k] times. *)
Theorem repeated_frame_recounted (s : state) (bg m : gray_image) (fr : color_image) (k : nat) :
  FirstFrame s = Some bg -> detect cfg bg (preprocess fr) = Some m ->
  let en := EntryLineYCoord cfg (np_size0 fr) in
  let ex := ExitLineYCoord cfg (np_size0 fr) in
  exists s', run_loop cfg s (repeat (true, Some fr) k) = Running s' /\
    FirstFrame s' = Some bg /\
    EntryCounter (counts s') =
      EntryCounter (counts s) + Z.of_nat k * countb (entry_hit cfg en ex) (findContours m) /\
    ExitCounter (counts s') =
      ExitCounter (counts s) + Z.of_nat k * countb (exit_hit cfg en ex) (findContours m).
Proof.
  intros Ebg Ed. cbv zeta. revert s Ebg. induction k as [|k IH]; intros s Ebg.
  - exists s. cbn. repeat split; auto; lia.
  - cbn [repeat run_loop]. rewrite (iteration_detect s bg m fr Ebg Ed).
    destruct (IH (mk_state (Some bg)
      (pass_counters (count_frame cfg (np_size0 fr) (findContours m) (counts s)))
      (np_size1 fr) (np_size0 fr)) eq_refl) as [s' [Hr [Hb [He Hx]]]].
    exists s'. rewrite Hr. rewrite count_frame_eq in He, Hx. cbn in He, Hx.
    repeat split; [exact Hb | rewrite He | rewrite Hx]; lia.
Qed.

(** C30: the warm-up.  The first 20 reads are discarded without a
    test, whatever they are (frames or not, grabbed or not): [main] on
    any two lists of 20 reads followed by the same reads gives the same
    result; and the 21st read is the first the loop tests, so a 21st
    read without a frame raises [IndexError]. *)
Theorem warmup_reads_ignored (warm warm' rest : list camera_read) (g : bool) :
  length warm = 20%nat -> length warm' = 20%nat ->
  main cfg (warm ++ rest) = main cfg (warm' ++ rest) /\
  main cfg (warm ++ (g, None) :: rest) = Crashed IndexError.
Proof.
  intros Hl Hl'. unfold main, warmup_reads.
  rewrite !skipn_app_length by assumption. split; reflexivity.
Qed.

(** The change detector succeeds on two frames of the same shape. *)
Lemma detect_same_shape (fr0 fr : color_image) :
  shape fr = shape fr0 -> exists m, detect cfg (preprocess fr0) (preprocess fr) = Some m.
Proof.
  intros Hsh. unfold detect.
  destruct (absdiff_same_shape (preprocess fr0) (preprocess fr)) as [d ->];
    [rewrite !preprocess_shape; congruence | eauto].
Qed.

(** A frame of another size than the background's raises at line 67. *)
Lemma iteration_shape_mismatch (s : state) (fr0 fr : color_image) :
  FirstFrame s = Some (preprocess fr0) -> shape fr <> shape fr0 ->
  loop_iteration cfg s (true, Some fr) = Raise CvError.
Proof.
  intros Ebg Hsh. unfold loop_iteration. cbn [negb]. rewrite Ebg. unfold detect.
  rewrite absdiff_shape_mismatch; [reflexivity|]. rewrite !preprocess_shape. congruence.
Qed.

(** C33: as long as every frame has the size of the frame that became
    the background, a grabbed frame never raises: the iteration goes on
    to the next read. *)
Theorem same_size_frame_continues (s : state) (fr0 fr : color_image) :
  FirstFrame s = Some (preprocess fr0) -> shape fr = shape fr0 ->
  exists s', loop_iteration cfg s (true, Some fr) = Continue s'.
Proof.
  intros Ebg Hsh. destruct (detect_same_shape fr0 fr Hsh) as [m Ed].
  rewrite (iteration_detect s _ m fr Ebg Ed). eauto.
Qed.
End Theorems.

(** ** Witnesses, with the 1x1 blur and the pixel contour finder *)

Local Abbreviation iteration := (@loop_iteration gaussian_blur_1x1 pixel_contour_finder).
Local Abbreviation run := (@run_loop gaussian_blur_1x1 pixel_contour_finder).
Local Abbreviation black := (mk_bgr 0 0 0).
Local Abbreviation white := (mk_bgr 255 255 255).

Lemma run_stops_only_on_frame_witness :
  run source_config init_state [(false, Some [[black]])] = Stopped (mk_state None (mk_counters 0 0) 1 1) /\
  exists fr, In (false, Some fr) [(false, Some [[black]])].
Proof.
  assert (H : run source_config init_state [(false, Some [[black]])] =
              Stopped (mk_state None (mk_counters 0 0) 1 1)) by reflexivity.
  split; [exact H | exact (@run_stops_only_on_frame _ _ source_config _ _ _ H)].
Defined.

Lemma background_never_changes_witness :
  star (@step gaussian_blur_1x1 pixel_contour_finder source_config)
    (mk_state (Some [[0]]) (mk_counters 0 0) 1 1) (mk_state (Some [[0]]) (mk_counters 0 0) 1 1) /\
  FirstFrame (mk_state (Some [[0]]) (mk_counters 0 0) 1 1) = Some [[0]] /\
  FirstFrame (mk_state (Some [[0]]) (mk_counters 0 0) 1 1) = Some [[0]].
Proof.
  assert (H : star (@step gaussian_blur_1x1 pixel_contour_finder source_config)
    (mk_state (Some [[0]]) (mk_counters 0 0) 1 1) (mk_state (Some [[0]]) (mk_counters 0 0) 1 1)).
  { apply star_one. apply (step_read _ _ (true, Some [[black]])). vm_compute. reflexivity. }
  split; [exact H|]. split; [reflexivity|].
  exact (@background_never_changes _ _ source_config _ _ [[0]] H eq_refl).
Defined.

Lemma counters_monotone_witness :
  star (@step gaussian_blur_1x1 pixel_contour_finder (mk_config 0 70 1))
    (mk_state (Some [[0]; [0]; [0]; [0]]) (mk_counters 0 0) 1 4)
    (mk_state (Some [[0]; [0]; [0]; [0]]) (mk_counters 3 2) 1 4) /\
  0 <= 3 /\ 0 <= 2.
Proof.
  assert (H : star (@step gaussian_blur_1x1 pixel_contour_finder (mk_config 0 70 1))
    (mk_state (Some [[0]; [0]; [0]; [0]]) (mk_counters 0 0) 1 4)
    (mk_state (Some [[0]; [0]; [0]; [0]]) (mk_counters 3 2) 1 4)).
  { apply star_one. apply (step_read _ _ (true, Some [[black]; [white]; [black]; [black]])).
    vm_compute. reflexivity. }
  split; [exact H|]. exact (@counters_monotone _ _ (mk_config 0 70 1) _ _ H).
Defined.

Lemma reachable_invariant_witness :
  @reachable gaussian_blur_1x1 pixel_contour_finder source_config
    (mk_state (Some [[0]]) (mk_counters 0 0) 1 1) /\
  0 <= 0 /\ 0 <= 0 /\ (Some [[0]] = None -> mk_counters 0 0 = mk_counters 0 0).
Proof.
  assert (H : @reachable gaussian_blur_1x1 pixel_contour_finder source_config
    (mk_state (Some [[0]]) (mk_counters 0 0) 1 1)).
  { apply star_one. apply (step_read _ _ (true, Some [[black]])). vm_compute. reflexivity. }
  split; [exact H|]. exact (@reachable_invariant _ _ source_config _ H).
Defined.

Lemma static_frame_counts_nothing_witness :
  (0 <= BinarizationThreshold source_config /\
   FirstFrame (mk_state (Some [[0]]) (mk_counters 5 7) 1 1) = Some [[0]] /\
   @preprocess gaussian_blur_1x1 [[black]] = [[0]]) /\
  iteration source_config (mk_state (Some [[0]]) (mk_counters 5 7) 1 1) (true, Some [[black]]) =
  Continue (mk_state (Some [[0]]) (mk_counters 5 7) 1 1).
Proof.
  assert (H1 : 0 <= BinarizationThreshold source_config) by (vm_compute; discriminate).
  assert (H3 : @preprocess gaussian_blur_1x1 [[black]] = [[0]]) by reflexivity.
  split; [split; [exact H1 | split; [reflexivity | exact H3]]|].
  exact (@static_frame_counts_nothing _ _ source_config (mk_state (Some [[0]]) (mk_counters 5 7) 1 1)
           [[0]] [[black]] H1 eq_refl H3).
Defined.

Lemma size_change_raises_witness :
  (FirstFrame (mk_state (Some [[0]]) (mk_counters 0 0) 1 1) = Some [[0]] /\
   shape (@preprocess gaussian_blur_1x1 [[black; black]]) <> shape [[0]]) /\
  iteration source_config (mk_state (Some [[0]]) (mk_counters 0 0) 1 1) (true, Some [[black; black]]) =
  Raise CvError.
Proof.
  assert (H2 : shape (@preprocess gaussian_blur_1x1 [[black; black]]) <> shape [[0]])
    by (vm_compute; discriminate).
  split; [split; [reflexivity | exact H2]|].
  exact (@size_change_raises _ _ source_config (mk_state (Some [[0]]) (mk_counters 0 0) 1 1)
           [[0]] _ eq_refl H2).
Defined.

Lemma repeated_frame_recounted_witness :
  (FirstFrame (mk_state (Some [[0]; [0]; [0]; [0]]) (mk_counters 0 0) 1 4) = Some [[0]; [0]; [0]; [0]] /\
   detect (mk_config 0 70 1) [[0]; [0]; [0]; [0]]
     (@preprocess gaussian_blur_1x1 [[black]; [white]; [black]; [black]]) =
   Some [[255]; [255]; [255]; [255]]) /\
  exists s', run (mk_config 0 70 1) (mk_state (Some [[0]; [0]; [0]; [0]]) (mk_counters 0 0) 1 4)
      (repeat (true, Some [[black]; [white]; [black]; [black]]) 2) = Running s' /\
    FirstFrame s' = Some [[0]; [0]; [0]; [0]] /\
    EntryCounter (counts s') = 0 + Z.of_nat 2 *
      countb (entry_hit (mk_config 0 70 1) (EntryLineYCoord (mk_config 0 70 1) 4)
                (ExitLineYCoord (mk_config 0 70 1) 4))
             (pixel_contours [[255]; [255]; [255]; [255]]) /\
    ExitCounter (counts s') = 0 + Z.of_nat 2 *
      countb (exit_hit (mk_config 0 70 1) (EntryLineYCoord (mk_config 0 70 1) 4)
                (ExitLineYCoord (mk_config 0 70 1) 4))
             (pixel_contours [[255]; [255]; [255]; [255]]).
Proof.
  assert (H2 : detect (mk_config 0 70 1) [[0]; [0]; [0]; [0]]
     (@preprocess gaussian_blur_1x1 [[black]; [white]; [black]; [black]]) =
   Some [[255]; [255]; [255]; [255]]) by (vm_compute; reflexivity).
  split; [split; [reflexivity | exact H2]|].
  exact (@repeated_frame_recounted _ pixel_contour_finder (mk_config 0 70 1)
           (mk_state (Some [[0]; [0]; [0]; [0]]) (mk_counters 0 0) 1 4) _ _ _ 2 eq_refl H2).
Defined.

Lemma warmup_reads_ignored_witness :
  (length (repeat (false, @None color_image) 20) = 20%nat /\
   length (repeat (true, Some [[black]]) 20) = 20%nat) /\
  (@main gaussian_blur_1x1 pixel_contour_finder source_config
     (repeat (false, None) 20 ++ [(false, Some [[black]])]) =
   @main gaussian_blur_1x1 pixel_contour_finder source_config
     (repeat (true, Some [[black]]) 20 ++ [(false, Some [[black]])]) /\
   @main gaussian_blur_1x1 pixel_contour_finder source_config
     (repeat (false, None) 20 ++ (true, None) :: [(false, Some [[black]])]) = Crashed IndexError).
Proof.
  split; [split; reflexivity|].
  exact (@warmup_reads_ignored _ _ source_config (repeat (false, None) 20)
           (repeat (true, Some [[black]]) 20) [(false, Some [[black]])] true eq_refl eq_refl).
Defined.

Lemma same_size_frame_continues_witness :
  (FirstFrame (mk_state (Some (@preprocess gaussian_blur_1x1 [[black]])) (mk_counters 0 0) 1 1) =
     Some (@preprocess gaussian_blur_1x1 [[black]]) /\
   shape [[white]] = shape [[black]]) /\
  exists s', iteration source_config
    (mk_state (Some (@preprocess gaussian_blur_1x1 [[black]])) (mk_counters 0 0) 1 1)
    (true, Some [[white]]) = Continue s'.
Proof.
  assert (H2 : shape [[white]] = shape [[black]]) by reflexivity.
  split; [split; [reflexivity | exact H2]|].
  exact (@same_size_frame_continues _ _ source_config
           (mk_state (Some (@preprocess gaussian_blur_1x1 [[black]])) (mk_counters 0 0) 1 1)
           [[black]] [[white]] eq_refl H2).
Defined.
