(* ===== verification/Blur.v ===== *)
(** OpenCV's [cv2.GaussianBlur(FrameGray, (21, 21), 0)] on an 8-bit
    frame ([src/converted.py] line 58).

    For 8-bit images OpenCV runs a separable fixed-point filter: the
    Gaussian kernel of [getGaussianKernel(21, 0)] (sigma
    [0.3 * ((21 - 1) * 0.5 - 1) + 0.8 = 3.5]) is scaled to integers with
    8 fractional bits, the row pass sums [k_i * src] exactly, the column
    pass sums [k_j * row_j] exactly, and the result is rounded with
    [(v + 2^15) >> 16] and saturated to [0, 255].  Pixels outside the
    frame are read through [borderInterpolate] with the default border
    [BORDER_REFLECT_101] ([gfedcb|abcdefgh|gfedcba]), whose [do ... while]
    loop reflects an index until it falls in the frame.

    The integer kernel is a parameter: its 21 coefficients come from
    OpenCV's own floating-point evaluation of [exp], which is not
    modelled.  The filter, the border rule and the rounding are.  The
    loop of [borderInterpolate] is a [Fixpoint] with fuel; the fuel
    [2 |p| + 1] is shown to be enough. *)

From Stdlib Require Import ZArith List Lia Bool.
From S2P Require Import Prelude Image ChangeDetector.
Import ListNotations.
Open Scope Z_scope.
Open Scope oc_scope.

(** ** [borderInterpolate(p, len, BORDER_REFLECT_101)] *)

(** [(unsigned)p < (unsigned)len], for [len >= 0]. *)
Definition in_range (p len : Z) : bool := (0 <=? p) && (p <? len).

(** One pass of the loop body, with [delta = 1]:
    [if (p < 0) p = -p - 1 + delta; else p = len - 1 - (p - len) - delta;]. *)
Definition reflect101_once (p len : Z) : Z :=
  if p <? 0 then - p - 1 + 1 else len - 1 - (p - len) - 1.

(** [do { body } while ((unsigned)p >= (unsigned)len)], with at most
    [fuel] passes; [None] when the fuel runs out. *)
Fixpoint reflect101_loop (fuel : nat) (p len : Z) : option Z :=
  match fuel with
  | O => None
  | S n =>
      let p' := reflect101_once p len in
      if in_range p' len then Some p' else reflect101_loop n p' len
  end.

Definition reflect101_fuel (p : Z) : nat := Z.to_nat (2 * Z.abs p + 1).

(** An index in range is returned as is; a frame of one pixel reads
    pixel 0; otherwise the loop runs. *)
Definition borderInterpolate (p len : Z) : Z :=
  if in_range p len then p
  else if len =? 1 then 0
  else match reflect101_loop (reflect101_fuel p) p len with
       | Some q => q
       | None => p
       end.

(** The reflection of [gfedcb|abcdefgh|gfedcba] in closed form: the
    index modulo the period [2 len - 2], folded back at [len - 1]. *)
Definition reflect101_ref (p len : Z) : Z :=
  let N := 2 * len - 2 in
  let r := p mod N in
  Z.min r (N - r).

(** ** The separable filter *)

Section Filter.
Variable kernel : list Z.

(** [sum_i kernel[i] * f(i - anchor)], the anchor at the kernel's middle. *)
Fixpoint wsum (ks : list Z) (d : Z) (f : Z -> Z) : Z :=
  match ks with
  | [] => 0
  | k :: ks' => k * f d + wsum ks' (d + 1) f
  end.

Definition anchor : Z := Z.of_nat (length kernel) // 2.

(** The row pass at row [y] (already in the frame), column [x]. *)
Definition row_filter (img : gray_image) (y x : Z) : Z :=
  wsum kernel (- anchor) (fun d => px_get img y (borderInterpolate (x + d) (np_size1 img))).

(** The column pass over the rows of the row pass, then
    [FixedPtCastEx<int, uchar>(16)]: round and saturate. *)
Definition blur_px (img : gray_image) (y x : Z) : Z :=
  let v := wsum kernel (- anchor)
             (fun d => row_filter img (borderInterpolate (y + d) (np_size0 img)) x) in
  sat_u8 (Z.shiftr (v + Z.shiftl 1 15) 16).

Definition blur_image (img : gray_image) : gray_image :=
  map (fun y => map (fun x => blur_px img y x) (zrange 0 (length (nth (Z.to_nat y) img []))))
      (zrange 0 (length img)).
End Filter.

(** The kernel is scaled to 8 fractional bits: non-negative integers
    summing to [2^8]. *)
Definition fixed_point_kernel (kernel : list Z) : Prop :=
  Forall (fun k => 0 <= k) kernel /\ fold_right Z.add 0 kernel = 256.

(** OpenCV's 8-bit Gaussian blur with a given integer kernel satisfies the
    laws the pipeline relies on: the frame keeps its shape, and every
    pixel is saturated to 8 bits.  Not an instance: the theorems of the
    pipeline hold for every blur, and a client names this one. *)
Definition opencv_gaussian_blur (kernel : list Z) : GaussianBlur.
Proof.
  refine {| gaussian_blur := blur_image kernel |}.
  - intros img. unfold shape, blur_image. rewrite map_map.
    erewrite map_ext by (intros y; rewrite length_map; apply length_zrange).
    apply (map_rows_zrange (@length Z)).
  - intros img _. unfold u8_image, blur_image. apply forallb_forall. intros r Hr.
    apply in_map_iff in Hr as [y [<- _]]. apply forallb_forall. intros v Hv.
    apply in_map_iff in Hv as [x [<- _]]. apply is_u8_spec. unfold blur_px, sat_u8. lia.
Defined.

(** ** [borderInterpolate] *)

Lemma in_range_spec (p len : Z) : in_range p len = true <-> 0 <= p < len.
Proof. unfold in_range. rewrite andb_true_iff, Z.leb_le, Z.ltb_lt. reflexivity. Qed.

(** The loop terminates: every pass that does not leave the loop
    decreases [m p], which is [1 - 2p] left of the frame and [2p] right of
    it, so [m p] passes are enough. *)
Lemma reflect101_loop_enough (fuel : nat) (p len : Z) :
  2 <= len -> ~ (0 <= p < len) ->
  (Z.to_nat (if p <? 0 then 1 - 2 * p else 2 * p)%Z <= fuel)%nat ->
  exists q, reflect101_loop fuel p len = Some q /\ 0 <= q < len.
Proof.
  revert p. induction fuel as [|n IH]; intros p Hlen Hout Hf.
  - destruct (p <? 0) eqn:E; zbool; lia.
  - cbn [reflect101_loop]. destruct (in_range (reflect101_once p len) len) eqn:Er.
    + apply in_range_spec in Er. eauto.
    + assert (Hr : ~ (0 <= reflect101_once p len < len))
        by (rewrite <- in_range_spec; congruence).
      apply IH; [exact Hlen | exact Hr |].
      revert Hr Hf. unfold reflect101_once. zcase; intros; lia.
Qed.

(** An index read through [borderInterpolate] lies in the frame. *)
Lemma borderInterpolate_range (p len : Z) : 1 <= len -> 0 <= borderInterpolate p len < len.
Proof.
  intros Hlen. unfold borderInterpolate.
  destruct (in_range p len) eqn:Ei; [apply in_range_spec; exact Ei|].
  destruct (len =? 1) eqn:E1; zbool; [lia|].
  destruct (reflect101_loop_enough (reflect101_fuel p) p len) as [q [-> Hq]];
    [lia | rewrite <- in_range_spec; congruence | unfold reflect101_fuel; zcase; lia | exact Hq].
Qed.

(** ** The filter *)

(** A weighted sum with non-negative weights of values in [lo, hi]. *)
Lemma wsum_bounds (ks : list Z) (d : Z) (f : Z -> Z) (lo hi : Z) :
  Forall (fun k => 0 <= k) ks -> (forall e, lo <= f e <= hi) ->
  lo * fold_right Z.add 0 ks <= wsum ks d f <= hi * fold_right Z.add 0 ks.
Proof.
  intros Hks Hf. revert d. induction Hks as [|k ks Hk _ IH]; intros d; cbn [wsum fold_right]; [lia|].
  specialize (IH (d + 1)). specialize (Hf d).
  pose proof (Z.mul_le_mono_nonneg_l lo (f d) k Hk (proj1 Hf)).
  pose proof (Z.mul_le_mono_nonneg_l (f d) hi k Hk (proj2 Hf)). nia.
Qed.

(** The rounding [(v + 2^15) >> 16] of a value in [[2^16 lo, 2^16 hi]]. *)
Lemma descale16_bounds (v lo hi : Z) :
  lo * 65536 <= v <= hi * 65536 -> lo <= Z.shiftr (v + Z.shiftl 1 15) 16 <= hi.
Proof.
  intros Hv. rewrite Z.shiftr_div_pow2, Z.shiftl_1_l by lia. cbn [Z.pow Z.pow_pos Pos.iter].
  split; Z.div_mod_to_equations; lia.
Qed.

Lemma sat_u8_id (v : Z) : 0 <= v <= 255 -> sat_u8 v = v.
Proof. unfold sat_u8. lia. Qed.

Lemma sat_u8_range (v : Z) : 0 <= sat_u8 v <= 255.
Proof. unfold sat_u8. lia. Qed.

(** A pixel of the blurred frame, inside a rectangular frame. *)
Lemma px_get_blur_image (kernel : list Z) (w : nat) (img : gray_image) (y x : Z) :
  rect w img -> 0 <= y < np_size0 img -> 0 <= x < Z.of_nat w ->
  px_get (blur_image kernel img) y x = blur_px kernel img y x.
Proof.
  unfold np_size0. intros Hr Hy Hx. rewrite px_get_nth by lia. unfold blur_image.
  rewrite nth_map_zrange, Z.add_0_l, Z2Nat.id by lia.
  assert (Hw : length (nth (Z.to_nat y) img []) = w).
  { unfold rect in Hr. rewrite Forall_forall in Hr. apply Hr, nth_In. lia. }
  rewrite Hw, nth_map_zrange by lia. f_equal; lia.
Qed.

(** The closed form is even and has period [2 len - 2]. *)
Lemma reflect101_ref_opp (p len : Z) : 2 <= len -> reflect101_ref (- p) len = reflect101_ref p len.
Proof.
  intros Hlen. unfold reflect101_ref. cbv zeta. assert (HN : 2 * len - 2 <> 0) by lia.
  destruct (Z.eq_dec (p mod (2 * len - 2)) 0) as [E|E].
  - rewrite (Z.mod_opp_l_z _ _ HN E), E. reflexivity.
  - rewrite (Z.mod_opp_l_nz _ _ HN E). lia.
Qed.

Lemma reflect101_ref_period (p k len : Z) :
  2 <= len -> reflect101_ref (p + k * (2 * len - 2)) len = reflect101_ref p len.
Proof. intros Hlen. unfold reflect101_ref. cbv zeta. rewrite Z.mod_add by lia. reflexivity. Qed.

(** A pass of the loop keeps the closed form. *)
Lemma reflect101_ref_once (p len : Z) :
  2 <= len -> reflect101_ref (reflect101_once p len) len = reflect101_ref p len.
Proof.
  intros Hlen. unfold reflect101_once. destruct (p <? 0).
  - replace (- p - 1 + 1) with (- p) by ring. apply reflect101_ref_opp, Hlen.
  - replace (len - 1 - (p - len) - 1) with (- p + 1 * (2 * len - 2)) by ring.
    rewrite reflect101_ref_period by exact Hlen. apply reflect101_ref_opp, Hlen.
Qed.

(** On the frame the closed form is the identity. *)
Lemma reflect101_ref_in (p len : Z) : 2 <= len -> 0 <= p < len -> reflect101_ref p len = p.
Proof. intros Hlen Hp. unfold reflect101_ref. cbv zeta. rewrite Z.mod_small by lia. lia. Qed.

(** Whatever the loop returns is the closed form of its start. *)
Lemma reflect101_loop_ref (fuel : nat) (p len q : Z) :
  2 <= len -> reflect101_loop fuel p len = Some q -> q = reflect101_ref p len.
Proof.
  intros Hlen. revert p. induction fuel as [|n IH]; intros p; cbn [reflect101_loop]; [discriminate|].
  rewrite <- (reflect101_ref_once p len Hlen).
  destruct (in_range (reflect101_once p len) len) eqn:Er; [|apply IH].
  intros [= <-]. apply in_range_spec in Er. symmetry. apply reflect101_ref_in; assumption.
Qed.

(** ** Theorems *)

(** C37: termination of the [do ... while] loop of [borderInterpolate]:
    for a frame of at least two pixels and an index outside it, the fuel
    [reflect101_fuel p = 2 |p| + 1] is enough; the loop leaves with an
    index of the frame. *)
Theorem reflect101_terminates (p len : Z) :
  2 <= len -> ~ (0 <= p < len) ->
  exists q, reflect101_loop (reflect101_fuel p) p len = Some q /\ 0 <= q < len.
Proof.
  intros Hlen Hout. apply reflect101_loop_enough; [exact Hlen | exact Hout |].
  unfold reflect101_fuel. zcase; lia.
Qed.

(** C38: the loop of [borderInterpolate] computes the closed form of
    [BORDER_REFLECT_101]: the index modulo [2 len - 2], folded back at
    [len - 1] ([gfedcb|abcdefgh|gfedcba]), for every index. *)
Theorem borderInterpolate_closed_form (p len : Z) :
  2 <= len -> borderInterpolate p len = reflect101_ref p len.
Proof.
  intros Hlen. unfold borderInterpolate.
  destruct (in_range p len) eqn:Ei;
    [symmetry; apply reflect101_ref_in; [exact Hlen | apply in_range_spec, Ei]|].
  destruct (len =? 1) eqn:E1; zbool; [lia|].
  destruct (reflect101_loop_enough (reflect101_fuel p) p len) as [q [E _]];
    [lia | rewrite <- in_range_spec; congruence | unfold reflect101_fuel; zcase; lia |].
  rewrite E. apply (reflect101_loop_ref _ _ _ _ Hlen E).
Qed.

(** C39: the blur never overshoots: with an 8-bit fixed-point kernel
    (non-negative, summing to [2^8]), every pixel of the blurred frame
    lies between the smallest and the largest pixel of the frame; in
    particular a uniform frame is left unchanged. *)
Theorem blur_within_bounds (kernel : list Z) (w : nat) (img : gray_image) (lo hi : Z) :
  fixed_point_kernel kernel -> rect w img -> 0 <= lo -> hi <= 255 ->
  (forall y x, 0 <= y < np_size0 img -> 0 <= x < Z.of_nat w -> lo <= px_get img y x <= hi) ->
  forall y x, 0 <= y < np_size0 img -> 0 <= x < Z.of_nat w ->
    lo <= px_get (blur_image kernel img) y x <= hi.
Proof.
  intros [Hk Hs] Hr Hlo Hhi Hin y x Hy Hx.
  rewrite (px_get_blur_image kernel w img y x Hr Hy Hx). unfold blur_px. cbv zeta.
  assert (HW : np_size1 img = Z.of_nat w)
    by (apply np_size1_rect; [exact Hr | destruct img; [cbn in Hy; lia | discriminate]]).
  assert (Hrow : forall y', 0 <= y' < np_size0 img -> lo * 256 <= row_filter kernel img y' x <= hi * 256).
  { intros y' Hy'. unfold row_filter. rewrite <- Hs.
    apply wsum_bounds; [exact Hk|]. intros e. apply Hin; [exact Hy'|].
    rewrite <- HW. apply borderInterpolate_range. lia. }
  pose proof (wsum_bounds kernel (- anchor kernel)
    (fun d => row_filter kernel img (borderInterpolate (y + d) (np_size0 img)) x)
    (lo * 256) (hi * 256) Hk
    (fun e => Hrow _ (borderInterpolate_range (y + e) (np_size0 img) ltac:(lia)))) as Hv.
  rewrite Hs in Hv. rewrite sat_u8_id; apply descale16_bounds; lia.
Qed.

(** ** Witnesses *)

Local Abbreviation binomial8 := [0; 0; 0; 0; 0; 0; 1; 8; 28; 56; 70; 56; 28; 8; 1; 0; 0; 0; 0; 0; 0].

Lemma reflect101_terminates_witness :
  (2 <= 3 /\ ~ (0 <= -7 < 3)) /\
  exists q, reflect101_loop (reflect101_fuel (-7)) (-7) 3 = Some q /\ 0 <= q < 3.
Proof. split; [lia | apply (reflect101_terminates (-7) 3); lia]. Defined.

Lemma borderInterpolate_closed_form_witness :
  2 <= 4 /\ borderInterpolate 9 4 = reflect101_ref 9 4 /\ reflect101_ref 9 4 = 3.
Proof.
  split; [lia|]. split; [apply (borderInterpolate_closed_form 9 4); lia | reflexivity].
Defined.

Lemma blur_within_bounds_witness :
  fixed_point_kernel binomial8 /\ rect 3 [[10; 200; 10]; [10; 10; 10]] /\
  10 <= px_get (blur_image binomial8 [[10; 200; 10]; [10; 10; 10]]) 1 2 <= 200.
Proof.
  assert (Hk : fixed_point_kernel binomial8).
  { split; [|reflexivity]. apply Forall_forall. intros k Hk.
    repeat (destruct Hk as [<- | Hk]; [lia|]). contradiction. }
  assert (Hr : rect 3 [[10; 200; 10]; [10; 10; 10]]) by repeat constructor.
  split; [exact Hk|]. split; [exact Hr|].
  apply (blur_within_bounds binomial8 3 _ 10 200 Hk Hr); try (cbn; lia).
  intros y x Hy Hx. cbn in Hy. assert (y = 0 \/ y = 1) as [-> | ->] by lia;
    assert (x = 0 \/ x = 1 \/ x = 2) as [-> | [-> | ->]] by lia; vm_compute; split; discriminate.
Defined.
