(* ===== verification/CounterSpec.v ===== *)
(** The counting pipeline as its design describes it, and the
    refinement of the script's loop against it.

    The abstract machine follows the design notes of the specification:
    the background has a two-phase lifecycle ([Uninitialized], then
    [Ready reference], never re-entered), each frame's retained blobs are
    judged by the contract [Evaluate(blob, entryLineY, exitLineY) ->
    {entryHit, exitHit}], and the counters are an explicit counting state
    passed into and returned from the per-frame step.  The machine is
    parameterised by the three contracts it composes ([Preprocess],
    [Detect], [Extract]) and by the line offset; its transitions are
    labelled by the colour frame consumed.

    On the script's side, a blob is the bounding box of a contour with
    its centre (lines 95-102) and [extract] is the list of retained blobs
    of the mask (lines 74 and 85-102).  [abstraction] maps a loop state to
    the abstract state.  The refinement theorem is a lockstep
    correspondence: a run of the loop over grabbed frames that goes on
    (no [break], no exception) and a trace of the abstract machine over
    the same frames are the same thing up to [abstraction]. *)

From Stdlib Require Import ZArith List Lia Bool.
From S2P Require Import Prelude Config Image ChangeDetector Contours LineCounter Pipeline.
Import ListNotations.
Open Scope Z_scope.
Open Scope oc_scope.

(** ** The design's abstract pipeline *)

(** A blob: its bounding rectangle and the centre of the rectangle. *)
Record blob := mk_blob { blob_rect : bbox; blob_cx : Z; blob_cy : Z }.

Record hits := mk_hits { entryHit : bool; exitHit : bool }.

(** The reference lines, [height/2 -+ offset]. *)
Definition entryLineY (offset height : Z) : Z := height // 2 - offset.
Definition exitLineY (offset height : Z) : Z := height // 2 + offset.

(** The per-blob contract: within 2 rows of a line, on the inner side of
    the other line. *)
Definition Evaluate (b : blob) (entry exit : Z) : hits :=
  mk_hits ((Z.abs (blob_cy b - entry) <=? 2) && (blob_cy b <? exit))
          ((Z.abs (blob_cy b - exit) <=? 2) && (entry <? blob_cy b)).

(** The counting state after one blob's hits. *)
Definition increment (c : counters) (h : hits) : counters :=
  mk_counters (EntryCounter c + Z.b2z (entryHit h)) (ExitCounter c + Z.b2z (exitHit h)).

(** One frame: every blob is evaluated independently. *)
Definition evaluate_frame (entry exit : Z) (bs : list blob) (c : counters) : counters :=
  fold_left (fun c b => increment c (Evaluate b entry exit)) bs c.

Inductive phase := Uninitialized | Ready (reference : gray_image).

Record spec_state := mk_spec_state { spec_phase : phase; spec_counts : counters }.

Definition spec_init : spec_state := mk_spec_state Uninitialized (mk_counters 0 0).

Section Spec.
Variable Preprocess : color_image -> gray_image.
Variable Detect : gray_image -> gray_image -> option gray_image.
Variable Extract : gray_image -> list blob.
Variable offset : Z.

(** The first frame initialises the reference; every later frame is
    differenced against it and its blobs are counted. *)
Inductive spec_step : spec_state -> color_image -> spec_state -> Prop :=
| spec_initialize c fr :
    spec_step (mk_spec_state Uninitialized c) fr (mk_spec_state (Ready (Preprocess fr)) c)
| spec_count ref c fr mask :
    Detect (Preprocess fr) ref = Some mask ->
    spec_step (mk_spec_state (Ready ref) c) fr
      (mk_spec_state (Ready ref)
         (evaluate_frame (entryLineY offset (np_size0 fr)) (exitLineY offset (np_size0 fr))
            (Extract mask) c)).

Inductive spec_trace : spec_state -> list color_image -> spec_state -> Prop :=
| trace_nil a : spec_trace a [] a
| trace_cons a fr a' frs a'' :
    spec_step a fr a' -> spec_trace a' frs a'' -> spec_trace a (fr :: frs) a''.
End Spec.

(** ** The script's side *)

(** Lines 95-102: the bounding box of a contour and its centre. *)
Definition blob_of (c : contour) : blob :=
  let b := boundingRect c in mk_blob b (CenterXCoord b) (CenterYCoord b).

(** The reads of a stream of frames that are all grabbed. *)
Definition grabbed_reads (frs : list color_image) : list camera_read :=
  map (fun fr => (true, Some fr)) frs.

(** A read after which the loop goes on, once the background is the gray
    version of [fr0]: grabbed (line 53), with a frame (line 50) of
    [fr0]'s size (line 67). *)
Definition good_read (fr0 : color_image) (r : camera_read) : bool :=
  match r with
  | (true, Some fr) => if list_eq_dec Nat.eq_dec (shape fr) (shape fr0) then true else false
  | _ => false
  end.

Definition abs_phase (bg : option gray_image) : phase :=
  match bg with None => Uninitialized | Some r => Ready r end.

Definition abstraction (s : state) : spec_state :=
  mk_spec_state (abs_phase (FirstFrame s)) (counts s).

Section Script.
Context `{GaussianBlur} `{ContourFinder} (cfg : config).

(** Lines 74 and 85-102: the retained contours of the mask, as blobs. *)
Definition extract (m : gray_image) : list blob :=
  map blob_of (filter (retained cfg) (findContours m)).

(** [cv2.absdiff(FirstFrame, FrameGray)] then threshold and dilation,
    with the contract's argument order [(grayFrame, reference)]. *)
Definition detect_frame (g ref : gray_image) : option gray_image := detect cfg ref g.

(** The counters after a stream of frames differenced against the
    background [bg]: the design's evaluation of each frame's retained
    blobs, frame after frame. *)
Definition stream_counts (bg : gray_image) (frs : list color_image) (c : counters) : counters :=
  fold_left (fun c fr =>
    match detect_frame (preprocess fr) bg with
    | Some m => evaluate_frame (entryLineY (ReferenceLinesOffset cfg) (np_size0 fr))
                  (exitLineY (ReferenceLinesOffset cfg) (np_size0 fr)) (extract m) c
    | None => c
    end) frs c.

(** The abstract machine instantiated with the script's operations. *)
Definition script_spec_step := spec_step preprocess detect_frame extract (ReferenceLinesOffset cfg).
Definition script_spec_trace := spec_trace preprocess detect_frame extract (ReferenceLinesOffset cfg).
End Script.

(** ** Lemmas *)

Lemma py_truthy_b2z (b : bool) : py_truthy (if b then 1 else 0) = b.
Proof. now destruct b. Qed.

(** The loop over the contours of one frame is the design's per-blob
    evaluation of the retained contours, from any pass state. *)
Lemma fold_process_refines (cfg : config) (en ex : Z) (cs : list contour) (st : pass_state) :
  pass_counters (fold_left (process_contour cfg en ex) cs st) =
  evaluate_frame en ex (map blob_of (filter (retained cfg) cs)) (pass_counters st).
Proof.
  revert st. induction cs as [|c cs IH]; intros st; [reflexivity|].
  cbn [fold_left filter]. rewrite IH. unfold retained, process_contour.
  destruct (too_small cfg c); [reflexivity|]. cbn [negb map]. unfold evaluate_frame. cbn [fold_left].
  f_equal. unfold TestEntryIntersection, TestExitIntersection. rewrite !py_truthy_b2z.
  unfold increment, Evaluate, blob_of. cbn [blob_cy entryHit exitHit pass_counters].
  destruct (_ && _), (_ && _); cbn [Z.b2z]; f_equal; lia.
Qed.

Lemma count_frame_refines (cfg : config) (height : Z) (cs : list contour) (ctrs : counters) :
  pass_counters (count_frame cfg height cs ctrs) =
  evaluate_frame (entryLineY (ReferenceLinesOffset cfg) height)
    (exitLineY (ReferenceLinesOffset cfg) height) (map blob_of (filter (retained cfg) cs)) ctrs.
Proof. apply fold_process_refines. Qed.

Section Simulation.
Context `{GaussianBlur} `{ContourFinder} (cfg : config).

(** One iteration on a grabbed frame that goes on is exactly one step of
    the abstract machine. *)
Lemma step_simulation (s : state) (fr : color_image) (a' : spec_state) :
  script_spec_step cfg (abstraction s) fr a' <->
  exists s', loop_iteration cfg s (true, Some fr) = Continue s' /\ abstraction s' = a'.
Proof.
  unfold script_spec_step, loop_iteration, abstraction. cbn [negb].
  destruct (FirstFrame s) as [bg|]; cbn [abs_phase].
  - destruct (detect cfg bg (preprocess fr)) as [m|] eqn:Ed; split.
    + intros Hs. inversion Hs as [|? ? ? mask Hd]; subst. unfold detect_frame in Hd.
      rewrite Ed in Hd. injection Hd as <-. eexists. split; [reflexivity|].
      cbn. f_equal. apply count_frame_refines.
    + intros [s' [Hc <-]]. injection Hc as <-. cbn. rewrite count_frame_refines.
      exact (spec_count preprocess (detect_frame cfg) (extract cfg) _ bg (counts s) fr m Ed).
    + intros Hs. inversion Hs as [|? ? ? mask Hd]; subst. unfold detect_frame in Hd. congruence.
    + intros [s' [Hc _]]. discriminate.
  - split.
    + intros Hs. inversion Hs; subst. eexists. split; reflexivity.
    + intros [s' [Hc <-]]. injection Hc as <-. constructor.
Qed.

(** A stream of frames of the background's size runs on: no [break],
    no exception, and the background stays. *)
Lemma same_size_stream_runs (s : state) (fr0 : color_image) (frs : list color_image) :
  Forall (fun fr => shape fr = shape fr0) frs -> FirstFrame s = Some (preprocess fr0) ->
  exists s', run_loop cfg s (grabbed_reads frs) = Running s' /\
    FirstFrame s' = Some (preprocess fr0) /\
    counts s' = stream_counts cfg (preprocess fr0) frs (counts s).
Proof.
  intros Hall. revert s. induction Hall as [|fr frs1 Hfr Hrest IH]; intros s Ebg;
    [exists s; repeat split; [exact Ebg] |].
  cbn [grabbed_reads map run_loop]. destruct (detect_same_shape cfg fr0 fr Hfr) as [m Ed].
  rewrite (iteration_detect cfg s _ m fr Ebg Ed). unfold stream_counts. cbn [fold_left].
  change (detect_frame cfg (preprocess fr) (preprocess fr0)) with (detect cfg (preprocess fr0) (preprocess fr)).
  rewrite Ed. unfold extract. rewrite <- count_frame_refines. apply IH. reflexivity.
Qed.
End Simulation.

(** ** Theorems *)

Section Theorems.
Context `{GaussianBlur} `{ContourFinder} (cfg : config).

(** C35: refinement of the design by the script.  From any loop state,
    the runs of the loop over a stream of grabbed frames that go on to
    the next read are exactly the traces of the design's abstract
    machine (two-phase background lifecycle, per-blob [Evaluate] of the
    retained blobs against the lines of each frame's height) over the
    same frames, up to [abstraction]. *)
Theorem run_refines_spec (s : state) (frs : list color_image) (a' : spec_state) :
  script_spec_trace cfg (abstraction s) frs a' <->
  exists s', run_loop cfg s (grabbed_reads frs) = Running s' /\ abstraction s' = a'.
Proof.
  unfold script_spec_trace. revert s. induction frs as [|fr frs IH]; intros s;
    cbn [grabbed_reads map run_loop].
  - split; [intros Ht; inversion Ht; subst; eauto | intros [s' [E <-]]; injection E as <-; constructor].
  - split.
    + intros Ht. inversion Ht as [|? ? a1 ? ? Hs Ht']; subst.
      apply step_simulation in Hs as [s1 [Hit <-]]. rewrite Hit. apply IH. exact Ht'.
    + destruct (loop_iteration cfg s (true, Some fr)) as [s1|s1|e] eqn:Hit;
        intros [s' [Hr Ha]]; try discriminate.
      econstructor; [apply step_simulation; eauto | apply IH; eauto].
Qed.

(** C36: when the loop keeps going.  Once the background is the gray
    version of a frame [fr0], the loop runs through a list of camera
    reads to its end exactly when every read is grabbed and carries a
    frame of [fr0]'s size; any other read ends it ([break] on a frame not
    grabbed, [IndexError] on a missing frame, [cv2.error] on a frame of
    another size). *)
Theorem loop_runs_iff (s : state) (fr0 : color_image) (reads : list camera_read) :
  FirstFrame s = Some (preprocess fr0) ->
  (exists s', run_loop cfg s reads = Running s') <-> forallb (good_read fr0) reads = true.
Proof.
  revert s. induction reads as [|r rs IH]; intros s Ebg; [split; intros _; [reflexivity | exists s; reflexivity]|].
  assert (Hstop : forall res, (forall s', res <> Running s') ->
            (exists s', res = Running s') <-> false = true)
    by (intros res Hres; split; [intros [s' E]; destruct (Hres s' E) | discriminate]).
  cbn [run_loop forallb]. destruct r as [[|] [fr|]]; cbn [good_read andb].
  - destruct (list_eq_dec Nat.eq_dec (shape fr) (shape fr0)) as [Hsh | Hsh].
    + destruct (detect_same_shape cfg fr0 fr Hsh) as [m Ed].
      rewrite (iteration_detect cfg s _ m fr Ebg Ed). apply IH. reflexivity.
    + rewrite (iteration_shape_mismatch cfg s fr0 fr Ebg Hsh). apply Hstop. discriminate.
  - apply Hstop. discriminate.
  - apply Hstop. discriminate.
  - apply Hstop. discriminate.
Qed.

(** C40: the script end to end.  After its 20 warm-up reads, on a
    camera whose frames all have the size of the first one, [main] runs
    through the whole stream, the first frame is the background, and the
    counters are the design's per-blob evaluation of the retained blobs
    of every later frame against the lines of its height, added up from
    0. *)
Theorem main_counts_stream (warm : list camera_read) (fr0 : color_image) (frs : list color_image) :
  length warm = warmup_reads -> Forall (fun fr => shape fr = shape fr0) frs ->
  exists s', main cfg (warm ++ grabbed_reads (fr0 :: frs)) = Running s' /\
    FirstFrame s' = Some (preprocess fr0) /\
    counts s' = stream_counts cfg (preprocess fr0) frs (mk_counters 0 0).
Proof.
  intros Hl Hall. unfold main. rewrite skipn_app_length by exact Hl.
  cbn [grabbed_reads map run_loop].
  set (s1 := mk_state (Some (preprocess fr0)) (mk_counters 0 0) (np_size1 fr0) (np_size0 fr0)).
  change (loop_iteration cfg init_state (true, Some fr0)) with (Continue s1). cbn iota.
  exact (same_size_stream_runs cfg s1 fr0 frs Hall eq_refl).
Qed.
End Theorems.

(** ** Witnesses, with the 1x1 blur and the pixel contour finder *)

Local Abbreviation dark := [[mk_bgr 0 0 0]; [mk_bgr 0 0 0]; [mk_bgr 0 0 0]; [mk_bgr 0 0 0]].
Local Abbreviation bar := [[mk_bgr 0 0 0]; [mk_bgr 255 255 255]; [mk_bgr 0 0 0]; [mk_bgr 0 0 0]].

(** The background, then a frame with a bar on row 1: lines at rows 1
    and 3, the dilated mask covers rows 0-3, three entries and two exits. *)
Lemma run_refines_spec_witness :
  @script_spec_trace gaussian_blur_1x1 pixel_contour_finder (mk_config 0 70 1)
    (abstraction init_state) [dark; bar]
    (mk_spec_state (Ready [[0]; [0]; [0]; [0]]) (mk_counters 3 2)).
Proof.
  apply (proj2 (@run_refines_spec gaussian_blur_1x1 pixel_contour_finder (mk_config 0 70 1)
                  init_state [dark; bar] _)).
  exists (mk_state (Some [[0]; [0]; [0]; [0]]) (mk_counters 3 2) 1 4).
  split; [vm_compute; reflexivity | reflexivity].
Defined.

(** The background, then a bar and a dark frame of the same size: the
    loop runs on. *)
Lemma loop_runs_iff_witness :
  FirstFrame (mk_state (Some (@preprocess gaussian_blur_1x1 dark)) (mk_counters 0 0) 1 4) =
    Some (@preprocess gaussian_blur_1x1 dark) /\
  exists s', @run_loop gaussian_blur_1x1 pixel_contour_finder source_config
      (mk_state (Some (@preprocess gaussian_blur_1x1 dark)) (mk_counters 0 0) 1 4)
      (grabbed_reads [bar; dark]) = Running s'.
Proof.
  split; [reflexivity|].
  apply (proj2 (@loop_runs_iff gaussian_blur_1x1 pixel_contour_finder source_config
                  (mk_state (Some (@preprocess gaussian_blur_1x1 dark)) (mk_counters 0 0) 1 4)
                  dark (grabbed_reads [bar; dark]) eq_refl)).
  vm_compute. reflexivity.
Defined.

Lemma main_counts_stream_witness :
  (length (repeat ((false, None) : camera_read) 20) = warmup_reads /\ Forall (fun fr => shape fr = shape dark) [bar]) /\
  exists s', @main gaussian_blur_1x1 pixel_contour_finder (mk_config 0 70 1)
      (repeat ((false, None) : camera_read) 20 ++ grabbed_reads [dark; bar]) = Running s' /\
    FirstFrame s' = Some (@preprocess gaussian_blur_1x1 dark) /\
    counts s' = @stream_counts gaussian_blur_1x1 pixel_contour_finder (mk_config 0 70 1)
                  (@preprocess gaussian_blur_1x1 dark) [bar] (mk_counters 0 0) /\
    @stream_counts gaussian_blur_1x1 pixel_contour_finder (mk_config 0 70 1)
      (@preprocess gaussian_blur_1x1 dark) [bar] (mk_counters 0 0) = mk_counters 3 2.
Proof.
  assert (Hall : Forall (fun fr => shape fr = shape dark) [bar]) by repeat constructor.
  split; [split; [reflexivity | exact Hall]|].
  cut (@stream_counts gaussian_blur_1x1 pixel_contour_finder (mk_config 0 70 1)
      (@preprocess gaussian_blur_1x1 dark) [bar] (mk_counters 0 0) = mk_counters 3 2);
    [intros E|vm_compute; reflexivity].
  destruct (@main_counts_stream gaussian_blur_1x1 pixel_contour_finder (mk_config 0 70 1)
           (repeat ((false, None) : camera_read) 20) dark _ eq_refl Hall) as [s' [H1 [H2 H3]]].
  exists s'. repeat split; assumption.
Defined.

