(* ===== verification/Driver.v ===== *)
(** The script with its effects: [src/converted.py] as a whole, lines
    33-46 and 124-126 around the loop, and the drawing and display calls
    of the loop body (lines 81-82, 98, 104, 114-122).

    Every call the script makes to the camera, the console and the window
    is an [event], written to an output trace by a small writer monad
    [io] ([ret], [bind], [emit] and the notation [x <- m ;; k] of
    [io_scope]).  The answers of the camera are the list of reads, as in
    [Pipeline]; everything else the script calls returns nothing it uses.
    The drawing calls are recorded with their arguments (points, BGR
    colour, thickness); what they do to the pixels of [Frame] is OpenCV's
    rasterisation, not modelled, and [Frame] is not read again by the
    counting.  The state of the loop is computed by the definitions of
    [Pipeline] and [LineCounter]; the effectful definitions here emit the
    events around them, in the order of the source.  [blob_drawing],
    [is_imshow] and [frame_blobs] select what a whole run shows: the
    drawing events, the window updates, and the contours of a frame that
    pass the area filter. *)

From Stdlib Require Import ZArith List Lia Bool Ascii String QArith.
From S2P Require Import Prelude Config Image ChangeDetector Contours LineCounter Pipeline CounterSpec.
Import ListNotations.
Open Scope Z_scope.

(** ** Events *)

Definition point2 := (Z * Z)%type.

(** A BGR colour tuple. *)
Definition color := (Z * Z * Z)%type.

Inductive font := FONT_HERSHEY_SIMPLEX.

Inductive event :=
| VideoCapture (index : Z)                                        (** line 33 *)
| CameraSet (propId value : Z)                                    (** lines 36-37 *)
| CameraRead                                                      (** lines 44, 48 *)
| CvLine (pt1 pt2 : point2) (c : color) (thickness : Z)           (** lines 81-82 *)
| CvRectangle (pt1 pt2 : point2) (c : color) (thickness : Z)      (** line 98 *)
| CvCircle (center : point2) (radius : Z) (c : color) (thickness : Z)  (** line 104 *)
| Print (s : string)                                              (** line 114 *)
| PutText (text : string) (org : point2) (f : font) (fontScale : Q)
          (c : color) (thickness : Z)                             (** lines 117-120 *)
| Imshow (winname : string)                                       (** line 121 *)
| WaitKey (delay : Z)                                             (** line 122 *)
| CameraRelease                                                   (** line 125 *)
| DestroyAllWindows.                                              (** line 126 *)

(** [camera.release()] and [cv2.destroyAllWindows()]. *)
Definition teardown_event (e : event) : bool :=
  match e with CameraRelease | DestroyAllWindows => true | _ => false end.

(** ** The output-trace monad *)

Definition io (A : Type) : Type := (A * list event)%type.

Definition ret {A} (a : A) : io A := (a, []).

Definition bind {A B} (m : io A) (k : A -> io B) : io B :=
  let '(a, w) := m in let '(b, w') := k a in (b, w ++ w').

Definition emit (e : event) : io unit := (tt, [e]).

Declare Scope io_scope.
Delimit Scope io_scope with io.
Notation "x <- m ;; k" := (bind m (fun x => k))
  (at level 61, m at next level, right associativity) : io_scope.
Notation "m ;; k" := (bind m (fun _ => k)) (at level 61, right associativity) : io_scope.
Open Scope io_scope.

Create Rewrite HintDb io_rw.

(** A [for] loop threading a value through the monad. *)
Fixpoint fold_io {A B} (f : A -> B -> io A) (l : list B) (a : A) : io A :=
  match l with
  | [] => ret a
  | b :: l' => x <- f a b ;; fold_io f l' x
  end.

(** ** Python's [str] on integers *)

Fixpoint string_of_uint (d : Decimal.uint) : string :=
  match d with
  | Decimal.Nil => EmptyString
  | Decimal.D0 d => String "0"%char (string_of_uint d)
  | Decimal.D1 d => String "1"%char (string_of_uint d)
  | Decimal.D2 d => String "2"%char (string_of_uint d)
  | Decimal.D3 d => String "3"%char (string_of_uint d)
  | Decimal.D4 d => String "4"%char (string_of_uint d)
  | Decimal.D5 d => String "5"%char (string_of_uint d)
  | Decimal.D6 d => String "6"%char (string_of_uint d)
  | Decimal.D7 d => String "7"%char (string_of_uint d)
  | Decimal.D8 d => String "8"%char (string_of_uint d)
  | Decimal.D9 d => String "9"%char (string_of_uint d)
  end.

(** [str(n)]: the decimal digits, with a minus sign when negative. *)
Definition py_str (n : Z) : string :=
  match Z.to_int n with
  | Decimal.Pos d => string_of_uint d
  | Decimal.Neg d => String "-"%char (string_of_uint d)
  end.

(** ** The loop body with its drawing calls *)

Section Effects.
Context `{GaussianBlur} `{ContourFinder} (cfg : config).

(** Lines 85-112 for one contour: skip a small one; otherwise the box
    (line 98) and the centre (line 104) are drawn on [Frame], then the
    counters are updated as in [process_contour]. *)
Definition process_contour_io (entry exit : Z) (st : pass_state) (c : contour) : io pass_state :=
  if too_small cfg c then ret st
  else
    let b := boundingRect c in
    emit (CvRectangle (box_x b, box_y b) (box_x b + box_w b, box_y b + box_h b) (0, 255, 0) 2) ;;
    emit (CvCircle (CenterXCoord b, CenterYCoord b) 1 (0, 0, 0) 5) ;;
    ret (process_contour cfg entry exit st c).

(** Lines 76-112: [ContourCount = 0], the two reference lines drawn
    across the frame (blue, then red), then the loop over the contours. *)
Definition count_frame_io (height width : Z) (contours : list contour) (ctrs : counters)
    : io pass_state :=
  let entry := EntryLineYCoord cfg height in
  let exit := ExitLineYCoord cfg height in
  emit (CvLine (0, entry) (width, entry) (255, 0, 0) 2) ;;
  emit (CvLine (0, exit) (width, exit) (0, 0, 255) 2) ;;
  fold_io (process_contour_io entry exit) contours (mk_pass ctrs 0).

(** Lines 114-122: the number of retained contours on the console, the
    two counters on the frame, the frame in the window. *)
Definition show_frame (st : pass_state) : io unit :=
  emit (Print (append "Detected contours: "%string (py_str (ContourCount st)))) ;;
  emit (PutText (append "Entries: "%string (py_str (EntryCounter (pass_counters st)))) (10, 50)
          FONT_HERSHEY_SIMPLEX (1 # 2) (250, 0, 1) 2) ;;
  emit (PutText (append "Exits: "%string (py_str (ExitCounter (pass_counters st)))) (10, 70)
          FONT_HERSHEY_SIMPLEX (1 # 2) (0, 0, 255) 2) ;;
  emit (Imshow "Original"%string) ;;
  emit (WaitKey 1).

(** One pass of the [while True] body (lines 48-122), with its events:
    the read, then nothing until the contours are counted. *)
Definition loop_iteration_io (s : state) (r : camera_read) : io outcome :=
  emit CameraRead ;;
  let '(grabbed, Frame) := r in
  match Frame with
  | None => ret (Raise IndexError)
  | Some fr =>
      let s1 := mk_state (FirstFrame s) (counts s) (np_size1 fr) (np_size0 fr) in
      if negb grabbed then ret (Break s1) else
      let FrameGray := preprocess fr in
      match FirstFrame s with
      | None => ret (Continue (mk_state (Some FrameGray) (counts s1) (width s1) (height s1)))
      | Some bg =>
          match detect cfg bg FrameGray with
          | None => ret (Raise CvError)
          | Some FrameThresh =>
              st <- count_frame_io (height s1) (width s1) (findContours FrameThresh) (counts s1) ;;
              show_frame st ;;
              ret (Continue (mk_state (FirstFrame s1) (pass_counters st) (width s1) (height s1)))
          end
      end
  end.

Fixpoint run_loop_io (s : state) (reads : list camera_read) : io run_result :=
  match reads with
  | [] => ret (Running s)
  | r :: rs =>
      o <- loop_iteration_io s r ;;
      match o with
      | Continue s' => run_loop_io s' rs
      | Break s' => ret (Stopped s')
      | Raise e => ret (Crashed e)
      end
  end.

(** Lines 43-44: [n] reads whose results are dropped; the rest of the
    camera's answers go to the loop. *)
Fixpoint warmup_io (n : nat) (reads : list camera_read) : io (list camera_read) :=
  match n, reads with
  | O, _ => ret reads
  | S _, [] => ret []
  | S n', _ :: rs => emit CameraRead ;; warmup_io n' rs
  end.

(** The script: open camera 0 at 640x480 (lines 33-37), the warm-up,
    the loop, and after a [break] the release of the camera and the
    windows (lines 125-126).  An exception skips the release. *)
Definition program_io (reads : list camera_read) : io run_result :=
  emit (VideoCapture 0) ;;
  emit (CameraSet 3 640) ;;
  emit (CameraSet 4 480) ;;
  rest <- warmup_io warmup_reads reads ;;
  res <- run_loop_io init_state rest ;;
  match res with
  | Stopped _ => emit CameraRelease ;; emit DestroyAllWindows ;; ret res
  | _ => ret res
  end.
End Effects.

(** The drawing of one retained contour: its box, then its centre. *)
Definition draw_blob (c : contour) : list event :=
  let b := boundingRect c in
  [CvRectangle (box_x b, box_y b) (box_x b + box_w b, box_y b + box_h b) (0, 255, 0) 2;
   CvCircle (CenterXCoord b, CenterYCoord b) 1 (0, 0, 0) 5].

(** ** What a run shows *)

(** The events that draw a blob on [Frame]: its box and its centre. *)
Definition blob_drawing (e : event) : bool :=
  match e with CvRectangle _ _ _ _ | CvCircle _ _ _ _ => true | _ => false end.

(** The events that show [Frame] in the window. *)
Definition is_imshow (e : event) : bool := match e with Imshow _ => true | _ => false end.

(** The contours of a frame [fr] that pass the filter of line 87, the
    background being the gray version of [fr0]. *)
Definition frame_blobs `{GaussianBlur} `{ContourFinder} (cfg : config) (fr0 fr : color_image)
    : list contour :=
  match detect cfg (preprocess fr0) (preprocess fr) with
  | Some m => filter (retained cfg) (findContours m)
  | None => []
  end.

(** ** The monad *)

Lemma fst_bind {A B} (m : io A) (k : A -> io B) : fst (bind m k) = fst (k (fst m)).
Proof. destruct m as [a w]. cbn. destruct (k a). reflexivity. Qed.

Lemma snd_bind {A B} (m : io A) (k : A -> io B) : snd (bind m k) = snd m ++ snd (k (fst m)).
Proof. destruct m as [a w]. cbn. destruct (k a). reflexivity. Qed.

Lemma bind_ret_l {A B} (a : A) (k : A -> io B) : bind (ret a) k = k a.
Proof. unfold bind, ret. destruct (k a). reflexivity. Qed.

Lemma bind_ret_r {A} (m : io A) : bind m ret = m.
Proof. destruct m. cbn. rewrite app_nil_r. reflexivity. Qed.

Lemma bind_assoc {A B C} (m : io A) (k : A -> io B) (g : B -> io C) :
  bind (bind m k) g = bind m (fun a => bind (k a) g).
Proof.
  destruct m as [a w]. cbn. destruct (k a) as [b w']. cbn. destruct (g b). rewrite app_assoc. reflexivity.
Qed.

#[export] Hint Rewrite @fst_bind @snd_bind : io_rw.

(** The [for] loop over the contours: the pass of [LineCounter] and the
    drawing of the retained contours, in their order. *)
Lemma fold_io_process `{GaussianBlur} `{ContourFinder} (cfg : config) (en ex : Z)
    (cs : list contour) (st : pass_state) :
  fold_io (process_contour_io cfg en ex) cs st =
  (fold_left (process_contour cfg en ex) cs st, flat_map draw_blob (filter (retained cfg) cs)).
Proof.
  revert st. induction cs as [|c cs IH]; intros st; [reflexivity|].
  cbn [fold_io fold_left filter]. unfold process_contour_io, retained.
  destruct (too_small cfg c) eqn:E; cbn [negb].
  - rewrite bind_ret_l.
    replace (process_contour cfg en ex st c) with st by (unfold process_contour; rewrite E; reflexivity).
    apply IH.
  - unfold bind at 1. cbn. rewrite IH. reflexivity.
Qed.

Lemma count_frame_io_eq `{GaussianBlur} `{ContourFinder} (cfg : config) (height width : Z)
    (cs : list contour) (ctrs : counters) :
  count_frame_io cfg height width cs ctrs =
  (count_frame cfg height cs ctrs,
   CvLine (0, EntryLineYCoord cfg height) (width, EntryLineYCoord cfg height) (255, 0, 0) 2 ::
   CvLine (0, ExitLineYCoord cfg height) (width, ExitLineYCoord cfg height) (0, 0, 255) 2 ::
   flat_map draw_blob (filter (retained cfg) cs)).
Proof. unfold count_frame_io. cbn. rewrite fold_io_process. reflexivity. Qed.

(** The warm-up drops the first [n] reads and reads the camera once for each. *)
Lemma warmup_io_eq (n : nat) (reads : list camera_read) :
  warmup_io n reads = (skipn n reads, repeat CameraRead (Nat.min n (List.length reads))).
Proof.
  revert reads. induction n as [|n IH]; intros [|r rs]; try reflexivity.
  cbn [warmup_io]. unfold bind at 1. cbn. rewrite IH. reflexivity.
Qed.

Section Loop.
Context `{GaussianBlur} `{ContourFinder} (cfg : config).

(** The state part of an iteration is [Pipeline.loop_iteration]. *)
Lemma loop_iteration_io_fst (s : state) (r : camera_read) :
  fst (loop_iteration_io cfg s r) = loop_iteration cfg s r.
Proof.
  unfold loop_iteration_io, loop_iteration. autorewrite with io_rw. cbn [fst emit].
  destruct r as [grabbed [fr|]]; [|reflexivity]. destruct grabbed; [|reflexivity].
  cbn [negb]. destruct (FirstFrame s) as [bg|]; [|reflexivity].
  destruct (detect cfg bg (preprocess fr)); [|reflexivity].
  autorewrite with io_rw. rewrite count_frame_io_eq. reflexivity.
Qed.

Lemma run_loop_io_fst (s : state) (reads : list camera_read) :
  fst (run_loop_io cfg s reads) = run_loop cfg s reads.
Proof.
  revert s. induction reads as [|r rs IH]; intros s; [reflexivity|].
  cbn [run_loop_io run_loop]. autorewrite with io_rw. rewrite loop_iteration_io_fst.
  destruct (loop_iteration cfg s r); [apply IH | reflexivity | reflexivity].
Qed.

(** No iteration of the loop releases the camera or closes the windows. *)
Lemma loop_iteration_io_no_teardown (s : state) (r : camera_read) :
  Forall (fun e => teardown_event e = false) (snd (loop_iteration_io cfg s r)).
Proof.
  unfold loop_iteration_io. autorewrite with io_rw. cbn [fst snd emit app].
  constructor; [reflexivity|].
  destruct r as [grabbed [fr|]]; [|constructor]. destruct grabbed; [|constructor].
  cbn [negb]. destruct (FirstFrame s) as [bg|]; [|constructor].
  destruct (detect cfg bg (preprocess fr)); [|constructor].
  autorewrite with io_rw. rewrite count_frame_io_eq. cbn [fst snd].
  apply Forall_app. split.
  - repeat constructor. apply Forall_forall. intros e He.
    apply in_flat_map in He as [c [_ Hc]]. unfold draw_blob in Hc.
    destruct Hc as [<- | [<- | []]]; reflexivity.
  - repeat constructor.
Qed.

Lemma run_loop_io_no_teardown (s : state) (reads : list camera_read) :
  Forall (fun e => teardown_event e = false) (snd (run_loop_io cfg s reads)).
Proof.
  revert s. induction reads as [|r rs IH]; intros s; [constructor|].
  cbn [run_loop_io]. autorewrite with io_rw. apply Forall_app.
  split; [apply loop_iteration_io_no_teardown|].
  destruct (fst (loop_iteration_io cfg s r)); [apply IH | constructor | constructor].
Qed.
End Loop.

(** The whole run: the opening calls, one read per warm-up read, the
    events of the loop, and the release after a [break] only. *)
Lemma program_io_eq `{GaussianBlur} `{ContourFinder} (cfg : config) (reads : list camera_read) :
  program_io cfg reads =
  (fst (run_loop_io cfg init_state (skipn warmup_reads reads)),
   [VideoCapture 0; CameraSet 3 640; CameraSet 4 480] ++
   repeat CameraRead (Nat.min warmup_reads (List.length reads)) ++
   snd (run_loop_io cfg init_state (skipn warmup_reads reads)) ++
   match fst (run_loop_io cfg init_state (skipn warmup_reads reads)) with
   | Stopped _ => [CameraRelease; DestroyAllWindows]
   | _ => []
   end).
Proof.
  unfold program_io. rewrite warmup_io_eq. cbn [bind emit ret].
  destruct (run_loop_io cfg init_state (skipn warmup_reads reads)) as [[s|s|e] w];
    cbn; rewrite ?app_nil_r; reflexivity.
Qed.

Lemma filter_draw_blobs (l : list contour) :
  filter blob_drawing (flat_map draw_blob l) = flat_map draw_blob l /\
  filter is_imshow (flat_map draw_blob l) = [].
Proof.
  induction l as [|c l [IH1 IH2]]; [split; reflexivity|].
  cbn [flat_map]. rewrite !filter_app, IH1, IH2. split; reflexivity.
Qed.

Lemma filter_repeat_false {A} (f : A -> bool) (a : A) (n : nat) :
  f a = false -> filter f (repeat a n) = [].
Proof. intros Hf. induction n as [|n IH]; [reflexivity|]. cbn. rewrite Hf. exact IH. Qed.

Section Observations.
Context `{GaussianBlur} `{ContourFinder} (cfg : config).

(** The first frame read by the loop becomes the background. *)
Lemma first_iteration_io (fr0 : color_image) :
  loop_iteration_io cfg init_state (true, Some fr0) =
  (Continue (mk_state (Some (preprocess fr0)) (counts init_state) (np_size1 fr0) (np_size0 fr0)),
   [CameraRead]).
Proof. reflexivity. Qed.

(** A counting iteration draws the retained contours and shows the
    frame once. *)
Lemma iteration_observed (s : state) (bg m : gray_image) (fr : color_image) :
  FirstFrame s = Some bg -> detect cfg bg (preprocess fr) = Some m ->
  filter blob_drawing (snd (loop_iteration_io cfg s (true, Some fr))) =
    flat_map draw_blob (filter (retained cfg) (findContours m)) /\
  List.length (filter is_imshow (snd (loop_iteration_io cfg s (true, Some fr)))) = 1%nat.
Proof.
  intros Ebg Ed. unfold loop_iteration_io. cbn [negb]. rewrite Ebg, Ed.
  rewrite count_frame_io_eq. cbn [bind emit ret show_frame fst snd app filter blob_drawing is_imshow].
  destruct (filter_draw_blobs (filter (retained cfg) (findContours m))) as [D I].
  rewrite !filter_app, D, I. cbn. rewrite app_nil_r. split; reflexivity.
Qed.

(** The loop over frames of the background's size draws, frame by
    frame, the retained contours, and shows every frame once. *)
Lemma run_loop_io_observed (s : state) (fr0 : color_image) (frs : list color_image) :
  Forall (fun fr => shape fr = shape fr0) frs -> FirstFrame s = Some (preprocess fr0) ->
  filter blob_drawing (snd (run_loop_io cfg s (grabbed_reads frs))) =
    flat_map (fun fr => flat_map draw_blob (frame_blobs cfg fr0 fr)) frs /\
  List.length (filter is_imshow (snd (run_loop_io cfg s (grabbed_reads frs)))) = List.length frs.
Proof.
  intros Hall. revert s. induction Hall as [|fr frs Hfr Hrest IH]; intros s Ebg; [split; reflexivity|].
  destruct (detect_same_shape cfg fr0 fr Hfr) as [m Ed].
  destruct (iteration_observed s _ m fr Ebg Ed) as [D I].
  unfold grabbed_reads in IH |- *. cbn [map run_loop_io]. rewrite snd_bind, loop_iteration_io_fst.
  rewrite (iteration_detect cfg s _ m fr Ebg Ed).
  match goal with |- context [run_loop_io cfg ?s' (map _ frs)] =>
    destruct (IH s' eq_refl) as [IH1 IH2] end.
  rewrite !filter_app, length_app, D, I, IH1, IH2. cbn [flat_map].
  replace (frame_blobs cfg fr0 fr) with (filter (retained cfg) (findContours m))
    by (unfold frame_blobs; rewrite Ed; reflexivity).
  split; reflexivity.
Qed.
End Observations.

(** ** Theorems *)

Section Theorems.
Context `{GaussianBlur} `{ContourFinder} (cfg : config).

(** C6: what the whole script shows.  After the 20 warm-up reads, on a
    camera whose first frame becomes the background and whose later
    frames have its size, the boxes and centre dots drawn during the run
    are, frame by frame and in order, those of the contours of each
    later frame that pass the area filter, and each later frame is shown
    exactly once; the warm-up and the background frame draw and show
    nothing. *)
Theorem run_draws_retained_blobs (warm : list camera_read) (fr0 : color_image)
    (frs : list color_image) :
  List.length warm = 20%nat -> Forall (fun fr => shape fr = shape fr0) frs ->
  filter blob_drawing (snd (program_io cfg (warm ++ grabbed_reads (fr0 :: frs)))) =
    flat_map (fun fr => flat_map draw_blob (frame_blobs cfg fr0 fr)) frs /\
  List.length (filter is_imshow (snd (program_io cfg (warm ++ grabbed_reads (fr0 :: frs))))) =
    List.length frs.
Proof.
  intros Hl Hall. rewrite program_io_eq. unfold warmup_reads.
  rewrite skipn_app_length by exact Hl. unfold grabbed_reads. cbn [map run_loop_io].
  rewrite !snd_bind, !fst_bind, first_iteration_io. cbn [fst snd].
  destruct (run_loop_io_observed cfg (mk_state (Some (preprocess fr0)) (counts init_state)
              (np_size1 fr0) (np_size0 fr0)) fr0 frs Hall eq_refl) as [D I].
  unfold grabbed_reads in D, I.
  rewrite !filter_app, !length_app, !filter_repeat_false by reflexivity. cbn [filter blob_drawing is_imshow app].
  rewrite D, I.
  match goal with |- context [match ?x with Stopped _ => _ | _ => _ end] => destruct x end;
    cbn; rewrite ?app_nil_r; split; lia || reflexivity.
Qed.

(** C21: a read that returns no frame ends the script with [IndexError]
    right after the read, before [grabbed] is tested (line 49); and the
    camera is released (line 125) exactly when the loop ends with
    [break]: after an exception it is never released. *)
Theorem camera_released_iff_break :
  (forall s grabbed rest,
     run_loop_io cfg s ((grabbed, None) :: rest) = (Crashed IndexError, [CameraRead])) /\
  (forall reads, In CameraRelease (snd (program_io cfg reads)) <->
                 exists s, fst (program_io cfg reads) = Stopped s).
Proof.
  split; [reflexivity|]. intros reads. rewrite program_io_eq. cbn [fst snd].
  pose proof (run_loop_io_no_teardown cfg init_state (skipn warmup_reads reads)) as Hno.
  rewrite Forall_forall in Hno.
  destruct (run_loop_io cfg init_state (skipn warmup_reads reads)) as [res w]. cbn [fst snd] in *.
  rewrite !in_app_iff. split.
  - intros [Hp | [Hr | [Hw | Ht]]].
    + destruct Hp as [E | [E | [E | []]]]; discriminate.
    + apply repeat_spec in Hr. discriminate.
    + apply Hno in Hw. discriminate.
    + destruct res; [contradiction | eauto | contradiction].
  - intros [s ->]. right. right. right. left. reflexivity.
Qed.

(** C23: the first frame processed becomes the background and the
    iteration ends at [continue] (line 63): nothing is counted, drawn or
    shown; the only effect is the camera read. *)
Theorem first_frame_is_background (s : state) (fr : color_image) :
  FirstFrame s = None ->
  loop_iteration_io cfg s (true, Some fr) =
  (Continue (mk_state (Some (preprocess fr)) (counts s) (np_size1 fr) (np_size0 fr)), [CameraRead]).
Proof. intros E. unfold loop_iteration_io. cbn [negb]. rewrite E. reflexivity. Qed.

(** C8: what a counting iteration shows.  After the read, the entry line
    (blue) and the exit line (red) are drawn across the frame at their
    rows; each retained contour, in order, gets its bounding box (green)
    and a dot at its centre; the console gets the number of retained
    contours; and the frame shows the counters after this frame's
    updates, before it is displayed. *)
Theorem counting_iteration_display (s : state) (bg m : gray_image) (fr : color_image) :
  FirstFrame s = Some bg -> detect cfg bg (preprocess fr) = Some m ->
  let cs := findContours m in
  let en := EntryLineYCoord cfg (np_size0 fr) in
  let ex := ExitLineYCoord cfg (np_size0 fr) in
  let ctrs := pass_counters (count_frame cfg (np_size0 fr) cs (counts s)) in
  loop_iteration_io cfg s (true, Some fr) =
  (Continue (mk_state (Some bg) ctrs (np_size1 fr) (np_size0 fr)),
   [CameraRead;
    CvLine (0, en) (np_size1 fr, en) (255, 0, 0) 2;
    CvLine (0, ex) (np_size1 fr, ex) (0, 0, 255) 2] ++
   flat_map draw_blob (filter (retained cfg) cs) ++
   [Print (append "Detected contours: "%string (py_str (countb (retained cfg) cs)));
    PutText (append "Entries: "%string (py_str (EntryCounter ctrs))) (10, 50)
      FONT_HERSHEY_SIMPLEX (1 # 2) (250, 0, 1) 2;
    PutText (append "Exits: "%string (py_str (ExitCounter ctrs))) (10, 70)
      FONT_HERSHEY_SIMPLEX (1 # 2) (0, 0, 255) 2;
    Imshow "Original"%string; WaitKey 1]).
Proof.
  intros Ebg Ed. cbv zeta. unfold loop_iteration_io. cbn [negb]. rewrite Ebg, Ed.
  cbn [FirstFrame counts width height]. rewrite count_frame_io_eq.
  cbn [bind emit ret show_frame fst snd app]. rewrite count_frame_eq. cbn [ContourCount].
  reflexivity.
Qed.
End Theorems.

(** ** Witnesses, with the 1x1 blur and the pixel contour finder *)

Local Abbreviation bar := [[mk_bgr 0 0 0]; [mk_bgr 255 255 255]; [mk_bgr 0 0 0]; [mk_bgr 0 0 0]].
Local Abbreviation dark := [[mk_bgr 0 0 0]; [mk_bgr 0 0 0]; [mk_bgr 0 0 0]; [mk_bgr 0 0 0]].
Local Abbreviation ready := (mk_state (Some [[0]; [0]; [0]; [0]]) (mk_counters 0 0) 1 4).

Lemma first_frame_is_background_witness :
  FirstFrame init_state = None /\
  @loop_iteration_io gaussian_blur_1x1 pixel_contour_finder source_config init_state (true, Some bar) =
  (Continue (mk_state (Some (@preprocess gaussian_blur_1x1 bar)) (counts init_state) 1 4), [CameraRead]).
Proof.
  split; [reflexivity|].
  exact (@first_frame_is_background gaussian_blur_1x1 pixel_contour_finder source_config
           init_state bar eq_refl).
Defined.

(** The bar of row 1 against a black background: four one-pixel
    contours after dilation, each drawn, and the texts [3] and [2]. *)
Lemma counting_iteration_display_witness :
  (FirstFrame ready = Some [[0]; [0]; [0]; [0]] /\
   detect (mk_config 0 70 1) [[0]; [0]; [0]; [0]] (@preprocess gaussian_blur_1x1 bar) =
   Some [[255]; [255]; [255]; [255]]) /\
  py_str (EntryCounter (pass_counters (count_frame (mk_config 0 70 1) 4
            (pixel_contours [[255]; [255]; [255]; [255]]) (mk_counters 0 0))))
    = "3"%string /\
  snd (@loop_iteration_io gaussian_blur_1x1 pixel_contour_finder (mk_config 0 70 1) ready
         (true, Some bar)) =
  [CameraRead; CvLine (0, 1) (1, 1) (255, 0, 0) 2; CvLine (0, 3) (1, 3) (0, 0, 255) 2] ++
  flat_map draw_blob (filter (retained (mk_config 0 70 1)) (pixel_contours [[255]; [255]; [255]; [255]])) ++
  [Print "Detected contours: 4"%string;
   PutText "Entries: 3"%string (10, 50) FONT_HERSHEY_SIMPLEX (1 # 2) (250, 0, 1) 2;
   PutText "Exits: 2"%string (10, 70) FONT_HERSHEY_SIMPLEX (1 # 2) (0, 0, 255) 2;
   Imshow "Original"%string; WaitKey 1].
Proof.
  assert (Hd : detect (mk_config 0 70 1) [[0]; [0]; [0]; [0]] (@preprocess gaussian_blur_1x1 bar) =
               Some [[255]; [255]; [255]; [255]]) by (vm_compute; reflexivity).
  split; [split; [reflexivity | exact Hd]|]. split; [vm_compute; reflexivity|].
  pose proof (@counting_iteration_display gaussian_blur_1x1 pixel_contour_finder (mk_config 0 70 1)
                ready _ _ bar eq_refl Hd) as E.
  apply (f_equal snd) in E. etransitivity; [exact E|]. vm_compute. reflexivity.
Defined.

(** Twenty empty warm-up reads, a black background, then the frame with
    a bar on row 1: the four one-pixel contours of its dilated mask get a
    box and a dot each (eight drawing events), and the frame is shown
    once. *)
Lemma run_draws_retained_blobs_witness :
  (List.length (repeat ((false, None) : camera_read) 20) = 20%nat /\
   Forall (fun fr => shape fr = shape dark) [bar]) /\
  List.length (flat_map (fun fr => flat_map draw_blob
    (@frame_blobs gaussian_blur_1x1 pixel_contour_finder (mk_config 0 70 1) dark fr)) [bar]) = 8%nat /\
  filter blob_drawing (snd (@program_io gaussian_blur_1x1 pixel_contour_finder (mk_config 0 70 1)
      (repeat ((false, None) : camera_read) 20 ++ grabbed_reads [dark; bar]))) =
    flat_map (fun fr => flat_map draw_blob
      (@frame_blobs gaussian_blur_1x1 pixel_contour_finder (mk_config 0 70 1) dark fr)) [bar] /\
  List.length (filter is_imshow (snd (@program_io gaussian_blur_1x1 pixel_contour_finder
      (mk_config 0 70 1) (repeat ((false, None) : camera_read) 20 ++ grabbed_reads [dark; bar])))) =
    List.length [bar].
Proof.
  assert (Hall : Forall (fun fr => shape fr = shape dark) [bar]) by repeat constructor.
  split; [split; [reflexivity | exact Hall]|]. split; [vm_compute; reflexivity|].
  exact (@run_draws_retained_blobs gaussian_blur_1x1 pixel_contour_finder (mk_config 0 70 1)
           (repeat ((false, None) : camera_read) 20) dark [bar] eq_refl Hall).
Defined.
